(** * Schedulyze: the scheduling engines, embedded and checked against the specification

    Three schedulers of the repository are embedded here, each in a module
    of its own:

    - [Optimizer]: [StudyScheduleOptimizer] of [src/app.py]
      (weighted-blend score, proportional daily allocation, 31-day window);
    - [Tracker]: [StudyScheduler] of [src/Schedulyze/app.py]
      (tiered score, remaining-hours map, 14-day window);
    - [Api]: [StudyScheduler] and [generate_schedule_api] of
      [src/Schedulyze/api.py] (tiered score, per-subject day loop).

    Around them: [Pandas], the [generate_schedule] of [src/app_pandas.py]
    with its weekend switch; [CsvExport], the calendar export of
    [src/app.py]; [Demo], the scheduler of
    [src/Schedulyze/schedulyze_demo.py]; [Display], the row colours of the
    subject table of [src/Schedulyze/app.py].

    Conventions of the embedding.
    - Python [float] values are rationals ([Q]) and float arithmetic is
      exact rational arithmetic; Python [int] values are [Z].
    - A [date] is its proleptic Gregorian ordinal ([date.toordinal()]), so
      that [weekday() = (ordinal + 6) mod 7] and date differences are
      differences of integers.
    - The implicit [date.today()] / [datetime.now().date()] is the explicit
      argument [today].
    - A clock time printed with [strftime('%H:%M')] is represented by the
      minute of the day the string denotes ([HH * 60 + MM]); the running
      [datetime] of a day is the number of minutes since the midnight that
      starts that day.
    - A [while] loop that may not terminate takes fuel and returns
      [None] when the fuel runs out.

    Two idealisations come with these conventions, and the properties
    below are stated so as to hold of the code in spite of them.
    - Rounding is not modelled: a sum, a product or a quotient of floats
      is the exact rational. A property that fixes which operations run,
      and in which order, is stated with those operations; a bound on a
      sum of floats that rounding may overstep by its last digit is stated
      with a margin.
    - The clock and the dates have no bounds: the [OverflowError] of
      [datetime] arithmetic that leaves the years 1..9999 is not
      modelled. A property of a schedule is a property of the schedules
      that are returned; where the code cannot return, the statement says
      that no schedule comes back, not how the call ends. *)

From Stdlib Require Import ZArith QArith Qround Qminmax Lqa Lia List Sorted Ascii String Bool.
From Stdlib Require Import DecimalString.
From stdpp Require Import gmap strings.
Import ListNotations.

Set Default Goal Selector "!".

(** ** Python primitives *)

Module Py.

Open Scope Q_scope.

(** [x > 0], [x <= 0], [x < y] on floats, as booleans. *)
Definition Qltb (x y : Q) : bool := negb (Qle_bool y x).
Definition Qleb (x y : Q) : bool := Qle_bool x y.

(** Exceptions, and computations that may raise one. *)
Inductive exn := ZeroDivisionError | ValueError | ValidationError.

Inductive result (A : Type) := Ok (a : A) | Raise (e : exn).
Arguments Ok {A} a.
Arguments Raise {A} e.

#[global] Instance result_bind : MBind result := fun A B k r =>
  match r with
  | Ok a => k a
  | Raise e => Raise e
  end.

(** [date.weekday()]: Monday is 0, Sunday is 6. *)
Definition weekday (d : Z) : Z := ((d + 6) mod 7)%Z.

(** [int(x)] on a float: truncation toward zero. *)
Definition int (x : Q) : Z :=
  if Qleb 0 x then Qfloor x else Qceiling x.

(** Rounding of a rational to the nearest integer, ties to even. *)
Definition round_half_even (x : Q) : Z :=
  let f := Qfloor x in
  let r := x - inject_Z f in
  if Qltb r (1 # 2) then f
  else if Qltb (1 # 2) r then (f + 1)%Z
  else if Z.even f then f else (f + 1)%Z.

(** [round(x, 1)]: one decimal place. *)
Definition round1 (x : Q) : Q := inject_Z (round_half_even (x * 10)) / 10.

(** [strftime('%H:%M')] of a running clock given in minutes since the
    midnight of the day: the minute of the day, the date part is dropped. *)
Definition strftime_HM (t : Z) : Z := (t mod 1440)%Z.

(** [sorted] is stable: an element moves in front of an earlier one only
    when the order requires it. [before x y] says that [x], which comes
    first in the input, may stay in front of [y]. *)
Fixpoint insert_by {A} (before : A -> A -> bool) (x : A) (l : list A)
    : list A :=
  match l with
  | [] => [x]
  | y :: l' => if before x y then x :: l else y :: insert_by before x l'
  end.

Definition sorted_by {A} (before : A -> A -> bool) (l : list A) : list A :=
  foldr (insert_by before) [] l.

(** [sorted(l, key=key, reverse=True)]: highest key first. *)
Definition sorted_desc {A} (key : A -> Q) (l : list A) : list A :=
  sorted_by (fun x y => Qleb (key y) (key x)) l.

(** A [dict] whose iteration order matters: keys in insertion order,
    assignment to an existing key keeps its position. *)
Definition dict (V : Type) := list (string * V).

Fixpoint dict_set {V} (d : dict V) (k : string) (v : V) : dict V :=
  match d with
  | [] => [(k, v)]
  | (k', v') :: d' =>
      if String.eqb k' k then (k', v) :: d' else (k', v') :: dict_set d' k v
  end.

Fixpoint dict_get {V} (d : dict V) (k : string) : option V :=
  match d with
  | [] => None
  | (k', v') :: d' => if String.eqb k' k then Some v' else dict_get d' k
  end.

End Py.

(** ** [src/app.py]: [StudyScheduleOptimizer] *)

Module Optimizer.

Import Py.
Open Scope Q_scope.

(** A subject dictionary. The key ['priority_score'] is absent ([None])
    until the allocator writes it. *)
Record Subject := mkSubject {
  name : string;
  deadline : Z;
  study_hours : Z;
  difficulty : Z;
  importance : Z;
  priority_score : option Q
}.

Inductive kind := Study | Break.

Record entry := mkEntry {
  date : Z;
  start_time : Z;
  end_time : Z;
  subject : string;
  type : kind;
  duration : Z
}.

Definition calculate_priority_score (today : Z) (deadline : Z)
    (difficulty importance : Z) : Q :=
  let days_until_deadline := (deadline - today)%Z in
  let urgency_factor :=
    if (days_until_deadline <=? 0)%Z then 10
    else 1 / inject_Z days_until_deadline in
  urgency_factor * 0.4
  + inject_Z difficulty / 5 * 0.3
  + inject_Z importance / 5 * 0.3.

(** [subject['priority_score'] = ...]: the write goes to the caller's
    dictionary. *)
Definition set_priority_score (today : Z) (s : Subject) : Subject :=
  {| name := name s; deadline := deadline s; study_hours := study_hours s;
     difficulty := difficulty s; importance := importance s;
     priority_score :=
       Some (calculate_priority_score today (deadline s) (difficulty s)
               (importance s)) |}.

(** [x['priority_score']], read after every subject has been scored. *)
Definition score (s : Subject) : Q :=
  match priority_score s with Some q => q | None => 0 end.

Definition sum_scores (l : list Subject) : Q :=
  foldr (fun s acc => score s + acc) 0 l.

(** The body of [for i, subject in enumerate(sorted_subjects)]; [n] is
    [len(sorted_subjects)]. The division by [total_priority] raises
    [ZeroDivisionError] when the scores sum to zero. *)
Fixpoint distribute_loop (n i : nat) (l : list Subject)
    (total_priority total_daily_hours remaining_hours : Q)
    (hour_distribution : dict Q) : result (dict Q) :=
  match l with
  | [] => Ok hour_distribution
  | s :: l' =>
      '(hours, remaining_hours) ←
        (if (i =? n - 1)%nat then Ok (remaining_hours, remaining_hours)
         else if Qeq_bool total_priority 0 then Raise ZeroDivisionError
         else
           let proportion := score s / total_priority in
           let hours := round1 (proportion * total_daily_hours) in
           Ok (hours, remaining_hours - hours));
      let hours :=
        if Qltb 0 remaining_hours
        then Qmax 0.5 (Qmin hours (remaining_hours + 0.5))
        else 0 in
      distribute_loop n (S i) l' total_priority total_daily_hours
        remaining_hours (dict_set hour_distribution (name s) hours)
  end.

(** Returns the caller's subject list as the call leaves it, and the
    allocation or the exception raised. *)
Definition distribute_study_hours (today : Z) (subjects : list Subject)
    (total_daily_hours : Z) : list Subject * result (dict Q) :=
  match subjects with
  | [] => ([], Ok [])
  | _ =>
      let subjects := map (set_priority_score today) subjects in
      let sorted_subjects := sorted_desc score subjects in
      let total_priority := sum_scores sorted_subjects in
      (subjects,
       distribute_loop (length sorted_subjects) 0 sorted_subjects
         total_priority (inject_Z total_daily_hours)
         (inject_Z total_daily_hours) [])
  end.

(** [while total_minutes > 0] of [_create_daily_schedule], for one subject;
    returns the entries appended and the clock. One unit of fuel per test of
    the loop condition. *)
Fixpoint study_sessions (fuel : nat) (date : Z) (subject : string)
    (session_length break_length : Z) (current_time total_minutes : Z)
    : option (list entry * Z) :=
  match fuel with
  | O => None
  | S fuel' =>
      if (0 <? total_minutes)%Z then
        let session_duration := Z.min session_length total_minutes in
        let study :=
          {| date := date;
             start_time := strftime_HM current_time;
             end_time := strftime_HM (current_time + session_duration);
             subject := subject; type := Study;
             duration := session_duration |} in
        let current_time := (current_time + session_duration)%Z in
        let total_minutes := (total_minutes - session_duration)%Z in
        if (0 <? total_minutes)%Z then
          let break :=
            {| date := date;
               start_time := strftime_HM current_time;
               end_time := strftime_HM (current_time + break_length);
               subject := "Break"; type := Break;
               duration := break_length |} in
          match study_sessions fuel' date subject session_length break_length
                  (current_time + break_length)%Z total_minutes with
          | Some (es, t) => Some (study :: break :: es, t)
          | None => None
          end
        else
          match study_sessions fuel' date subject session_length break_length
                  current_time total_minutes with
          | Some (es, t) => Some (study :: es, t)
          | None => None
          end
      else Some ([], current_time)
  end.

(** [for subject, hours in hour_distribution.items()]. *)
Fixpoint subjects_loop (fuel : nat) (date : Z) (items : dict Q)
    (session_length break_length : Z) (current_time : Z)
    : option (list entry * Z) :=
  match items with
  | [] => Some ([], current_time)
  | (subject, hours) :: items' =>
      if Qltb 0 hours then
        let total_minutes := int (hours * 60) in
        match study_sessions fuel date subject session_length break_length
                current_time total_minutes with
        | Some (es, t) =>
            match subjects_loop fuel date items' session_length break_length
                    t with
            | Some (es', t') => Some (es ++ es', t')
            | None => None
            end
        | None => None
        end
      else subjects_loop fuel date items' session_length break_length
             current_time
  end.

(** [start_time] is the pair [(start_hour, start_minute)] that line 180
    reads off the ['HH:MM'] string; [time.replace] raises [ValueError] for
    an hour outside 0..23 or a minute outside 0..59. [None] is for fuel
    that ran out. *)
Definition _create_daily_schedule (fuel : nat) (date : Z)
    (hour_distribution : dict Q) (session_length break_length : Z)
    (start_time : Z * Z) : option (result (list entry)) :=
  let '(start_hour, start_minute) := start_time in
  if ((0 <=? start_hour) && (start_hour <=? 23)
      && (0 <=? start_minute) && (start_minute <=? 59))%Z
  then
    let current_time := (start_hour * 60 + start_minute)%Z in
    match subjects_loop fuel date hour_distribution session_length
            break_length current_time with
    | Some (daily_schedule, _) => Some (Ok daily_schedule)
    | None => None
    end
  else Some (Raise ValueError).

(** [while current_date <= max_date]: [days] is the number of dates from
    [current_date] to [max_date], both included. *)
Fixpoint days_loop (fuel : nat) (days : nat) (current_date : Z)
    (hour_distribution : dict Q) (session_length break_length : Z)
    (start_time : Z * Z) : option (result (list entry)) :=
  match days with
  | O => Some (Ok [])
  | S days' =>
      let rest (daily_schedule : list entry) :=
        match days_loop fuel days' (current_date + 1)%Z hour_distribution
                session_length break_length start_time with
        | Some (Ok schedule) => Some (Ok (daily_schedule ++ schedule))
        | Some (Raise e) => Some (Raise e)
        | None => None
        end in
      if (weekday current_date <? 5)%Z then
        match _create_daily_schedule fuel current_date hour_distribution
                session_length break_length start_time with
        | Some (Ok daily_schedule) => rest daily_schedule
        | Some (Raise e) => Some (Raise e)
        | None => None
        end
      else rest []
  end.

(** Returns the caller's subject list as the call leaves it, and the
    schedule. *)
Definition generate_schedule (fuel : nat) (today : Z)
    (subjects : list Subject) (start_date : Z) (daily_hours : Z)
    (session_length break_length : Z) (start_time : Z * Z)
    : option (result (list Subject * list entry)) :=
  let '(subjects, allocation) :=
    distribute_study_hours today subjects daily_hours in
  match allocation with
  | Raise e => Some (Raise e)
  | Ok hour_distribution =>
      let max_date := (start_date + 30)%Z in
      match days_loop fuel (Z.to_nat (max_date - start_date + 1)) start_date
              hour_distribution session_length break_length start_time with
      | Some (Ok schedule) => Some (Ok (subjects, schedule))
      | Some (Raise e) => Some (Raise e)
      | None => None
      end
  end.

End Optimizer.

(** ** [src/Schedulyze/app.py]: [StudyScheduler] *)

Module Tracker.

Import Py.
Open Scope Q_scope.

Record Subject := mkSubject {
  name : string;
  deadline : Z;
  hours_needed : Q;
  difficulty : Z
}.

(** The settings dictionary of [create_sidebar_settings]; [start_time] is a
    [datetime.time], given in minutes since midnight. *)
Record Settings := mkSettings {
  session_length : Z;
  break_length : Z;
  daily_hours : Q;
  start_date : Z;
  start_time : Q;
  include_weekends : bool
}.

Inductive kind := study | break.

(** A session dictionary. The keys ['start_time'] and ['difficulty'] are
    [start_time_] and [difficulty_] here, apart from the settings' and the
    subject's keys of these names; times are in minutes since midnight. *)
Record entry := mkEntry {
  date : Z;
  start_time_ : Q;
  end_time : Q;
  subject : string;
  duration_minutes : Q;
  type : kind;
  priority_score : Q;
  difficulty_ : Z
}.

Definition urgency_score (days_until_deadline : Z) : Z :=
  if (days_until_deadline <=? 0)%Z then 100
  else if (days_until_deadline <=? 1)%Z then 90
  else if (days_until_deadline <=? 3)%Z then 70
  else if (days_until_deadline <=? 7)%Z then 50
  else Z.max 10 (50 - (days_until_deadline - 7) * 2).

Definition calculate_priority_score (today : Z) (s : Subject) : Q :=
  let days_until_deadline := (deadline s - today)%Z in
  let difficulty_multiplier := inject_Z (difficulty s) / 10 in
  let hours_factor := Qmin (hours_needed s / 10) 1 in
  inject_Z (urgency_score days_until_deadline)
  * (1 + difficulty_multiplier + hours_factor).

(** [(datetime.combine(d, t) + timedelta(minutes=m)).time()]: the time of
    day, the date part is dropped. *)
Definition time_add (t m : Q) : Q :=
  let u := t + m in
  u - 1440 * inject_Z (Qfloor (u / 1440)).

(** [remaining_hours[name]]; every name read was written when the map was
    built. *)
Definition get (remaining_hours : gmap string Q) (k : string) : Q :=
  default 0 (remaining_hours !! k).

(** [{subject['name']: subject['hours_needed'] for subject in ...}]. *)
Definition init_remaining (l : list Subject) : gmap string Q :=
  foldl (fun m s => <[name s := hours_needed s]> m) ∅ l.

(** [for subject in prioritized_subjects] of one day. Returns the day's
    sessions and the remaining-hours map. *)
Fixpoint subjects_loop (today : Z) (settings : Settings) (study_date : Z)
    (l : list Subject) (remaining_hours : gmap string Q)
    (session_start_time time_accumulated : Q)
    : list entry * gmap string Q :=
  let total_daily_minutes := daily_hours settings * 60 in
  let session_length_minutes := inject_Z (session_length settings) in
  let break_length_minutes := inject_Z (break_length settings) in
  match l with
  | [] => ([], remaining_hours)
  | s :: l' =>
      if Qleb (get remaining_hours (name s)) 0 then
        subjects_loop today settings study_date l' remaining_hours
          session_start_time time_accumulated
      else if Qleb total_daily_minutes time_accumulated then
        ([], remaining_hours)
      else
        let session_duration :=
          Qmin (Qmin session_length_minutes
                  (get remaining_hours (name s) * 60))
            (total_daily_minutes - time_accumulated) in
        if Qltb session_duration 15 then
          subjects_loop today settings study_date l' remaining_hours
            session_start_time time_accumulated
        else
          let session_end_time := time_add session_start_time session_duration in
          let session :=
            {| date := study_date;
               start_time_ := session_start_time;
               end_time := session_end_time;
               subject := name s;
               duration_minutes := session_duration;
               type := study;
               priority_score := calculate_priority_score today s;
               difficulty_ := difficulty s |} in
          let remaining_hours :=
            <[name s := get remaining_hours (name s) - session_duration / 60]>
              remaining_hours in
          let time_accumulated := time_accumulated + session_duration in
          if Qltb time_accumulated
               (total_daily_minutes - session_length_minutes) then
            let break_start := session_end_time in
            let break_end := time_add break_start break_length_minutes in
            let break_session :=
              {| date := study_date;
                 start_time_ := break_start;
                 end_time := break_end;
                 subject := "Break";
                 duration_minutes := break_length_minutes;
                 type := break;
                 priority_score := 0;
                 difficulty_ := 0 |} in
            let '(es, m) :=
              subjects_loop today settings study_date l' remaining_hours
                break_end (time_accumulated + break_length_minutes) in
            (session :: break_session :: es, m)
          else
            let '(es, m) :=
              subjects_loop today settings study_date l' remaining_hours
                (time_add session_end_time break_length_minutes)
                time_accumulated in
            (session :: es, m)
  end.

(** [for day_offset in range(14)], from [day_offset] on, [days] days. *)
Fixpoint days_loop (today : Z) (settings : Settings)
    (prioritized_subjects : list Subject) (days : nat) (day_offset : Z)
    (remaining_hours : gmap string Q) : list entry * gmap string Q :=
  match days with
  | O => ([], remaining_hours)
  | S days' =>
      let study_date := (start_date settings + day_offset)%Z in
      if negb (include_weekends settings) && (5 <=? weekday study_date)%Z then
        days_loop today settings prioritized_subjects days' (day_offset + 1)
          remaining_hours
      else
        let '(daily_sessions, remaining_hours) :=
          subjects_loop today settings study_date prioritized_subjects
            remaining_hours (start_time settings) 0 in
        let '(schedule, remaining_hours) :=
          days_loop today settings prioritized_subjects days'
            (day_offset + 1) remaining_hours in
        (daily_sessions ++ schedule, remaining_hours)
  end.

(** The schedule together with the final state of [remaining_hours]. *)
Definition run (today : Z) (subjects : list Subject) (settings : Settings)
    : list entry * gmap string Q :=
  let prioritized_subjects :=
    sorted_desc (calculate_priority_score today) subjects in
  days_loop today settings prioritized_subjects 14 0
    (init_remaining prioritized_subjects).

Definition generate_optimized_schedule (today : Z) (subjects : list Subject)
    (settings : Settings) : list entry :=
  fst (run today subjects settings).

End Tracker.

(** ** [src/Schedulyze/api.py]: [StudyScheduler] and the endpoint *)

Module Api.

Import Py.
Open Scope Q_scope.

(** The Pydantic model [Subject]. *)
Record Subject := mkSubject {
  name : string;
  deadline : Z;
  hours_needed : Q;
  difficulty : Z;
  description : string
}.

(** The Pydantic model [ScheduleSettings]. *)
Record ScheduleSettings := mkSettings {
  session_length : Z;
  break_length : Z;
  daily_hours : Z;
  start_time : string;
  end_time : string;
  include_weekends : bool
}.

Inductive kind := Study | Break.

(** A schedule dictionary. The keys ['start_time'], ['end_time'] and
    ['difficulty'] are [start_time_], [end_time_] and [difficulty_] here,
    apart from the settings' and the subject's keys of these names. *)
Record entry := mkEntry {
  date : Z;
  start_time_ : Z;
  end_time_ : Z;
  subject : string;
  duration_hours : Q;
  session_type : kind;
  priority_score : Q;
  difficulty_ : Z
}.

Definition urgency_score (days_until_deadline : Z) : Z :=
  if (days_until_deadline <=? 0)%Z then 100
  else if (days_until_deadline <=? 1)%Z then 90
  else if (days_until_deadline <=? 3)%Z then 70
  else if (days_until_deadline <=? 7)%Z then 50
  else Z.max 10 (50 - (days_until_deadline - 7) * 2).

Definition calculate_priority_score (today : Z) (s : Subject) : Q :=
  let days_until_deadline := (deadline s - today)%Z in
  let difficulty_multiplier := inject_Z (difficulty s) / 10 in
  let hours_factor := Qmin (hours_needed s / 10) 1 in
  inject_Z (urgency_score days_until_deadline)
  * (1 + difficulty_multiplier + hours_factor).

(** [datetime.strptime(s, "%H:%M")] on ASCII digits: the format compiles
    to the regular expression [(2[0-3]|[0-1]\d|\d):([0-5]\d|\d)], which
    must consume the whole string. *)
Definition digit (c : ascii) : option Z :=
  let n := Z.of_N (N_of_ascii c) in
  if ((48 <=? n) && (n <=? 57))%Z then Some (n - 48)%Z else None.

Definition parse_H (l : list ascii) : option (Z * list ascii) :=
  match l with
  | c1 :: c2 :: rest =>
      match digit c1, digit c2 with
      | Some d1, Some d2 =>
          if ((d1 =? 2) && (d2 <=? 3) || (d1 <=? 1))%Z
          then Some (d1 * 10 + d2, rest)%Z
          else Some (d1, c2 :: rest)
      | Some d1, None => Some (d1, c2 :: rest)
      | None, _ => None
      end
  | [c1] => match digit c1 with Some d1 => Some (d1, []) | None => None end
  | [] => None
  end.

Definition parse_M (l : list ascii) : option (Z * list ascii) :=
  match l with
  | c1 :: c2 :: rest =>
      match digit c1, digit c2 with
      | Some d1, Some d2 =>
          if (d1 <=? 5)%Z then Some (d1 * 10 + d2, rest)%Z
          else Some (d1, c2 :: rest)
      | Some d1, None => Some (d1, c2 :: rest)
      | None, _ => None
      end
  | [c1] => match digit c1 with Some d1 => Some (d1, []) | None => None end
  | [] => None
  end.

Definition strptime_HM (s : string) : result (Z * Z) :=
  match parse_H (list_ascii_of_string s) with
  | Some (h, c :: rest) =>
      if Ascii.eqb c ":" then
        match parse_M rest with
        | Some (m, []) => Ok (h, m)
        | _ => Raise ValueError
        end
      else Raise ValueError
  | _ => Raise ValueError
  end.

(** [for session in range(sessions_today)], from index [session] on,
    [n] iterations left; the clock is in minutes, fractions included.
    Returns the entries appended and [hours_remaining]. *)
Fixpoint sessions_loop (n : nat) (session sessions_today : Z)
    (settings : ScheduleSettings) (study_date : Z) (subject_name : string)
    (score : Q) (difficulty : Z) (session_duration_hours : Q)
    (hours_remaining current_time : Q) : list entry * Q :=
  match n with
  | O => ([], hours_remaining)
  | S n' =>
      let session_duration := Qmin session_duration_hours hours_remaining in
      if Qleb session_duration 0 then ([], hours_remaining)
      else
        let end_time := current_time + session_duration * 60 in
        let study :=
          {| date := study_date;
             start_time_ := strftime_HM (Qfloor current_time);
             end_time_ := strftime_HM (Qfloor end_time);
             subject := subject_name;
             duration_hours := session_duration;
             session_type := Study;
             priority_score := score;
             difficulty_ := difficulty |} in
        let hours_remaining := hours_remaining - session_duration in
        let current_time := end_time + inject_Z (break_length settings) in
        let breaks :=
          if (session <? sessions_today - 1)%Z && Qltb 0 hours_remaining then
            [{| date := study_date;
                start_time_ :=
                  strftime_HM
                    (Qfloor (current_time - inject_Z (break_length settings)));
                end_time_ := strftime_HM (Qfloor current_time);
                subject := "Break";
                duration_hours := inject_Z (break_length settings) / 60;
                session_type := Break;
                priority_score := 0;
                difficulty_ := 0 |}]
          else [] in
        let '(es, h) :=
          sessions_loop n' (session + 1) sessions_today settings study_date
            subject_name score difficulty session_duration_hours
            hours_remaining current_time in
        (study :: breaks ++ es, h)
  end.

(** [for day_offset in range(days_available)], from [day_offset] on, [n]
    iterations left. Returns the entries appended for the subject. *)
Fixpoint days_loop (n : nat) (day_offset days_available : Z)
    (settings : ScheduleSettings) (current_date : Z) (subject_name : string)
    (score : Q) (difficulty : Z) (session_duration_hours : Q)
    (hours_remaining : Q) : result (list entry) :=
  match n with
  | O => Ok []
  | S n' =>
      let study_date := (current_date + day_offset)%Z in
      if negb (include_weekends settings) && (5 <=? weekday study_date)%Z then
        days_loop n' (day_offset + 1) days_available settings current_date
          subject_name score difficulty session_duration_hours
          hours_remaining
      else
        let remaining_days := (days_available - day_offset)%Z in
        let hours_today :=
          Qmin (Qmin (hours_remaining / inject_Z (Z.max remaining_days 1))
                  (inject_Z (daily_hours settings)))
            hours_remaining in
        '(es, hours_remaining) ←
          (if Qltb 0 hours_today then
             let sessions_today :=
               int (inject_Z (Qceiling (hours_today / session_duration_hours))) in
             '(h, m) ← strptime_HM (start_time settings);
             Ok (sessions_loop (Z.to_nat sessions_today) 0 sessions_today
                   settings study_date subject_name score difficulty
                   session_duration_hours hours_remaining
                   (inject_Z (h * 60 + m)))
           else Ok ([], hours_remaining));
        if Qleb hours_remaining 0 then Ok es
        else
          rest ← days_loop n' (day_offset + 1) days_available settings
                    current_date subject_name score difficulty
                    session_duration_hours hours_remaining;
          Ok (es ++ rest)
  end.

(** The body of [for subject in subjects_dict]: the entries appended for
    one subject, which carries its ['priority_score']. *)
Definition schedule_subject (settings : ScheduleSettings) (current_date : Z)
    (sd : Subject * Q) : result (list entry) :=
  let '(s, score) := sd in
  let days_available := (deadline s - current_date + 1)%Z in
  if (days_available <=? 0)%Z then Ok []
  else
    let session_duration_hours := inject_Z (session_length settings) / 60 in
    (* max_sessions_per_day = daily_hours // (session_length / 60) *)
    if Qeq_bool session_duration_hours 0 then Raise ZeroDivisionError
    else
      days_loop (Z.to_nat days_available) 0 days_available settings
        current_date (name s) score (difficulty s) session_duration_hours
        (hours_needed s).

Fixpoint subjects_loop (settings : ScheduleSettings) (current_date : Z)
    (subjects_dict : list (Subject * Q)) : result (list entry) :=
  match subjects_dict with
  | [] => Ok []
  | sd :: rest =>
      es ← schedule_subject settings current_date sd;
      es' ← subjects_loop settings current_date rest;
      Ok (es ++ es')
  end.

(** The key [(x['date'], x['start_time'])] of the final [sorted]. *)
Definition entry_le (x y : entry) : bool :=
  ((date x <? date y) || ((date x =? date y) && (start_time_ x <=? start_time_ y)))%Z.

Definition generate_optimized_schedule (today : Z) (subjects : list Subject)
    (settings : ScheduleSettings) : result (list entry) :=
  let subjects_dict :=
    map (fun s => (s, calculate_priority_score today s)) subjects in
  let subjects_dict := sorted_desc snd subjects_dict in
  let current_date := today in
  schedule ← subjects_loop settings current_date subjects_dict;
  Ok (sorted_by entry_le schedule).

(** A field of a request object: absent, of a type Pydantic refuses, or
    given. *)
Inductive field (A : Type) := Missing | IllTyped | Given (a : A).
Arguments Missing {A}.
Arguments IllTyped {A}.
Arguments Given {A} a.

Record raw_subject := mkRawSubject {
  raw_name : field string;
  raw_deadline : field Z;
  raw_hours_needed : field Q;
  raw_difficulty : field Z;
  raw_description : field string
}.

Record raw_settings := mkRawSettings {
  raw_session_length : field Z;
  raw_break_length : field Z;
  raw_daily_hours : field Z;
  raw_start_time : field string;
  raw_end_time : field string;
  raw_include_weekends : field bool
}.

Definition required {A} (f : field A) : result A :=
  match f with
  | Given a => Ok a
  | _ => Raise ValidationError
  end.

Definition optional {A} (f : field A) (default : A) : result A :=
  match f with
  | Given a => Ok a
  | Missing => Ok default
  | IllTyped => Raise ValidationError
  end.

(** The model [Subject] built from one request object. *)
Definition to_subject (r : raw_subject) : result Subject :=
  n ← required (raw_name r);
  d ← required (raw_deadline r);
  h ← required (raw_hours_needed r);
  k ← required (raw_difficulty r);
  desc ← optional (raw_description r) "";
  Ok (mkSubject n d h k desc).

(** The model [ScheduleSettings] built from the request, with its defaults. *)
Definition to_settings (r : raw_settings) : result ScheduleSettings :=
  sl ← optional (raw_session_length r) 90%Z;
  bl ← optional (raw_break_length r) 15%Z;
  dh ← optional (raw_daily_hours r) 8%Z;
  st ← optional (raw_start_time r) "09:00";
  et ← optional (raw_end_time r) "17:00";
  iw ← optional (raw_include_weekends r) true;
  Ok (mkSettings sl bl dh st et iw).

Fixpoint to_subjects (l : list raw_subject) : result (list Subject) :=
  match l with
  | [] => Ok []
  | r :: l' =>
      s ← to_subject r;
      ss ← to_subjects l';
      Ok (s :: ss)
  end.

(** What the endpoint answers: the schedule, or the [HTTPException] that
    the [except] clause raises. *)
Inductive response :=
  | Return (schedule : list entry)
  | HTTPException (status_code : Z).

Definition generate_schedule_api (today : Z) (subjects_data : list raw_subject)
    (settings_data : raw_settings) : response :=
  match
    (subjects ← to_subjects subjects_data;
     settings ← to_settings settings_data;
     generate_optimized_schedule today subjects settings)
  with
  | Ok schedule => Return schedule
  | Raise _ => HTTPException 400
  end.

End Api.

(** ** [src/app_pandas.py]: [generate_schedule] with the weekend switch *)

Module Pandas.

Import Py Optimizer.

(** The class of [src/app_pandas.py] is that of [src/app.py] but for the
    test of the day loop, [include_weekends or current_date.weekday() < 5]. *)
Fixpoint days_loop (fuel : nat) (days : nat) (current_date : Z)
    (hour_distribution : dict Q) (session_length break_length : Z)
    (start_time : Z * Z) (include_weekends : bool)
    : option (result (list entry)) :=
  match days with
  | O => Some (Ok [])
  | S days' =>
      let rest (daily_schedule : list entry) :=
        match days_loop fuel days' (current_date + 1)%Z hour_distribution
                session_length break_length start_time include_weekends with
        | Some (Ok schedule) => Some (Ok (daily_schedule ++ schedule))
        | Some (Raise e) => Some (Raise e)
        | None => None
        end in
      if include_weekends || (weekday current_date <? 5)%Z then
        match _create_daily_schedule fuel current_date hour_distribution
                session_length break_length start_time with
        | Some (Ok daily_schedule) => rest daily_schedule
        | Some (Raise e) => Some (Raise e)
        | None => None
        end
      else rest []
  end.

Definition generate_schedule (fuel : nat) (today : Z)
    (subjects : list Subject) (start_date : Z) (daily_hours : Z)
    (session_length break_length : Z) (start_time : Z * Z)
    (include_weekends : bool)
    : option (result (list Subject * list entry)) :=
  let '(subjects, allocation) :=
    distribute_study_hours today subjects daily_hours in
  match allocation with
  | Raise e => Some (Raise e)
  | Ok hour_distribution =>
      let max_date := (start_date + 30)%Z in
      match days_loop fuel (Z.to_nat (max_date - start_date + 1)) start_date
              hour_distribution session_length break_length start_time
              include_weekends with
      | Some (Ok schedule) => Some (Ok (subjects, schedule))
      | Some (Raise e) => Some (Raise e)
      | None => None
      end
  end.

End Pandas.

(** ** [src/app.py]: [create_google_calendar_export] *)

Module CsvExport.

Import Py Optimizer.

(** [str(n)] of an integer. *)
Definition str (n : Z) : string := NilZero.string_of_int (Z.to_int n).

(** The ['HH:MM'] string that a minute of the day stands for. *)
Definition pad2 (n : Z) : string :=
  if (n <? 10)%Z then "0" ++ str n else str n.

Definition show_HM (t : Z) : string :=
  pad2 (t / 60) ++ ":" ++ pad2 (t mod 60).

Definition newline : string := String (ascii_of_nat 10) EmptyString.

Section Calendar.

(** [date.strftime('%m/%d/%Y')], the calendar being the library's. *)
Variable strftime_mdY : Z -> string.

Definition csv_line (e : entry) : string :=
  subject e ++ " - Study Session,"
  ++ strftime_mdY (date e) ++ ","
  ++ show_HM (start_time e) ++ ","
  ++ strftime_mdY (date e) ++ ","
  ++ show_HM (end_time e) ++ ","
  ++ "Study session for " ++ subject e
  ++ " (" ++ str (duration e) ++ " minutes)".

(** [csv_lines] when the loop over the schedule is done. *)
Fixpoint csv_lines_loop (csv_lines : list string) (schedule : list entry)
    : list string :=
  match schedule with
  | [] => csv_lines
  | e :: schedule' =>
      match type e with
      | Study => csv_lines_loop (csv_lines ++ [csv_line e]) schedule'
      | Break => csv_lines_loop csv_lines schedule'
      end
  end.

Definition csv_lines (schedule : list entry) : list string :=
  csv_lines_loop
    ["Subject,Start Date,Start Time,End Date,End Time,Description"%string]
    schedule.

Definition create_google_calendar_export (schedule : list entry) : string :=
  String.concat newline (csv_lines schedule).

End Calendar.

End CsvExport.

(** ** [src/Schedulyze/schedulyze_demo.py]: [StudySchedulerDemo] *)

Module Demo.

Import Py.
Open Scope Q_scope.

(** The subject and settings dictionaries and the scorer are those of
    [src/Schedulyze/app.py], copied. *)
Definition Subject := Tracker.Subject.
Definition Settings := Tracker.Settings.
Definition calculate_priority_score := Tracker.calculate_priority_score.

Inductive kind := study | break.

(** A session dictionary; the times are printed with [strftime('%H:%M')],
    the score is rounded to one decimal. The date, printed with
    [strftime('%Y-%m-%d')], is kept as its ordinal. *)
Record entry := mkEntry {
  date : Z;
  start_time : Z;
  end_time : Z;
  subject : string;
  duration_minutes : Q;
  type : kind;
  priority_score : Q;
  difficulty : Z
}.

(** [time.strftime('%H:%M')] of a time of day in minutes. *)
Definition show_time (t : Q) : Z := strftime_HM (Qfloor t).

(** [for subject in prioritized_subjects] of one day: as in
    [src/Schedulyze/app.py], but [session_start_time] moves only when a
    break is appended. *)
Fixpoint subjects_loop (today : Z) (settings : Settings) (study_date : Z)
    (l : list Subject) (remaining_hours : gmap string Q)
    (session_start_time time_accumulated : Q)
    : list entry * gmap string Q :=
  let total_daily_minutes := Tracker.daily_hours settings * 60 in
  let session_length_minutes := inject_Z (Tracker.session_length settings) in
  let break_length_minutes := inject_Z (Tracker.break_length settings) in
  match l with
  | [] => ([], remaining_hours)
  | s :: l' =>
      let name := Tracker.name s in
      if Qleb (Tracker.get remaining_hours name) 0 then
        subjects_loop today settings study_date l' remaining_hours
          session_start_time time_accumulated
      else if Qleb total_daily_minutes time_accumulated then
        ([], remaining_hours)
      else
        let session_duration :=
          Qmin (Qmin session_length_minutes
                  (Tracker.get remaining_hours name * 60))
            (total_daily_minutes - time_accumulated) in
        if Qltb session_duration 15 then
          subjects_loop today settings study_date l' remaining_hours
            session_start_time time_accumulated
        else
          let session_end_time :=
            Tracker.time_add session_start_time session_duration in
          let session :=
            {| date := study_date;
               start_time := show_time session_start_time;
               end_time := show_time session_end_time;
               subject := name;
               duration_minutes := session_duration;
               type := study;
               priority_score := round1 (calculate_priority_score today s);
               difficulty := Tracker.difficulty s |} in
          let remaining_hours :=
            <[name := Tracker.get remaining_hours name - session_duration / 60]>
              remaining_hours in
          let time_accumulated := time_accumulated + session_duration in
          if Qltb time_accumulated
               (total_daily_minutes - session_length_minutes) then
            let break_start := session_end_time in
            let break_end := Tracker.time_add break_start break_length_minutes in
            let break_session :=
              {| date := study_date;
                 start_time := show_time break_start;
                 end_time := show_time break_end;
                 subject := "Break";
                 duration_minutes := break_length_minutes;
                 type := break;
                 priority_score := 0;
                 difficulty := 0 |} in
            let '(es, m) :=
              subjects_loop today settings study_date l' remaining_hours
                break_end (time_accumulated + break_length_minutes) in
            (session :: break_session :: es, m)
          else
            let '(es, m) :=
              subjects_loop today settings study_date l' remaining_hours
                session_start_time time_accumulated in
            (session :: es, m)
  end.

(** [for day_offset in range(7)], from [day_offset] on, [days] days. *)
Fixpoint days_loop (today : Z) (settings : Settings)
    (prioritized_subjects : list Subject) (days : nat) (day_offset : Z)
    (remaining_hours : gmap string Q) : list entry * gmap string Q :=
  match days with
  | O => ([], remaining_hours)
  | S days' =>
      let study_date := (Tracker.start_date settings + day_offset)%Z in
      if negb (Tracker.include_weekends settings)
         && (5 <=? weekday study_date)%Z then
        days_loop today settings prioritized_subjects days' (day_offset + 1)
          remaining_hours
      else
        let '(daily_sessions, remaining_hours) :=
          subjects_loop today settings study_date prioritized_subjects
            remaining_hours (Tracker.start_time settings) 0 in
        let '(schedule, remaining_hours) :=
          days_loop today settings prioritized_subjects days'
            (day_offset + 1) remaining_hours in
        (daily_sessions ++ schedule, remaining_hours)
  end.

Definition generate_optimized_schedule (today : Z) (subjects : list Subject)
    (settings : Settings) : list entry :=
  let prioritized_subjects :=
    sorted_desc (calculate_priority_score today) subjects in
  fst (days_loop today settings prioritized_subjects 7 0
         (Tracker.init_remaining prioritized_subjects)).

End Demo.

(** ** [src/Schedulyze/app.py]: the urgency colours of the subject table *)

Module Display.

(** [highlight_urgency] of [display_subjects_table], on the row's
    ['Days Until Deadline']; [len_row] is the number of columns. *)
Definition highlight_urgency (len_row : nat) (days_until_deadline : Z)
    : list string :=
  if (days_until_deadline <=? 1)%Z
  then repeat "background-color: #ffcccc"%string len_row
  else if (days_until_deadline <=? 3)%Z
  then repeat "background-color: #ffe6cc"%string len_row
  else if (days_until_deadline <=? 7)%Z
  then repeat "background-color: #ffffcc"%string len_row
  else repeat "background-color: #ccffcc"%string len_row.

End Display.

(** * Vocabulary of the properties *)

(** ** Scores *)

Section ScoreTerms.

Import Py Optimizer.
Open Scope Q_scope.

(** The score as the specification words it: urgency from the days left,
    then the 0.4 / 0.3 / 0.3 blend over scales [difficulty_max] and
    [importance_max]. *)
Definition spec_urgency (days_left : Z) : Q :=
  if (days_left <=? 0)%Z then 10 else 1 / inject_Z days_left.

Definition spec_score (difficulty_max importance_max : Q) (days_left : Z)
    (difficulty importance : Z) : Q :=
  0.4 * spec_urgency days_left
  + 0.3 * (inject_Z difficulty / difficulty_max)
  + 0.3 * (inject_Z importance / importance_max).

End ScoreTerms.

(** ** Allocations *)

Section AllocationTerms.

Import Py Optimizer.
Open Scope Q_scope.

(** [s'] is [s] with the key ['priority_score'] written and every other
    key left as it was. *)
Definition same_but_score (today : Z) (s s' : Subject) : Prop :=
  name s' = name s /\ deadline s' = deadline s
  /\ study_hours s' = study_hours s /\ difficulty s' = difficulty s
  /\ importance s' = importance s
  /\ priority_score s' =
       Some (calculate_priority_score today (deadline s) (difficulty s)
               (importance s)).

(** Three subjects due a week after day 738886 (Monday 2024-01-01), of
    difficulty and importance 3, that need one hour each. *)
Definition algebra : Subject := mkSubject "Algebra" 738893 1 3 3 None.
Definition biology : Subject := mkSubject "Biology" 738893 1 3 3 None.
Definition chemistry : Subject := mkSubject "Chemistry" 738893 1 3 3 None.

(** [s'] is [s] up to the key ['study_hours'] (and ['priority_score'],
    which the allocator overwrites). *)
Definition same_but_need (s s' : Subject) : Prop :=
  name s' = name s /\ deadline s' = deadline s
  /\ difficulty s' = difficulty s /\ importance s' = importance s.

(** Two subjects with the same name and the same score are allocated alike. *)
Definition same_name_score (s s' : Subject) : Prop :=
  name s' = name s /\ score s' = score s.

(** Every subject's allocation, in minutes, is at most the minutes the
    subject needs. *)
Definition capped_by_need (subjects : list Subject) (d : dict Q) : Prop :=
  forall s hours,
    In s subjects -> dict_get d (name s) = Some hours ->
    hours * 60 <= inject_Z (study_hours s) * 60.

(** The hours of an allocation, summed. *)
Definition sum_values (d : dict Q) : Q :=
  foldr (fun kv acc => snd kv + acc) 0 d.

(** Every allocated value is zero or at least half an hour. *)
Definition floored (d : dict Q) : Prop :=
  Forall (fun kv => snd kv == 0 \/ 1 # 2 <= snd kv) d.

End AllocationTerms.

(** ** Days of [src/app.py] *)

Section DayTerms.

Import Py Optimizer.
Open Scope Z_scope.

(** The blocks [es] are laid end to end on a clock that starts at [t]
    (minutes since midnight, not wrapped): each block starts where the clock
    stands and moves it by its duration. *)
Fixpoint clocked (t : Z) (es : list entry) : Prop :=
  match es with
  | [] => True
  | e :: es' =>
      start_time e = strftime_HM t
      /\ end_time e = strftime_HM (t + duration e)
      /\ clocked (t + duration e) es'
  end.


(** Minutes of all the blocks of [es]. *)
Definition total_minutes (es : list entry) : Z :=
  foldr (fun e acc => duration e + acc) 0 es.

(** [entry['type'] == 'Study']. *)
Definition is_study (e : entry) : bool :=
  match type e with Study => true | Break => false end.

(** Minutes of the Study blocks of [es]. *)
Definition study_total (es : list entry) : Z :=
  total_minutes (filter (fun e => is_study e = true) es).

(** Minutes of the Study blocks of subject [k]. *)
Definition study_minutes (k : string) (es : list entry) : Z :=
  total_minutes
    (filter (fun e => is_study e && String.eqb (subject e) k = true) es).

(** Minutes the allocation asks for: [int(hours * 60)] for every subject
    with [hours > 0]. *)
Definition allocated_minutes (hour_distribution : dict Q) : Z :=
  foldr (fun kv acc =>
           (if Qltb 0 (snd kv) then int (snd kv * 60) else 0) + acc)
    0 hour_distribution.


(** What a day shows of each block. *)
Definition shown (e : entry) : string * kind * Z * Z :=
  (subject e, type e, start_time e, end_time e).

(** Every Study block that is not the last block of the day is followed by
    a Break block of [break_length] minutes. *)
Fixpoint breaks_follow (break_length : Z) (es : list entry) : bool :=
  match es with
  | [] => true
  | e :: es' =>
      match type e, es' with
      | Study, e' :: _ => negb (is_study e') && (duration e' =? break_length)
      | _, _ => true
      end && breaks_follow break_length es'
  end.

(** All the subjects' hours have been scheduled on the days before [d]. *)
Definition exhausted_before (subjects : list Subject) (schedule : list entry)
    (d : Z) : Prop :=
  Forall (fun s =>
            study_hours s * 60
            <= study_minutes (name s) (filter (fun e => date e < d) schedule))
    subjects.

(** Fuel that suffices for every subject of an allocation. *)
Definition fuel_for (hour_distribution : dict Q) : nat :=
  foldr (fun kv acc => Nat.max (S (Z.to_nat (int (snd kv * 60)))) acc) 1%nat
    hour_distribution.

(** A start time that [time.replace] accepts. *)
Definition valid_start_time (start_time : Z * Z) : Prop :=
  0 <= fst start_time <= 23 /\ 0 <= snd start_time <= 59.

End DayTerms.

(** ** Days of [src/Schedulyze/app.py] *)

Section RemainingTerms.

Import Py Tracker.
Open Scope Q_scope.

(** [session['type'] == 'study']. *)
Definition is_session (e : entry) : bool :=
  match type e with study => true | break => false end.

(** Minutes of the study sessions of subject [k]. *)
Definition session_minutes (k : string) (es : list entry) : Q :=
  foldr (fun e acc =>
           if is_session e && String.eqb (subject e) k
           then duration_minutes e + acc else acc)
    0 es.

(** Two subjects that need one hour each, due in one and in ten days, and
    settings for two daily hours in 60-minute sessions from 09:00. *)
Definition maths : Subject := mkSubject "Maths" 738887 1 5.
Definition history : Subject := mkSubject "History" 738896 1 5.
Definition two_hours : Settings := mkSettings 60 15 2 738886 540 true.

(** What a day shows of each block. *)
Definition shown_session (e : entry) : string * kind * Q * Q :=
  (subject e, type e, start_time_ e, end_time e).

(** Every study session that is not the last block of the day is followed
    by a break of [break_length] minutes. *)
Fixpoint breaks_follow_sessions (break_length : Q) (es : list entry) : bool :=
  match es with
  | [] => true
  | e :: es' =>
      match type e, es' with
      | study, e' :: _ =>
          negb (is_session e') && Qeq_bool (duration_minutes e') break_length
      | _, _ => true
      end && breaks_follow_sessions break_length es'
  end.




(** [remaining_hours[k] -= session_duration / 60], for a study session of
    subject [k]; any other entry leaves the map entry as it is. *)
Definition decrement (k : string) (h : Q) (e : entry) : Q :=
  if is_session e && String.eqb (subject e) k
  then h - duration_minutes e / 60 else h.

(** The entry of subject [k] in [remaining_hours] after the entries [es],
    when it was [h] before: decremented session by session, in the order
    of [es]. *)
Definition remaining_hours_after (k : string) (h : Q) (es : list entry) : Q :=
  foldl (decrement k) h es.

(** Every study session of subject [k] in [es] is scheduled while the
    entry of [k] in [remaining_hours] is positive, and lasts at most that
    entry times 60; the entry is [h] before the first. *)
Fixpoint sessions_fit (k : string) (h : Q) (es : list entry) : Prop :=
  match es with
  | [] => True
  | e :: es' =>
      (is_session e && String.eqb (subject e) k = true ->
       0 < h /\ duration_minutes e <= h * 60)
      /\ sessions_fit k (decrement k h e) es'
  end.

(** The subjects that bear the name of [s] need the hours that [s] needs
    (so it is when no other subject bears the name). *)
Definition same_need (s : Subject) (subjects : list Subject) : Prop :=
  Forall (fun s' => name s' = name s -> hours_needed s' = hours_needed s)
    subjects.

End RemainingTerms.

(** ** Runs of entries and requests of [src/Schedulyze/api.py] *)

Section EndpointTerms.

Import Py Api.
Open Scope Q_scope.

(** [entry['session_type'] == 'Study']. *)
Definition studies (e : entry) : bool :=
  match session_type e with Study => true | Break => false end.

(** Hours of the Study entries of [es]. *)
Definition study_hours_of (es : list entry) : Q :=
  foldr (fun e acc => if studies e then duration_hours e + acc else acc) 0 es.

(** The hours a subject has left after the entries [es] have been emitted
    for it, when it had [h] hours left before. *)
Definition remaining_after (h : Q) (es : list entry) : Q :=
  foldl (fun h e => if studies e then h - duration_hours e else h) h es.

(** Every entry of [es] is emitted while the subject still has hours left:
    [h] hours before the first, and so on. *)
Fixpoint while_remaining (h : Q) (es : list entry) : Prop :=
  match es with
  | [] => True
  | e :: es' => 0 < h /\ while_remaining (remaining_after h [e]) es'
  end.

(** What the scheduler emits for one subject [s]: every entry while [s]
    has hours left, at most the hours it needs, on dates from today to its
    deadline, under its name. *)
Definition emitted_for (today : Z) (s : Subject) (es : list entry) : Prop :=
  while_remaining (hours_needed s) es
  /\ study_hours_of es <= Qmax 0 (hours_needed s)
  /\ Forall (fun e => (today <= date e <= deadline s)%Z
                      /\ (studies e = true -> subject e = name s)) es.

(** A subject due tomorrow that needs four hours, an overdue one, and the
    default settings. *)
Definition calculus : Subject := mkSubject "Calculus" 738887 4 5 "".
Definition essay : Subject := mkSubject "Essay" 738885 1 5 "".
Definition defaults : ScheduleSettings :=
  mkSettings 90 15 8 "09:00" "17:00" true.

(** What the scheduler returns for them on day 738886. *)
Definition calculus_schedule : list entry :=
  [mkEntry 738886 540 630 "Calculus" (90 # 60) Study 171.00 5;
   mkEntry 738886 630 645 "Break" (15 # 60) Break 0 0;
   mkEntry 738886 645 735 "Calculus" (90 # 60) Study 171.00 5;
   mkEntry 738887 540 600 "Calculus" (3600 # 3600) Study 171.00 5].

(** The input the specification calls malformed. *)
Definition malformed (subjects : list Subject) (settings : ScheduleSettings)
    : Prop :=
  Exists (fun s => hours_needed s <= 0
                   \/ ~ (1 <= difficulty s <= 10)%Z) subjects
  \/ (session_length settings <= 0)%Z
  \/ (daily_hours settings <= 0)%Z
  \/ (daily_hours settings * 60 < session_length settings)%Z.

(** A request with a difficulty of 99, a need of -5 hours and sessions of
    600 minutes. *)
Definition odd_subjects : list raw_subject :=
  [mkRawSubject (Given "Calculus"%string) (Given 738887%Z) (Given 2)
     (Given 99%Z) Missing;
   mkRawSubject (Given "Essay"%string) (Given 738887%Z) (Given (-5))
     (Given 5%Z) Missing].
Definition odd_settings : raw_settings :=
  mkRawSettings (Given 600%Z) Missing Missing Missing Missing Missing.

End EndpointTerms.

(** ** Colours of the subject table *)

Section DisplayTerms.

(** The colour that goes with an urgency score: red from 90 up, orange for
    70, yellow for 50, green below. *)
Definition colour_of (urgency : Z) : string :=
  if (90 <=? urgency)%Z then "background-color: #ffcccc"
  else if (urgency =? 70)%Z then "background-color: #ffe6cc"
  else if (urgency =? 50)%Z then "background-color: #ffffcc"
  else "background-color: #ccffcc".

End DisplayTerms.

(** ** The 31-day window of [src/app.py] *)

Section WindowTerms.

Import Py Optimizer.
Open Scope Z_scope.

(** The entries of a schedule dated [d]. *)
Definition on_date (d : Z) (schedule : list entry) : list entry :=
  filter (fun e => date e = d) schedule.

(** A block without its date. *)
Definition undated (e : entry) : Z * Z * string * kind * Z :=
  (start_time e, end_time e, subject e, type e, duration e).

(** The block [e] on the date [d]. *)
Definition redate (d : Z) (e : entry) : entry :=
  {| date := d; start_time := start_time e; end_time := end_time e;
     subject := subject e; type := type e; duration := duration e |}.

(** The number of weekdays among the [days] dates from [d] on. *)
Fixpoint weekdays_from (d : Z) (days : nat) : Z :=
  match days with
  | O => 0
  | S days' => (if weekday d <? 5 then 1 else 0) + weekdays_from (d + 1) days'
  end.

(** A Study block lasts between one minute and the session length and
    bears the name of a subject; a Break block lasts the break length and
    is called Break. *)
Definition block_shape (session_length break_length : Z)
    (names : list string) (e : entry) : Prop :=
  match type e with
  | Study => 0 < duration e <= session_length /\ In (subject e) names
  | Break => duration e = break_length /\ subject e = "Break"%string
  end.

End WindowTerms.

(** ** The fortnight of [src/Schedulyze/app.py] *)

Section SessionTerms.

Import Py Tracker.
Open Scope Q_scope.

(** A study session lasts between 15 minutes and the session length and
    bears the name of a subject; a break lasts the break length and is
    called Break. *)
Definition session_shape (settings : Settings) (names : list string)
    (e : entry) : Prop :=
  match type e with
  | study =>
      15 <= duration_minutes e <= inject_Z (session_length settings)
      /\ In (subject e) names
  | break =>
      duration_minutes e = inject_Z (break_length settings)
      /\ subject e = "Break"%string
  end.

(** The entry is dated in the 14 days from the start date, and on a
    weekday when weekends are left out. *)
Definition in_fortnight (settings : Settings) (e : entry) : Prop :=
  (start_date settings <= date e <= start_date settings + 13)%Z
  /\ (include_weekends settings = false -> (weekday (date e) < 5)%Z).

(** The number of study sessions of subject [k] dated [d]. *)
Definition sessions_on (d : Z) (k : string) (es : list entry) : nat :=
  length
    (filter (fun e => is_session e && String.eqb (subject e) k
                      && (date e =? d)%Z = true) es).

(** No study session of [es] is for subject [k]. *)
Definition never_scheduled (k : string) (es : list entry) : Prop :=
  Forall (fun e => is_session e = true -> subject e <> k) es.




End SessionTerms.

(** ** Entries of [src/Schedulyze/api.py] *)

Section ApiTerms.

Import Py Api.
Open Scope Q_scope.

(** The order of the key [(date, start_time)]. *)
Definition by_date_time (a b : entry) : Prop :=
  (date a < date b \/ (date a = date b /\ start_time_ a <= start_time_ b))%Z.

(** An entry is dated today or later, on a weekday when weekends are left
    out; a Study entry lasts more than nothing and at most the session
    length, in hours, and bears the name of a subject; a Break entry lasts
    the break length, in hours, and is called Break. *)
Definition api_entry_shape (today : Z) (settings : ScheduleSettings)
    (names : list string) (e : entry) : Prop :=
  (today <= date e)%Z
  /\ (include_weekends settings = false -> (weekday (date e) < 5)%Z)
  /\ match session_type e with
     | Study =>
         0 < duration_hours e <= inject_Z (session_length settings) / 60
         /\ In (subject e) names
     | Break =>
         duration_hours e = inject_Z (break_length settings) / 60
         /\ subject e = "Break"%string
     end.

(** The subject of [e] has, on the date of [e], a Study entry that starts
    at [t]. *)
Definition starts_day (t : Z) (es : list entry) (e : entry) : Prop :=
  exists e0,
    In e0 es /\ studies e0 = true /\ subject e0 = subject e
    /\ date e0 = date e /\ start_time_ e0 = t.

(** A subject object that the model [Subject] refuses: a required field
    is absent or of the wrong type, or the description is of the wrong
    type. *)
Definition refused_subject (r : raw_subject) : Prop :=
  (forall a, raw_name r <> Given a) \/ (forall a, raw_deadline r <> Given a)
  \/ (forall a, raw_hours_needed r <> Given a)
  \/ (forall a, raw_difficulty r <> Given a)
  \/ raw_description r = IllTyped.

(** A settings object that the model [ScheduleSettings] refuses: a field is
    of the wrong type. *)
Definition refused_settings (r : raw_settings) : Prop :=
  raw_session_length r = IllTyped \/ raw_break_length r = IllTyped
  \/ raw_daily_hours r = IllTyped \/ raw_start_time r = IllTyped
  \/ raw_end_time r = IllTyped \/ raw_include_weekends r = IllTyped.

(** The model [Subject] holds the values of the request object as they
    are given; an absent description is the empty string. *)
Definition read_field {A} (f : field A) (default a : A) : Prop :=
  f = Given a \/ (f = Missing /\ a = default).

Definition read_subject (r : raw_subject) (s : Subject) : Prop :=
  raw_name r = Given (name s) /\ raw_deadline r = Given (deadline s)
  /\ raw_hours_needed r = Given (hours_needed s)
  /\ raw_difficulty r = Given (difficulty s)
  /\ read_field (raw_description r) "" (description s).

(** The model [ScheduleSettings] holds the settings as they are given,
    and the declared default for every absent one. *)
Definition read_settings (r : raw_settings) (t : ScheduleSettings) : Prop :=
  read_field (raw_session_length r) 90%Z (session_length t)
  /\ read_field (raw_break_length r) 15%Z (break_length t)
  /\ read_field (raw_daily_hours r) 8%Z (daily_hours t)
  /\ read_field (raw_start_time r) "09:00" (start_time t)
  /\ read_field (raw_end_time r) "17:00" (end_time t)
  /\ read_field (raw_include_weekends r) true (include_weekends t).

(** The request for [calculus] and [essay] with every setting left to its
    default. *)
Definition calculus_request : list raw_subject :=
  [mkRawSubject (Given "Calculus"%string) (Given 738887%Z) (Given 4)
     (Given 5%Z) Missing;
   mkRawSubject (Given "Essay"%string) (Given 738885%Z) (Given 1)
     (Given 5%Z) Missing].
Definition default_request : raw_settings :=
  mkRawSettings Missing Missing Missing Missing Missing Missing.

End ApiTerms.

(** ** Sessions of [src/Schedulyze/schedulyze_demo.py] *)

Section DemoTerms.

Import Py Demo.

(** Wherever two study sessions of one date follow each other in [es],
    with no break between them, the second starts when the first starts. *)
Fixpoint stalled (es : list entry) : Prop :=
  match es with
  | e :: es' =>
      match es' with
      | e' :: _ =>
          type e = study -> type e' = study -> date e' = date e ->
          start_time e' = start_time e
      | [] => True
      end /\ stalled es'
  | [] => True
  end.

(** What a session shows. *)
Definition shown_demo (e : entry) : string * kind * Z * Z :=
  (subject e, type e, start_time e, end_time e).

End DemoTerms.

(** * Properties *)

(** ** Comparisons and sorting *)

Section PyFacts.

Import Py.
Open Scope Q_scope.

Lemma Qltb_lt (x y : Q) : Qltb x y = true <-> x < y.
Proof.
  unfold Qltb. rewrite negb_true_iff.
  destruct (Qle_bool y x) eqn:E.
  - apply Qle_bool_iff in E. split; [discriminate | intros H; lra].
  - split; [intros _ | reflexivity].
    apply Qnot_le_lt. intros H. apply Qle_bool_iff in H. congruence.
Qed.

Lemma Qltb_ge (x y : Q) : Qltb x y = false <-> y <= x.
Proof.
  unfold Qltb. rewrite negb_false_iff. apply Qle_bool_iff.
Qed.

Lemma Qleb_le (x y : Q) : Qleb x y = true <-> x <= y.
Proof. apply Qle_bool_iff. Qed.

Lemma Qleb_gt (x y : Q) : Qleb x y = false <-> y < x.
Proof.
  unfold Qleb. destruct (Qle_bool x y) eqn:E.
  - apply Qle_bool_iff in E. split; [discriminate | intros H; lra].
  - split; [intros _ | reflexivity].
    apply Qnot_le_lt. intros H. apply Qle_bool_iff in H. congruence.
Qed.

Context {A : Type}.

Lemma insert_by_perm (before : A -> A -> bool) (x : A) (l : list A) :
  Permutation (insert_by before x l) (x :: l).
Proof.
  induction l as [|y l IH]; simpl; [reflexivity|].
  destruct (before x y); [reflexivity|].
  rewrite IH. apply perm_swap.
Qed.

Lemma sorted_by_perm (before : A -> A -> bool) (l : list A) :
  Permutation (sorted_by before l) l.
Proof.
  induction l as [|x l IH]; simpl; [reflexivity|].
  unfold sorted_by in *. simpl. rewrite insert_by_perm. by constructor.
Qed.

End PyFacts.

(** ** The weighted-blend scorer of [src/app.py] *)

Section Scorer.

Import Py Optimizer.
Open Scope Q_scope.

(** C4. For every subject and every scoring date, the score computed by
    [calculate_priority_score] is
    [0.4 * urgency + 0.3 * (difficulty / 5) + 0.3 * (importance / 5)], where
    urgency is 10 when [days_left = deadline - today] is at most 0 and
    [1 / days_left] otherwise. The function is defined on every input,
    past-due deadlines included: it is a total function of the embedding
    and the only division by a variable is guarded by [days_left > 0]. *)
Theorem calculate_priority_score_spec (today deadline difficulty importance : Z) :
  calculate_priority_score today deadline difficulty importance
  == spec_score 5 5 (deadline - today) difficulty importance.
Proof.
  unfold calculate_priority_score, spec_score, spec_urgency.
  destruct (deadline - today <=? 0)%Z eqn:E; [field|].
  apply Z.leb_gt in E. field.
  intros H. rewrite Zlt_Qlt in E. change (inject_Z 0) with 0 in E. lra.
Qed.

(** An overdue subject, however late, gets urgency 10: its score is
    [4 + 0.06 * (difficulty + importance)]. *)
Lemma calculate_priority_score_overdue (today deadline difficulty importance : Z) :
  (deadline <= today)%Z ->
  calculate_priority_score today deadline difficulty importance
  == 4 + 0.06 * inject_Z (difficulty + importance).
Proof.
  intros H. unfold calculate_priority_score.
  replace (deadline - today <=? 0)%Z with true by (symmetry; apply Z.leb_le; lia).
  rewrite inject_Z_plus. field.
Qed.

(** Scenario 3 of the specification: due yesterday against due in 30 days. *)
Example overdue_beats_distant :
  calculate_priority_score 738886 738916 3 3
  < calculate_priority_score 738886 738885 3 3.
Proof. reflexivity. Qed.

Lemma calculate_priority_score_pos (today deadline difficulty importance : Z) :
  (0 <= difficulty)%Z -> (0 <= importance)%Z ->
  0 < calculate_priority_score today deadline difficulty importance.
Proof.
  intros Hd Hi. unfold calculate_priority_score.
  assert (0 <= inject_Z difficulty) by (change 0 with (inject_Z 0); by rewrite <- Zle_Qle).
  assert (0 <= inject_Z importance) by (change 0 with (inject_Z 0); by rewrite <- Zle_Qle).
  assert (0 < (if (deadline - today <=? 0)%Z then 10 else 1 / inject_Z (deadline - today))).
  { destruct (deadline - today <=? 0)%Z eqn:E; [reflexivity|].
    apply Z.leb_gt in E. apply Qlt_shift_div_l.
    - change 0 with (inject_Z 0). by rewrite <- Zlt_Qlt.
    - lra. }
  assert (0 <= inject_Z difficulty / 5) by (apply Qle_shift_div_l; lra).
  assert (0 <= inject_Z importance / 5) by (apply Qle_shift_div_l; lra).
  nra.
Qed.

End Scorer.

(** Case analysis on every [Qmin] and [Qmax] of the goal. *)
Ltac q_min_case a b :=
  let m := fresh "m" in
  let H := fresh "H" in
  pose proof (Q.min_spec a b) as H;
  set (m := Qmin a b) in *; clearbody m;
  destruct H as [[? ?]|[? ?]].

Ltac q_max_case a b :=
  let m := fresh "m" in
  let H := fresh "H" in
  pose proof (Q.max_spec a b) as H;
  set (m := Qmax a b) in *; clearbody m;
  destruct H as [[? ?]|[? ?]].

Ltac q_minmax :=
  repeat match goal with
  | |- context [Qmin ?a ?b] => q_min_case a b
  | |- context [Qmax ?a ?b] => q_max_case a b
  | _ : context [Qmin ?a ?b] |- _ => q_min_case a b
  | _ : context [Qmax ?a ?b] |- _ => q_max_case a b
  end.

(** ** The daily allocator of [src/app.py] *)

Section Allocator.

Import Py Optimizer.
Open Scope Q_scope.

Lemma round_half_even_nonneg (x : Q) : 0 <= x -> (0 <= round_half_even x)%Z.
Proof.
  intros Hx. unfold round_half_even.
  assert (0 <= Qfloor x)%Z by (change 0%Z with (Qfloor 0); by apply Qfloor_resp_le).
  repeat match goal with |- context [if ?b then _ else _] => destruct b end; lia.
Qed.

Lemma round1_nonneg (x : Q) : 0 <= x -> 0 <= round1 x.
Proof.
  intros Hx. unfold round1. apply Qle_shift_div_l; [reflexivity|].
  assert (0 <= round_half_even (x * 10))%Z as H
    by (apply round_half_even_nonneg; lra).
  rewrite Zle_Qle in H. change (inject_Z 0) with 0 in H. lra.
Qed.

(** *** What the call does to the caller's subjects *)

Lemma set_priority_score_same (today : Z) (l : list Subject) :
  Forall2 (same_but_score today) l (map (set_priority_score today) l).
Proof.
  induction l as [|s l IH]; simpl; constructor; [|exact IH].
  unfold same_but_score. simpl. tauto.
Qed.

Lemma distribute_study_hours_subjects (today : Z) (subjects : list Subject)
    (total_daily_hours : Z) :
  fst (distribute_study_hours today subjects total_daily_hours)
  = map (set_priority_score today) subjects.
Proof. destruct subjects; reflexivity. Qed.

(** C9, as stated, fails: after the allocator has run on a subject that
    had no ['priority_score'] key, the caller's record has one. *)
Lemma allocator_mutates_subjects :
  fst (distribute_study_hours 738886 [algebra] 6) <> [algebra].
Proof. vm_compute. discriminate. Qed.

(** C9 (amended). A call of [generate_schedule] that returns leaves the
    caller's subject list with the same subjects in the same order, each
    with the key ['priority_score'] written by the allocator and its other
    keys ([name], [deadline], [study_hours], [difficulty], [importance])
    unchanged. *)
Theorem generate_schedule_subjects (fuel : nat) (today : Z)
    (subjects : list Subject) (start_date daily_hours : Z)
    (session_length break_length : Z) (start_time : Z * Z)
    (subjects' : list Subject) (schedule : list entry) :
  generate_schedule fuel today subjects start_date daily_hours
    session_length break_length start_time
  = Some (Ok (subjects', schedule)) ->
  subjects' = fst (distribute_study_hours today subjects daily_hours)
  /\ Forall2 (same_but_score today) subjects subjects'.
Proof.
  unfold generate_schedule. intros H.
  pose proof (distribute_study_hours_subjects today subjects daily_hours) as Hs.
  destruct (distribute_study_hours today subjects daily_hours) as [ss [hd|e]];
    [|discriminate].
  destruct (days_loop _ _ _ _ _ _ _) as [[sch|e]|]; try discriminate.
  injection H as <- _. simpl in *. split; [reflexivity|].
  rewrite Hs. apply set_priority_score_same.
Qed.

Lemma generate_schedule_subjects_witness :
  exists schedule,
    generate_schedule 100 738886 [algebra] 738886 1 60 15 (9, 0)%Z
    = Some (Ok ([set_priority_score 738886 algebra], schedule))
    /\ Forall2 (same_but_score 738886) [algebra]
         [set_priority_score 738886 algebra].
Proof.
  destruct (generate_schedule 100 738886 [algebra] 738886 1 60 15 (9, 0)%Z)
    as [[[ss sch]|e]|] eqn:E; try (vm_compute in E; discriminate).
  destruct (generate_schedule_subjects _ _ _ _ _ _ _ _ _ _ E) as [-> H].
  exists sch. split; [reflexivity | exact H].
Defined.

(** *** The allocation does not look at the hours a subject needs *)

Lemma insert_by_Forall2 {A} (R : A -> A -> Prop) (before : A -> A -> bool)
    (x x' : A) (l l' : list A) :
  (forall a a' b b', R a a' -> R b b' -> before a b = before a' b') ->
  R x x' -> Forall2 R l l' ->
  Forall2 R (insert_by before x l) (insert_by before x' l').
Proof.
  intros Hb Hx Hl. induction Hl as [|y y' l l' Hy Hl IH]; simpl.
  - by repeat constructor.
  - rewrite <- (Hb x x' y y' Hx Hy).
    destruct (before x y); repeat constructor; auto.
Qed.

Lemma sorted_by_Forall2 {A} (R : A -> A -> Prop) (before : A -> A -> bool)
    (l l' : list A) :
  (forall a a' b b', R a a' -> R b b' -> before a b = before a' b') ->
  Forall2 R l l' -> Forall2 R (sorted_by before l) (sorted_by before l').
Proof.
  intros Hb Hl. induction Hl as [|y y' l l' Hy Hl IH]; simpl; [constructor|].
  unfold sorted_by in *. simpl. by apply insert_by_Forall2.
Qed.

Lemma sum_scores_Forall2 (l l' : list Subject) :
  Forall2 same_name_score l l' -> sum_scores l' = sum_scores l.
Proof.
  induction 1 as [|s s' l l' [_ Hs] _ IH]; simpl; [reflexivity|].
  by rewrite Hs, IH.
Qed.

Lemma distribute_loop_Forall2 (l l' : list Subject) :
  Forall2 same_name_score l l' ->
  forall n i total_priority total_daily_hours remaining_hours d,
    distribute_loop n i l' total_priority total_daily_hours remaining_hours d
    = distribute_loop n i l total_priority total_daily_hours remaining_hours d.
Proof.
  induction 1 as [|s s' l l' [Hn Hs] _ IH]; intros; simpl; [reflexivity|].
  rewrite Hn, Hs.
  destruct (i =? n - 1)%nat; simpl; [apply IH|].
  destruct (Qeq_bool total_priority 0); simpl; [reflexivity | apply IH].
Qed.

(** C2, as stated, fails: a subject that needs one hour is allocated six
    hours of a six-hour day. *)
Lemma allocation_exceeds_need :
  exists d,
    snd (distribute_study_hours 738886 [algebra] 6) = Ok d
    /\ ~ capped_by_need [algebra] d.
Proof.
  eexists. split; [vm_compute; reflexivity|].
  intros H. specialize (H algebra 6 (or_introl eq_refl) eq_refl).
  vm_compute in H. by apply H.
Qed.

(** C2 (amended). The allocation for the day does not depend on the hours
    the subjects still need: two subject lists that differ only in
    [study_hours] get the same allocation. In particular no allocation is
    capped by the need, a subject whose need is zero is allocated like any
    other, and its score stays in the total used for the split. *)
Theorem distribute_study_hours_ignores_need (today : Z)
    (subjects subjects' : list Subject) (total_daily_hours : Z) :
  Forall2 same_but_need subjects subjects' ->
  snd (distribute_study_hours today subjects' total_daily_hours)
  = snd (distribute_study_hours today subjects total_daily_hours).
Proof.
  intros H.
  assert (Forall2 same_name_score
            (map (set_priority_score today) subjects)
            (map (set_priority_score today) subjects')) as Hm.
  { induction H as [|s s' l l' (Hn & Hd & Hf & Hi) _ IH]; simpl; constructor;
      [|exact IH].
    unfold same_name_score, score. simpl. by rewrite Hn, Hd, Hf, Hi. }
  assert (Forall2 same_name_score
            (sorted_desc score (map (set_priority_score today) subjects))
            (sorted_desc score (map (set_priority_score today) subjects')))
    as Hsort.
  { apply sorted_by_Forall2; [|exact Hm].
    intros a a' b b' [_ Ha] [_ Hb]. by rewrite Ha, Hb. }
  destruct H as [|s s' l l' Hs Hl]; [reflexivity|].
  unfold distribute_study_hours.
  cbv zeta. cbn [snd].
  rewrite (sum_scores_Forall2 _ _ Hsort).
  rewrite (distribute_loop_Forall2 _ _ Hsort).
  f_equal. unfold sorted_desc.
  rewrite !(Permutation_length (sorted_by_perm _ _)).
  rewrite !length_map. simpl. f_equal. by apply Forall2_length in Hl.
Qed.

Lemma distribute_study_hours_ignores_need_witness :
  snd (distribute_study_hours 738886
         [mkSubject "Algebra" 738893 0 3 3 None] 6)
  = snd (distribute_study_hours 738886 [algebra] 6).
Proof.
  apply distribute_study_hours_ignores_need.
  repeat constructor.
Defined.

(** *** The sum of a day's allocation *)

Lemma dict_set_floored (d : dict Q) (k : string) (v : Q) :
  floored d -> v == 0 \/ 1 # 2 <= v ->
  floored (dict_set d k v)
  /\ sum_values (dict_set d k v) <= sum_values d + v.
Proof.
  intros Hd Hv. induction Hd as [|[k' v'] d Hkv Hd IH]; simpl.
  - split; [constructor; [exact Hv | constructor] | lra].
  - destruct (String.eqb k' k); simpl.
    + split; [by constructor|]. simpl in Hkv. destruct Hkv; lra.
    + destruct IH as [IH1 IH2]. split; [by constructor | lra].
Qed.

Lemma distribute_loop_bound (l : list Subject) :
  forall n i total_priority total_daily_hours remaining_hours d bound,
    n = (i + length l)%nat ->
    Forall (fun s => 0 <= score s) l ->
    0 < total_priority -> 0 <= total_daily_hours ->
    floored d ->
    sum_values d + Qmax 0 remaining_hours <= bound ->
    exists d',
      distribute_loop n i l total_priority total_daily_hours remaining_hours d
      = Ok d'
      /\ floored d'
      /\ sum_values d' <= bound + (1 # 2) * inject_Z (Z.of_nat (length l)).
Proof.
  induction l as [|s l IH]; intros n i tp T rem d bound Hn Hs Htp HT Hd Hb.
  - exists d. simpl. change (inject_Z (Z.of_nat 0)) with 0.
    split; [reflexivity|]. split; [exact Hd|].
    revert Hb. q_minmax; intros Hb; lra.
  - apply Forall_cons_iff in Hs as [Hs Hl].
    assert (Qeq_bool tp 0 = false) as Htp0.
    { destruct (Qeq_bool tp 0) eqn:E; [|reflexivity].
      apply Qeq_bool_iff in E. lra. }
    set (hr := if (i =? n - 1)%nat then (rem, rem)
               else (round1 (score s / tp * T), rem - round1 (score s / tp * T))).
    assert (0 <= round1 (score s / tp * T)) as Hr.
    { apply round1_nonneg. apply Qmult_le_0_compat; [|exact HT].
      apply Qle_shift_div_l; lra. }
    set (hours' := if Qltb 0 (snd hr)
                   then Qmax 0.5 (Qmin (fst hr) (snd hr + 0.5)) else 0).
    assert (hours' == 0 \/ 1 # 2 <= hours') as Hh.
    { unfold hours'. destruct (Qltb 0 (snd hr)); [right | left; reflexivity].
      q_minmax; lra. }
    assert (length (s :: l) = S (length l)) as Hlen by reflexivity.
    rewrite Hlen, Nat2Z.inj_succ, <- Z.add_1_r, inject_Z_plus.
    change (inject_Z 1) with 1.
    destruct (dict_set_floored d (name s) hours' Hd Hh) as [Hd' Hsum].
    assert (distribute_loop n i (s :: l) tp T rem d
            = distribute_loop n (S i) l tp T (snd hr)
                (dict_set d (name s) hours')) as ->.
    { cbn [distribute_loop]. unfold hours', hr.
      destruct (i =? n - 1)%nat; [reflexivity|]. by rewrite Htp0. }
    assert (sum_values (dict_set d (name s) hours') + Qmax 0 (snd hr)
            <= bound + (1 # 2) \/ l = []) as Hstep.
    { destruct (i =? n - 1)%nat eqn:Ei.
      - right. apply Nat.eqb_eq in Ei. simpl in Hn.
        destruct l; [reflexivity | simpl in Hn; lia].
      - left. unfold hours', hr in *. cbn [fst snd] in *.
        destruct (Qltb 0 (rem - round1 (score s / tp * T))) eqn:Er.
        + apply Qltb_lt in Er. revert Hsum Hb.
          q_minmax; intros Hsum Hb; lra.
        + apply Qltb_ge in Er. revert Hsum Hb.
          q_minmax; intros Hsum Hb; lra. }
    destruct Hstep as [Hstep | ->].
    + destruct (IH n (S i) tp T (snd hr) (dict_set d (name s) hours')
                  (bound + (1 # 2))) as (d' & E & IH1 & IH2); auto.
      { simpl in Hn. lia. }
      exists d'. split; [exact E|]. split; [exact IH1 | lra].
    + exists (dict_set d (name s) hours'). simpl.
      change (inject_Z (Z.of_nat 0)) with 0.
      split; [reflexivity|]. split; [exact Hd'|].
      assert (hours' <= Qmax 0 rem + (1 # 2)) as Hle.
      { unfold hours', hr. destruct (i =? n - 1)%nat eqn:Ei.
        - cbn [fst snd]. destruct (Qltb 0 rem) eqn:Er.
          + apply Qltb_lt in Er. q_minmax; lra.
          + q_minmax; lra.
        - apply Nat.eqb_neq in Ei. simpl in Hn. lia. }
      lra.
Qed.

Lemma sum_scores_pos (l : list Subject) :
  l <> [] -> Forall (fun s => 0 < score s) l -> 0 < sum_scores l.
Proof.
  intros Hne H. induction H as [|s l Hs Hl IH]; [done|]. simpl.
  destruct l as [|s' l]; [simpl; lra|].
  assert (0 < sum_scores (s' :: l)) by (by apply IH). lra.
Qed.

(** With non-negative difficulty and importance the scores are positive
    and the allocator does not raise. *)
Lemma sorted_scores_pos (today : Z) (subjects : list Subject) :
  Forall (fun s => (0 <= difficulty s)%Z /\ (0 <= importance s)%Z) subjects ->
  Forall (fun s => 0 < score s)
    (sorted_desc score (map (set_priority_score today) subjects)).
Proof.
  intros Hs. unfold sorted_desc.
  rewrite (sorted_by_perm _ _). apply Forall_map.
  eapply Forall_impl; [exact Hs|].
  intros s [Hd Hi]. unfold score. simpl.
  by apply calculate_priority_score_pos.
Qed.

(** C5, as stated, fails: three equally urgent subjects and a one-hour day
    are allocated half an hour each, one and a half hours in all. *)
Lemma allocation_exceeds_budget :
  exists d,
    snd (distribute_study_hours 738886 [algebra; biology; chemistry] 1) = Ok d
    /\ ~ sum_values d <= 1.
Proof.
  eexists. split; [vm_compute; reflexivity|].
  vm_compute. intros H. by apply H.
Qed.

(** The sum may also stay below the budget: the cap
    [min(hours, remaining_hours + 0.5)] is taken after [remaining_hours]
    has been decremented. A subject due today and one due in ten days
    share 1.2 hours of a six-hour day. *)
Example allocation_below_budget :
  exists d,
    snd (distribute_study_hours 738886
           [mkSubject "Algebra" 738886 10 5 5 None;
            mkSubject "Biology" 738896 10 1 1 None] 6) = Ok d
    /\ sum_values d == 1.2.
Proof. eexists. split; [vm_compute; reflexivity | reflexivity]. Qed.

(** C5 (amended). For every subject list with non-negative difficulty and
    importance and every non-negative number of daily hours, the allocator
    returns an allocation in which each value is zero or at least half an
    hour, and whose values sum to at most [total_daily_hours] plus half an
    hour per subject. *)
Theorem distribute_study_hours_sum (today : Z) (subjects : list Subject)
    (total_daily_hours : Z) :
  (0 <= total_daily_hours)%Z ->
  Forall (fun s => (0 <= difficulty s)%Z /\ (0 <= importance s)%Z) subjects ->
  exists d,
    snd (distribute_study_hours today subjects total_daily_hours) = Ok d
    /\ floored d
    /\ sum_values d
       <= inject_Z total_daily_hours
          + (1 # 2) * inject_Z (Z.of_nat (length subjects)).
Proof.
  intros HT Hs.
  assert (0 <= inject_Z total_daily_hours) as HT'.
  { change 0 with (inject_Z 0). by rewrite <- Zle_Qle. }
  destruct subjects as [|s0 l0] eqn:Hsub.
  { exists []. simpl. split; [reflexivity|]. split; [constructor|].
    change (inject_Z (Z.of_nat 0)) with 0. lra. }
  assert (subjects <> []) as Hne by (by rewrite Hsub).
  rewrite <- Hsub in *. clear Hsub.
  assert (snd (distribute_study_hours today subjects total_daily_hours)
          = let sorted_subjects :=
              sorted_desc score (map (set_priority_score today) subjects) in
            distribute_loop (length sorted_subjects) 0 sorted_subjects
              (sum_scores sorted_subjects) (inject_Z total_daily_hours)
              (inject_Z total_daily_hours) []) as ->.
  { unfold distribute_study_hours. by destruct subjects. }
  cbv zeta.
  pose proof (sorted_scores_pos today subjects Hs) as Hsc.
  set (sorted_subjects :=
         sorted_desc score (map (set_priority_score today) subjects)) in *.
  assert (length sorted_subjects = length subjects) as Hlen.
  { unfold sorted_subjects, sorted_desc.
    by rewrite (Permutation_length (sorted_by_perm _ _)), length_map. }
  rewrite <- Hlen.
  apply distribute_loop_bound; auto.
  - eapply Forall_impl; [exact Hsc|]. simpl. intros s. lra.
  - apply sum_scores_pos; [|exact Hsc].
    intros E. apply Hne. rewrite E in Hlen. by destruct subjects.
  - constructor.
  - simpl. q_minmax; lra.
Qed.

Lemma distribute_study_hours_sum_witness :
  exists d,
    snd (distribute_study_hours 738886 [algebra; biology; chemistry] 1) = Ok d
    /\ floored d
    /\ sum_values d <= inject_Z 1 + (1 # 2) * inject_Z (Z.of_nat 3).
Proof.
  apply (distribute_study_hours_sum 738886 [algebra; biology; chemistry] 1).
  - lia.
  - repeat constructor; simpl; lia.
Defined.

Lemma distribute_loop_ok (l : list Subject) (total_priority : Q) :
  Qeq_bool total_priority 0 = false ->
  forall n i total_daily_hours remaining_hours d,
    exists d',
      distribute_loop n i l total_priority total_daily_hours remaining_hours d
      = Ok d'.
Proof.
  intros Hz. induction l as [|s l IH]; intros n i T rem d; simpl; [eauto|].
  destruct (i =? n - 1)%nat; simpl; [apply IH|].
  rewrite Hz. simpl. apply IH.
Qed.

(** The allocator returns an allocation when no division by zero occurs;
    positive scores are enough. *)
Lemma distribute_study_hours_ok (today : Z) (subjects : list Subject)
    (total_daily_hours : Z) :
  Forall (fun s => (0 <= difficulty s)%Z /\ (0 <= importance s)%Z) subjects ->
  exists d,
    snd (distribute_study_hours today subjects total_daily_hours) = Ok d.
Proof.
  intros Hs. destruct subjects as [|s0 l0] eqn:Hsub; [by exists []|].
  assert (subjects <> []) as Hne by (by rewrite Hsub).
  rewrite <- Hsub in *. clear Hsub.
  assert (snd (distribute_study_hours today subjects total_daily_hours)
          = let sorted_subjects :=
              sorted_desc score (map (set_priority_score today) subjects) in
            distribute_loop (length sorted_subjects) 0 sorted_subjects
              (sum_scores sorted_subjects) (inject_Z total_daily_hours)
              (inject_Z total_daily_hours) []) as ->.
  { unfold distribute_study_hours. by destruct subjects. }
  cbv zeta.
  pose proof (sorted_scores_pos today subjects Hs) as Hsc.
  set (sorted_subjects :=
         sorted_desc score (map (set_priority_score today) subjects)) in *.
  assert (0 < sum_scores sorted_subjects) as Hpos.
  { apply sum_scores_pos; [|exact Hsc].
    intros E. apply Hne.
    assert (length sorted_subjects = length subjects) as Hlen.
    { unfold sorted_subjects, sorted_desc.
      by rewrite (Permutation_length (sorted_by_perm _ _)), length_map. }
    rewrite E in Hlen. by destruct subjects. }
  assert (Qeq_bool (sum_scores sorted_subjects) 0 = false) as Hz.
  { destruct (Qeq_bool _ 0) eqn:E; [|reflexivity].
    apply Qeq_bool_iff in E. lra. }
  by apply distribute_loop_ok.
Qed.

End Allocator.

(** ** One day of [src/app.py]: [_create_daily_schedule] *)

Section DayBlocks.

Import Py Optimizer.
Open Scope Z_scope.

Lemma total_minutes_app (es es' : list entry) :
  total_minutes (es ++ es') = total_minutes es + total_minutes es'.
Proof. induction es as [|e es IH]; simpl; lia. Qed.

Lemma study_total_app (es es' : list entry) :
  study_total (es ++ es') = study_total es + study_total es'.
Proof. unfold study_total. by rewrite filter_app, total_minutes_app. Qed.

Lemma study_total_cons (e : entry) (es : list entry) :
  study_total (e :: es)
  = (if is_study e then duration e else 0) + study_total es.
Proof.
  unfold study_total. rewrite filter_cons.
  destruct (is_study e); simpl.
  - destruct (decide (true = true)); [reflexivity | congruence].
  - destruct (decide (false = true)); [congruence | reflexivity].
Qed.

Lemma clocked_app (t : Z) (es es' : list entry) :
  clocked t (es ++ es') <->
  clocked t es /\ clocked (t + total_minutes es) es'.
Proof.
  revert t. induction es as [|e es IH]; intros t; simpl.
  - rewrite Z.add_0_r. tauto.
  - rewrite IH, Z.add_assoc. tauto.
Qed.



Lemma study_sessions_spec (date : Z) (subject : string)
    (session_length break_length : Z) (fuel : nat) :
  forall t total es t',
    study_sessions fuel date subject session_length break_length t total
    = Some (es, t') ->
    clocked t es /\ t' = t + total_minutes es
    /\ study_total es = Z.max 0 total
    /\ Forall (fun e => Optimizer.date e = date) es
    /\ (0 <= session_length -> 0 <= break_length ->
        Forall (fun e => 0 <= duration e) es).
Proof.
  induction fuel as [|fuel IH]; intros t total es t' H; simpl in H;
    [discriminate|].
  destruct (0 <? total) eqn:Etot.
  2:{ apply Z.ltb_ge in Etot. injection H as <- <-. simpl.
      repeat split; try constructor; unfold study_total; simpl; lia. }
  apply Z.ltb_lt in Etot.
  destruct (0 <? total - Z.min session_length total) eqn:Emore.
  - destruct (study_sessions fuel _ _ _ _ _ _) as [[es0 t0]|] eqn:Erec;
      [|discriminate].
    injection H as <- <-.
    apply IH in Erec as (Hc & Ht & Hst & Hdate & Hdur).
    apply Z.ltb_lt in Emore. simpl.
    rewrite !study_total_cons. simpl.
    repeat split; auto; try lia.
    intros Hs Hb. repeat constructor; simpl; auto; lia.
  - destruct (study_sessions fuel _ _ _ _ _ _) as [[es0 t0]|] eqn:Erec;
      [|discriminate].
    injection H as <- <-.
    apply IH in Erec as (Hc & Ht & Hst & Hdate & Hdur).
    apply Z.ltb_ge in Emore. simpl.
    rewrite !study_total_cons. simpl.
    repeat split; auto; try lia.
    intros Hs Hb. repeat constructor; simpl; auto; lia.
Qed.

Lemma int_nonneg (x : Q) : (0 <= x)%Q -> 0 <= int x.
Proof.
  intros Hx. unfold int.
  replace (Qleb 0 x) with true by (symmetry; by apply Qleb_le).
  change 0 with (Qfloor 0). by apply Qfloor_resp_le.
Qed.

Lemma subjects_loop_spec (date : Z) (session_length break_length : Z)
    (fuel : nat) (items : dict Q) :
  forall t es t',
    subjects_loop fuel date items session_length break_length t
    = Some (es, t') ->
    clocked t es /\ t' = t + total_minutes es
    /\ study_total es = allocated_minutes items
    /\ Forall (fun e => Optimizer.date e = date) es
    /\ (0 <= session_length -> 0 <= break_length ->
        Forall (fun e => 0 <= duration e) es).
Proof.
  induction items as [|[k hours] items IH]; intros t es t' H; simpl in H.
  - injection H as <- <-. simpl.
    repeat split; try constructor; unfold study_total; simpl; lia.
  - simpl. destruct (Qltb 0 hours) eqn:Eh.
    + destruct (study_sessions fuel _ _ _ _ _ _) as [[es0 t0]|] eqn:E0;
        [|discriminate].
      destruct (subjects_loop fuel _ _ _ _ _) as [[es1 t1]|] eqn:E1;
        [|discriminate].
      injection H as <- <-.
      apply study_sessions_spec in E0 as (Hc0 & Ht0 & Hs0 & Hd0 & Hp0).
      apply IH in E1 as (Hc1 & Ht1 & Hs1 & Hd1 & Hp1).
      rewrite clocked_app, total_minutes_app, study_total_app, Hs0, Hs1.
      subst t0.
      assert (0 <= int (hours * 60)).
      { apply int_nonneg. apply Qltb_lt in Eh. lra. }
      repeat split; auto; try lia.
      * apply Forall_app. auto.
      * intros Hs Hb. apply Forall_app. auto.
    + apply IH in H as (Hc1 & Ht1 & Hs1 & Hd1 & Hp1).
      repeat split; auto.
Qed.



(** With two subjects of equal priority, two daily hours and 60-minute
    sessions, the first Study block of the day is followed by a Study
    block. *)
Lemma optimizer_day_without_break :
  exists subjects' schedule,
    generate_schedule 100 738886 [algebra; biology] 738886 2 60 15 (9, 0)
    = Some (Ok (subjects', schedule))
    /\ map shown (filter (fun e => date e = 738886) schedule)
       = [("Algebra"%string, Study, 540, 600);
          ("Biology"%string, Study, 600, 660)]
    /\ breaks_follow 15 (filter (fun e => date e = 738886) schedule) = false.
Proof.
  eexists. eexists. split; [vm_compute; reflexivity|].
  split; vm_compute; reflexivity.
Qed.

(** C1, as stated, fails on [generate_schedule]: a subject that needs one
    hour is given 60 minutes on each of the 23 weekdays of the window. *)
Lemma optimizer_exceeds_need :
  exists subjects' schedule,
    generate_schedule 100 738886 [algebra] 738886 1 60 15 (9, 0)
    = Some (Ok (subjects', schedule))
    /\ study_minutes "Algebra" schedule = 1380
    /\ ~ study_minutes "Algebra" schedule <= study_hours algebra * 60.
Proof.
  eexists. eexists. split; [vm_compute; reflexivity|].
  split; [vm_compute; reflexivity|]. vm_compute. intros H. by apply H.
Qed.

(** C7, as stated, fails on [generate_schedule]: the one hour the subject
    needs is scheduled on the first day, and the next day has blocks all
    the same. *)
Lemma optimizer_schedules_after_exhaustion :
  exists subjects' schedule e,
    generate_schedule 100 738886 [algebra] 738886 1 60 15 (9, 0)
    = Some (Ok (subjects', schedule))
    /\ In e schedule /\ date e = 738887
    /\ exhausted_before [algebra] schedule 738887.
Proof.
  eexists. eexists. exists (mkEntry 738887 540 600 "Algebra" Study 60).
  split; [vm_compute; reflexivity|].
  split; [right; left; reflexivity|].
  split; [reflexivity|].
  repeat constructor. vm_compute. discriminate.
Qed.

(** *** Termination *)

(** The session loop ends when the session length is positive. *)
Lemma study_sessions_terminates (date : Z) (subject : string)
    (session_length break_length : Z) (fuel : nat) :
  0 < session_length ->
  forall t total,
    (Z.to_nat total < fuel)%nat ->
    exists r,
      study_sessions fuel date subject session_length break_length t total
      = Some r.
Proof.
  intros Hs. induction fuel as [|fuel IH]; intros t total Hf; [lia|].
  simpl. destruct (0 <? total) eqn:Etot; [|eauto].
  apply Z.ltb_lt in Etot.
  destruct (0 <? total - Z.min session_length total) eqn:Emore.
  - destruct (IH (t + Z.min session_length total + break_length)
                (total - Z.min session_length total)) as [[es t'] ->];
      [lia | eauto].
  - destruct (IH (t + Z.min session_length total)
                (total - Z.min session_length total)) as [[es t'] ->];
      [lia | eauto].
Qed.

(** It does not end when the session length is not positive and there are
    minutes to place: no amount of fuel yields a result. *)
Lemma study_sessions_diverges (date : Z) (subject : string)
    (session_length break_length : Z) (fuel : nat) :
  session_length <= 0 ->
  forall t total,
    0 < total ->
    study_sessions fuel date subject session_length break_length t total
    = None.
Proof.
  intros Hs. induction fuel as [|fuel IH]; intros t total Ht; [reflexivity|].
  simpl.
  replace (0 <? total) with true by (symmetry; apply Z.ltb_lt; lia).
  replace (0 <? total - Z.min session_length total) with true
    by (symmetry; apply Z.ltb_lt; lia).
  rewrite IH; [reflexivity | lia].
Qed.

Lemma subjects_loop_terminates (date : Z) (session_length break_length : Z)
    (fuel : nat) (items : dict Q) :
  0 < session_length -> (fuel_for items <= fuel)%nat ->
  forall t,
    exists r,
      subjects_loop fuel date items session_length break_length t = Some r.
Proof.
  intros Hs. induction items as [|[k hours] items IH]; intros Hf t; simpl;
    [eauto|].
  simpl in Hf.
  destruct (Qltb 0 hours).
  - destruct (study_sessions_terminates date k session_length break_length
                fuel Hs t (int (hours * 60))) as [[es t'] ->]; [lia|].
    destruct (IH ltac:(lia) t') as [[es' t''] ->]. eauto.
  - apply IH. lia.
Qed.

Lemma days_loop_terminates (fuel : nat) (hour_distribution : dict Q)
    (session_length break_length : Z) (start_time : Z * Z) (days : nat) :
  0 < session_length -> valid_start_time start_time ->
  (fuel_for hour_distribution <= fuel)%nat ->
  forall current_date,
    exists schedule,
      days_loop fuel days current_date hour_distribution session_length
        break_length start_time = Some (Ok schedule).
Proof.
  intros Hs Hv Hf. induction days as [|days IH]; intros d; simpl; [eauto|].
  destruct (IH (d + 1)) as [sch ->].
  destruct (weekday d <? 5); [|eauto].
  unfold _create_daily_schedule. destruct start_time as [h m].
  destruct Hv as [Hh Hm]. simpl in Hh, Hm.
  replace ((0 <=? h) && (h <=? 23) && (0 <=? m) && (m <=? 59)) with true
    by (symmetry; rewrite !andb_true_iff, !Z.leb_le; lia).
  destruct (subjects_loop_terminates d session_length break_length fuel
              hour_distribution Hs Hf (h * 60 + m)) as [[es t'] ->].
  eauto.
Qed.

Lemma generate_schedule_terminates (today : Z) (subjects : list Subject)
    (start_date daily_hours : Z) (session_length break_length : Z)
    (start_time : Z * Z) :
  Forall (fun s => 0 <= difficulty s /\ 0 <= importance s) subjects ->
  0 < session_length -> valid_start_time start_time ->
  exists fuel r,
    generate_schedule fuel today subjects start_date daily_hours
      session_length break_length start_time = Some (Ok r).
Proof.
  intros Hsub Hs Hv. unfold generate_schedule.
  destruct (distribute_study_hours_ok today subjects daily_hours Hsub)
    as [hd Hhd].
  destruct (distribute_study_hours today subjects daily_hours) as [ss r].
  simpl in Hhd. subst r.
  exists (fuel_for hd).
  destruct (days_loop_terminates (fuel_for hd) hd session_length break_length
              start_time (Z.to_nat (start_date + 30 - start_date + 1)) Hs Hv
              (Nat.le_refl _) start_date) as [sch ->].
  eauto.
Qed.

End DayBlocks.

(** ** The remaining-hours scheduler of [src/Schedulyze/app.py] *)

Section RemainingHours.

Import Py Tracker.
Open Scope Q_scope.

Lemma session_minutes_app (k : string) (es es' : list entry) :
  session_minutes k (es ++ es') == session_minutes k es + session_minutes k es'.
Proof.
  induction es as [|e es IH]; simpl; [lra|].
  destruct (is_session e && String.eqb (subject e) k); lra.
Qed.

Lemma get_insert_eq (m : gmap string Q) (k : string) (v : Q) :
  get (<[k := v]> m) k = v.
Proof. unfold get. by rewrite lookup_insert_eq. Qed.

Lemma get_insert_ne (m : gmap string Q) (k k' : string) (v : Q) :
  k <> k' -> get (<[k := v]> m) k' = get m k'.
Proof. intros H. unfold get. by rewrite lookup_insert_ne. Qed.

(** What one day does to the map: the hours taken from a subject are the
    minutes of its sessions, and nothing goes below zero. *)
Lemma subjects_loop_remaining (today : Z) (settings : Settings)
    (study_date : Z) (l : list Subject) :
  forall m start acc es m',
    subjects_loop today settings study_date l m start acc = (es, m') ->
    forall k,
      session_minutes k es == (get m k - get m' k) * 60
      /\ (0 <= get m k -> 0 <= get m' k).
Proof.
  induction l as [|s l IH]; intros m start acc es m' H k; simpl in H.
  - injection H as <- <-. simpl. split; [ring | auto].
  - destruct (Qleb (get m (name s)) 0) eqn:Erem; [by eapply IH|].
    destruct (Qleb (daily_hours settings * 60) acc) eqn:Eacc.
    { injection H as <- <-. simpl. split; [ring | auto]. }
    set (d := Qmin (Qmin (inject_Z (session_length settings))
                      (get m (name s) * 60))
                (daily_hours settings * 60 - acc)) in *.
    destruct (Qltb d 15) eqn:Ed; [by eapply IH|].
    apply Qleb_gt in Erem. apply Qltb_ge in Ed.
    assert (d <= get m (name s) * 60) as Hd.
    { unfold d. q_minmax; lra. }
    set (m1 := <[name s := get m (name s) - d / 60]> m) in *.
    assert (session_minutes k es
            == (if String.eqb (name s) k then d else 0)
               + (get m1 k - get m' k) * 60
            /\ (0 <= get m1 k -> 0 <= get m' k)) as [Hsum Hpos].
    { destruct (Qltb (acc + d) _) eqn:Ebr.
      - destruct (subjects_loop _ _ _ l m1 _ _) as [es1 m2] eqn:Erec.
        injection H as <- <-.
        destruct (IH _ _ _ _ _ Erec k) as [IH1 IH2].
        split; [|exact IH2]. simpl.
        destruct (String.eqb (name s) k); lra.
      - destruct (subjects_loop _ _ _ l m1 _ _) as [es1 m2] eqn:Erec.
        injection H as <- <-.
        destruct (IH _ _ _ _ _ Erec k) as [IH1 IH2].
        split; [|exact IH2]. simpl.
        destruct (String.eqb (name s) k); lra. }
    destruct (String.eqb_spec (name s) k) as [<-|Hne].
    + unfold m1 in *. rewrite get_insert_eq in *.
      split.
      * rewrite Hsum. field.
      * intros _. apply Hpos.
        assert (d / 60 <= get m (name s)); [|lra].
        apply Qle_shift_div_r; lra.
    + unfold m1 in *. rewrite get_insert_ne in * by assumption.
      split; [rewrite Hsum; ring | exact Hpos].
Qed.

Lemma days_loop_remaining (today : Z) (settings : Settings)
    (l : list Subject) (days : nat) :
  forall day_offset m es m',
    days_loop today settings l days day_offset m = (es, m') ->
    forall k,
      session_minutes k es == (get m k - get m' k) * 60
      /\ (0 <= get m k -> 0 <= get m' k).
Proof.
  induction days as [|days IH]; intros off m es m' H k; simpl in H.
  - injection H as <- <-. simpl. split; [ring | auto].
  - destruct (negb (include_weekends settings) && _); [by eapply IH|].
    destruct (subjects_loop _ _ _ _ _ _ _) as [es0 m0] eqn:E0.
    destruct (days_loop _ _ _ _ _ _) as [es1 m1] eqn:E1.
    injection H as <- <-.
    destruct (subjects_loop_remaining _ _ _ _ _ _ _ _ _ E0 k) as [H0 P0].
    destruct (IH _ _ _ _ E1 k) as [H1 P1].
    rewrite session_minutes_app, H0, H1. split; [ring | auto].
Qed.

Lemma init_remaining_other (l : list Subject) :
  forall (m : gmap string Q) k,
    ~ In k (map name l) ->
    foldl (fun m s => <[name s := hours_needed s]> m) m l !! k = m !! k.
Proof.
  induction l as [|x l IH]; intros m k Hk; simpl; [reflexivity|].
  simpl in Hk. rewrite IH by tauto. apply lookup_insert_ne. tauto.
Qed.

Lemma init_remaining_lookup (l : list Subject) (s : Subject) :
  NoDup (map name l) -> In s l ->
  get (init_remaining l) (name s) = hours_needed s.
Proof.
  unfold init_remaining, get. generalize (∅ : gmap string Q).
  induction l as [|x l IH]; intros m Hnd Hin; [destruct Hin|].
  simpl in *. apply NoDup_cons in Hnd as [Hx Hnd].
  destruct Hin as [->|Hin]; [|by apply IH].
  rewrite init_remaining_other by (by rewrite <- list_elem_of_In).
  by rewrite lookup_insert_eq.
Qed.

(** Two subjects, two daily hours, 60-minute sessions: the first day is a
    Study block from 09:00 to 10:00 and a Study block from 10:15 to 11:15,
    with no Break block between them. *)
Lemma tracker_day_without_break :
  map shown_session
    (filter (fun e => date e = 738886%Z)
       (generate_optimized_schedule 738886 [maths; history] two_hours))
  = [("Maths"%string, study, 540, 600); ("History"%string, study, 615, 675)]
  /\ breaks_follow_sessions 15
       (filter (fun e => date e = 738886%Z)
          (generate_optimized_schedule 738886 [maths; history] two_hours))
     = false.
Proof. split; vm_compute; reflexivity. Qed.

Lemma remaining_hours_after_app (k : string) (h : Q) (es es' : list entry) :
  remaining_hours_after k h (es ++ es')
  = remaining_hours_after k (remaining_hours_after k h es) es'.
Proof. unfold remaining_hours_after. apply foldl_app. Qed.

Lemma remaining_hours_after_cons (k : string) (h : Q) (e : entry)
    (es : list entry) :
  remaining_hours_after k h (e :: es)
  = remaining_hours_after k (decrement k h e) es.
Proof. reflexivity. Qed.

Lemma sessions_fit_app (k : string) (es es' : list entry) :
  forall h,
    sessions_fit k h (es ++ es') <->
    sessions_fit k h es /\ sessions_fit k (remaining_hours_after k h es) es'.
Proof.
  induction es as [|e es IH]; intros h; simpl; [tauto|].
  rewrite IH. unfold remaining_hours_after. simpl. tauto.
Qed.

(** What one day does to the entry of a subject: it is decremented session
    by session, and every session fits into what is left. *)
Lemma subjects_loop_decrement (today : Z) (settings : Settings)
    (study_date : Z) (l : list Subject) :
  forall m start acc es m',
    subjects_loop today settings study_date l m start acc = (es, m') ->
    forall k,
      get m' k = remaining_hours_after k (get m k) es
      /\ sessions_fit k (get m k) es.
Proof.
  induction l as [|s l IH]; intros m start acc es m' H k; simpl in H.
  - by injection H as <- <-.
  - destruct (Qleb (get m (name s)) 0) eqn:Erem; [by eapply IH|].
    destruct (Qleb (daily_hours settings * 60) acc) eqn:Eacc.
    { by injection H as <- <-. }
    set (d := Qmin (Qmin (inject_Z (session_length settings))
                      (get m (name s) * 60))
                (daily_hours settings * 60 - acc)) in *.
    destruct (Qltb d 15) eqn:Ed; [by eapply IH|].
    apply Qleb_gt in Erem.
    assert (d <= get m (name s) * 60) as Hd.
    { unfold d. q_minmax; lra. }
    set (m1 := <[name s := get m (name s) - d / 60]> m) in *.
    assert (Hm1 : get m1 k
                  = if String.eqb (name s) k then get m k - d / 60
                    else get m k).
    { unfold m1. destruct (String.eqb_spec (name s) k) as [<-|Hne].
      - by rewrite get_insert_eq.
      - by rewrite get_insert_ne. }
    assert (Hfit : String.eqb (name s) k = true ->
                   0 < get m k /\ d <= get m k * 60).
    { intros E. apply String.eqb_eq in E. by rewrite <- E. }
    assert (Hs : forall dt st et pr df,
               decrement k (get m k) (mkEntry dt st et (name s) d study pr df)
               = get m1 k).
    { intros. unfold decrement. simpl. by rewrite Hm1. }
    assert (Hb : forall h dt st et nm du pr df,
               decrement k h (mkEntry dt st et nm du break pr df) = h)
      by reflexivity.
    destruct (Qltb (acc + d) _).
    + destruct (subjects_loop _ _ _ l m1 _ _) as [es1 m2] eqn:Erec.
      injection H as <- <-.
      destruct (IH _ _ _ _ _ Erec k) as [IH1 IH2].
      rewrite !remaining_hours_after_cons. cbn [sessions_fit].
      rewrite Hs, Hb.
      split; [exact IH1|].
      split; [intros E; simpl in E; by apply Hfit|].
      split; [intros E; simpl in E; discriminate E | exact IH2].
    + destruct (subjects_loop _ _ _ l m1 _ _) as [es1 m2] eqn:Erec.
      injection H as <- <-.
      destruct (IH _ _ _ _ _ Erec k) as [IH1 IH2].
      rewrite !remaining_hours_after_cons. cbn [sessions_fit].
      rewrite Hs.
      split; [exact IH1|].
      split; [intros E; simpl in E; by apply Hfit | exact IH2].
Qed.

Lemma days_loop_decrement (today : Z) (settings : Settings)
    (l : list Subject) (days : nat) :
  forall day_offset m es m',
    days_loop today settings l days day_offset m = (es, m') ->
    forall k,
      get m' k = remaining_hours_after k (get m k) es
      /\ sessions_fit k (get m k) es.
Proof.
  induction days as [|days IH]; intros off m es m' H k; simpl in H.
  - by injection H as <- <-.
  - destruct (negb (include_weekends settings) && _); [by eapply IH|].
    destruct (subjects_loop _ _ _ _ _ _ _) as [es0 m0] eqn:E0.
    destruct (days_loop _ _ _ _ _ _) as [es1 m1] eqn:E1.
    injection H as <- <-.
    destruct (subjects_loop_decrement _ _ _ _ _ _ _ _ _ E0 k) as [H0 P0].
    destruct (IH _ _ _ _ E1 k) as [H1 P1].
    rewrite remaining_hours_after_app, sessions_fit_app, <- H0.
    by split.
Qed.

Lemma init_remaining_last (l : list Subject) (k : string) (v : Q) :
  forall m : gmap string Q,
    In k (map name l) ->
    Forall (fun s' => name s' = k -> hours_needed s' = v) l ->
    foldl (fun m s => <[name s := hours_needed s]> m) m l !! k = Some v.
Proof.
  induction l as [|x l IH]; intros m Hin Hall; [destruct Hin|].
  inversion Hall as [|? ? Hx Hl]; subst. simpl.
  destruct (in_dec String.string_dec k (map name l)) as [Hk|Hk].
  - by apply IH.
  - rewrite init_remaining_other by exact Hk.
    destruct Hin as [E|Hin]; [|contradiction].
    rewrite E, lookup_insert_eq. f_equal. by apply Hx.
Qed.

(** C1 (amended). In [generate_optimized_schedule] of
    [src/Schedulyze/app.py], for every subject whose namesakes in the list
    need the hours it needs (so it is when no other subject bears its
    name): each of its study sessions is scheduled while its entry in
    [remaining_hours] is positive and lasts at most that entry times 60;
    the entry is the hours needed, decremented session by session by the
    minutes scheduled, divided by 60; and the minutes of its sessions over
    the whole schedule are at most [hours_needed * 60], with a margin of
    one minute that covers the rounding of floating-point numbers (the
    margin is not needed in the exact arithmetic of the embedding). *)
Theorem tracker_minutes_scheduled (today : Z) (subjects : list Subject)
    (settings : Settings) (s : Subject) :
  In s subjects -> same_need s subjects -> 0 <= hours_needed s ->
  sessions_fit (name s) (hours_needed s)
    (generate_optimized_schedule today subjects settings)
  /\ get (snd (run today subjects settings)) (name s)
     = remaining_hours_after (name s) (hours_needed s)
         (generate_optimized_schedule today subjects settings)
  /\ session_minutes (name s)
       (generate_optimized_schedule today subjects settings)
     <= hours_needed s * 60 + 1.
Proof.
  intros Hin Hsame Hh. unfold generate_optimized_schedule, run.
  set (l := sorted_desc (calculate_priority_score today) subjects).
  assert (Permutation l subjects) as Hp by apply sorted_by_perm.
  destruct (days_loop today settings l 14 0 (init_remaining l))
    as [es m'] eqn:E.
  destruct (days_loop_remaining _ _ _ _ _ _ _ _ E (name s)) as [Hsum Hpos].
  destruct (days_loop_decrement _ _ _ _ _ _ _ _ E (name s)) as [Hdec Hfit].
  assert (get (init_remaining l) (name s) = hours_needed s) as Hinit.
  { unfold get, init_remaining. rewrite (init_remaining_last l _ (hours_needed s));
      [reflexivity| |].
    - apply in_map. apply (Permutation_in _ (Permutation_sym Hp) Hin).
    - unfold same_need in Hsame. by rewrite Hp. }
  rewrite Hinit in Hsum, Hpos, Hdec, Hfit.
  cbn [fst snd]. specialize (Hpos Hh).
  split; [exact Hfit|]. split; [exact Hdec|]. lra.
Qed.

Lemma tracker_minutes_scheduled_witness :
  sessions_fit (name maths) (hours_needed maths)
    (generate_optimized_schedule 738886 [maths; history] two_hours)
  /\ get (snd (run 738886 [maths; history] two_hours)) (name maths)
     = remaining_hours_after (name maths) (hours_needed maths)
         (generate_optimized_schedule 738886 [maths; history] two_hours)
  /\ session_minutes (name maths)
       (generate_optimized_schedule 738886 [maths; history] two_hours)
     <= hours_needed maths * 60 + 1.
Proof.
  apply (tracker_minutes_scheduled 738886 [maths; history] two_hours maths).
  - left. reflexivity.
  - constructor; [intros _; reflexivity|].
    constructor; [intros E; vm_compute in E; discriminate E|].
    constructor.
  - vm_compute. discriminate.
Defined.

(** *** The minutes of a day *)







End RemainingHours.

(** ** The per-subject scheduler and the endpoint of [src/Schedulyze/api.py] *)

Section Endpoint.

Import Py Api.
Open Scope Q_scope.

Lemma remaining_after_app (h : Q) (es es' : list entry) :
  remaining_after h (es ++ es') = remaining_after (remaining_after h es) es'.
Proof. unfold remaining_after. apply foldl_app. Qed.

Lemma while_remaining_app (h : Q) (es es' : list entry) :
  while_remaining h (es ++ es') <->
  while_remaining h es /\ while_remaining (remaining_after h es) es'.
Proof.
  revert h. induction es as [|e es IH]; intros h; simpl; [tauto|].
  rewrite IH. tauto.
Qed.

Lemma remaining_after_hours (h : Q) (es : list entry) :
  remaining_after h es == h - study_hours_of es.
Proof.
  revert h. induction es as [|e es IH]; intros h; simpl; [ring|].
  change (remaining_after (if studies e then h - duration_hours e else h) es
          == h - (if studies e
                  then duration_hours e + study_hours_of es
                  else study_hours_of es)).
  rewrite IH. destruct (studies e); ring.
Qed.

(** One day's sessions of a subject. *)
Lemma sessions_loop_spec (settings : ScheduleSettings) (study_date : Z)
    (subject_name : string) (score : Q) (difficulty : Z)
    (session_duration_hours : Q) (sessions_today : Z) (n : nat) :
  forall session h t es h',
    sessions_loop n session sessions_today settings study_date subject_name
      score difficulty session_duration_hours h t = (es, h') ->
    while_remaining h es /\ h' = remaining_after h es
    /\ (0 <= h -> 0 <= h')
    /\ Forall (fun e => date e = study_date
                        /\ (studies e = true -> subject e = subject_name)) es.
Proof.
  induction n as [|n IH]; intros session h t es h' H; simpl in H.
  - injection H as <- <-. simpl. repeat split; auto.
  - set (d := Qmin session_duration_hours h) in *.
    destruct (Qleb d 0) eqn:Ed.
    { injection H as <- <-. simpl. repeat split; auto. }
    apply Qleb_gt in Ed.
    assert (0 < h /\ d <= h) as [Hh Hd] by (unfold d in *; q_minmax; lra).
    destruct (sessions_loop n _ _ _ _ _ _ _ _ _ _) as [es1 h1] eqn:Erec.
    apply IH in Erec as (Hw & Hr & Hp & Hf).
    destruct ((session <? sessions_today - 1)%Z && Qltb 0 (h - d)) eqn:Ebr;
      injection H as <- <-; simpl.
    + apply andb_true_iff in Ebr as [_ Ebr]. apply Qltb_lt in Ebr.
      repeat split; auto; try (intros _; apply Hp; lra);
        repeat constructor; simpl; auto; discriminate.
    + repeat split; auto; try (intros _; apply Hp; lra);
        repeat constructor; simpl; auto.
Qed.

(** The day loop of a subject: nothing is emitted once no hours are left,
    and no date is past the last day of the loop. *)
Lemma days_loop_spec (settings : ScheduleSettings) (current_date : Z)
    (subject_name : string) (score : Q) (difficulty : Z)
    (session_duration_hours : Q) (days_available : Z) (n : nat) :
  forall day_offset h es,
    days_loop n day_offset days_available settings current_date subject_name
      score difficulty session_duration_hours h = Ok es ->
    while_remaining h es
    /\ (0 <= h -> 0 <= remaining_after h es)
    /\ Forall (fun e => (current_date + day_offset <= date e
                         < current_date + day_offset + Z.of_nat n)%Z
                        /\ (studies e = true -> subject e = subject_name)) es.
Proof.
  induction n as [|n IH]; intros off h es H; simpl in H.
  - injection H as <-. simpl. repeat split; auto.
  - destruct (negb (include_weekends settings) && _).
    { apply IH in H as (Hw & Hp & Hf). repeat split; auto.
      eapply Forall_impl; [exact Hf|]. simpl.
      intros e [? ?]. split; [lia | assumption]. }
    match type of H with
    | mbind _ ?c = _ => destruct c as [[es0 h0]|] eqn:E0; [|discriminate]
    end.
    assert (while_remaining h es0 /\ h0 = remaining_after h es0
            /\ (0 <= h -> 0 <= h0)
            /\ Forall (fun e => date e = (current_date + off)%Z
                                /\ (studies e = true ->
                                    subject e = subject_name)) es0)
      as (Hw0 & Hr0 & Hp0 & Hf0).
    { destruct (Qltb 0 _) in E0.
      - destruct (strptime_HM (start_time settings)) as [[hh mm]|];
          [|discriminate].
        simpl in E0. injection E0 as E0.
        by apply sessions_loop_spec in E0.
      - injection E0 as <- <-. simpl. repeat split; auto. }
    assert (Forall (fun e => (current_date + off <= date e
                              < current_date + off + Z.of_nat (S n))%Z
                             /\ (studies e = true -> subject e = subject_name))
              es0) as Hf0'.
    { eapply Forall_impl; [exact Hf0|]. simpl. intros e [-> ?]. split; [lia|auto]. }
    simpl in H. destruct (Qleb h0 0) eqn:Eh.
    + injection H as <-. subst h0. repeat split; auto.
    + match type of H with
      | mbind _ ?c = _ => destruct c as [es1|] eqn:E1; [|discriminate]
      end.
      simpl in H. injection H as <-.
      apply IH in E1 as (Hw1 & Hp1 & Hf1). subst h0.
      rewrite while_remaining_app, remaining_after_app.
      repeat split; auto.
      apply Forall_app. split; [exact Hf0'|].
      eapply Forall_impl; [exact Hf1|]. simpl.
      intros e [? ?]. split; [lia | assumption].
Qed.

Lemma schedule_subject_spec (settings : ScheduleSettings) (today : Z)
    (s : Subject) (score : Q) (es : list entry) :
  schedule_subject settings today (s, score) = Ok es ->
  emitted_for today s es.
Proof.
  unfold schedule_subject, emitted_for. intros H.
  destruct (deadline s - today + 1 <=? 0)%Z eqn:Ed.
  { injection H as <-. simpl. repeat split; auto. q_minmax; lra. }
  apply Z.leb_gt in Ed.
  destruct (Qeq_bool _ 0); [discriminate|].
  apply days_loop_spec in H as (Hw & Hp & Hf).
  split; [exact Hw|]. split.
  - pose proof (remaining_after_hours (hours_needed s) es) as Hr.
    destruct (Qlt_le_dec (hours_needed s) 0) as [Hneg|Hpos].
    + destruct es as [|e es]; [simpl; q_minmax; lra|].
      destruct Hw as [Hw _]. lra.
    + specialize (Hp Hpos). q_minmax; lra.
  - eapply Forall_impl; [exact Hf|]. simpl.
    intros e [? ?]. split; [lia | assumption].
Qed.

Lemma subjects_loop_parts (settings : ScheduleSettings) (today : Z)
    (subjects_dict : list (Subject * Q)) :
  forall schedule,
    subjects_loop settings today subjects_dict = Ok schedule ->
    exists parts,
      schedule = concat parts
      /\ Forall2 (fun sd es => schedule_subject settings today sd = Ok es)
           subjects_dict parts.
Proof.
  induction subjects_dict as [|sd l IH]; intros schedule H; simpl in H.
  - injection H as <-. exists []. split; [reflexivity | constructor].
  - destruct (schedule_subject settings today sd) as [es|] eqn:E;
      [|discriminate].
    simpl in H.
    destruct (subjects_loop settings today l) as [es'|]; [|discriminate].
    simpl in H. injection H as <-.
    destruct (IH es' eq_refl) as (parts & -> & Hparts).
    exists (es :: parts). split; [reflexivity | by constructor].
Qed.

(** The schedule is made of one run of entries per subject. *)
Lemma generate_optimized_schedule_parts (today : Z) (subjects : list Subject)
    (settings : ScheduleSettings) (schedule : list entry) :
  generate_optimized_schedule today subjects settings = Ok schedule ->
  exists subjects' parts,
    Permutation subjects' subjects
    /\ Permutation schedule (concat parts)
    /\ Forall2 (emitted_for today) subjects' parts.
Proof.
  unfold generate_optimized_schedule. intros H.
  set (sds := sorted_desc snd
                (map (fun s => (s, calculate_priority_score today s))
                   subjects)) in *.
  destruct (subjects_loop settings today sds) as [sch|] eqn:E; [|discriminate].
  simpl in H. injection H as <-.
  apply subjects_loop_parts in E as (parts & -> & Hparts).
  exists (map fst sds), parts. split; [|split].
  - unfold sds, sorted_desc. rewrite (sorted_by_perm _ _).
    rewrite map_map. simpl. by rewrite map_id.
  - apply sorted_by_perm.
  - clear -Hparts. induction Hparts as [|[s q] es l parts H _ IH]; simpl;
      constructor; [|exact IH].
    by apply schedule_subject_spec in H.
Qed.

(** C7 (amended). In [generate_optimized_schedule] of
    [src/Schedulyze/api.py] the day loop of a subject stops as soon as that
    subject has no hours left: the schedule is, up to its final sort, one
    run of entries per subject; the Study entries of a subject's run bear
    its name; every entry of the run is emitted while [hours_remaining],
    the hours needed less the durations of the Study entries before it, is
    positive, and [hours_remaining] never falls below zero; and every date
    lies between today and the subject's deadline, where the loop stops
    otherwise. The function returns the entries and nothing else: hours
    left at the deadline are not reported. *)
Theorem api_stops_when_exhausted (today : Z) (subjects : list Subject)
    (settings : ScheduleSettings) (schedule : list entry) :
  generate_optimized_schedule today subjects settings = Ok schedule ->
  exists subjects' parts,
    Permutation subjects' subjects
    /\ Permutation schedule (concat parts)
    /\ Forall2
         (fun s es =>
            while_remaining (hours_needed s) es
            /\ Qmin 0 (hours_needed s) <= remaining_after (hours_needed s) es
            /\ Forall (fun e => (today <= date e <= deadline s)%Z
                                /\ (studies e = true -> subject e = name s))
                 es)
         subjects' parts.
Proof.
  intros H.
  apply generate_optimized_schedule_parts in H as (ss & parts & Hp & Hs & Hf).
  exists ss, parts. split; [exact Hp|]. split; [exact Hs|].
  eapply Forall2_impl; [exact Hf|].
  intros s es (Hw & Hh & Hd). split; [exact Hw|]. split; [|exact Hd].
  rewrite remaining_after_hours. q_minmax; lra.
Qed.

Example calculus_schedule_eq :
  generate_optimized_schedule 738886 [calculus; essay] defaults
  = Ok calculus_schedule.
Proof. vm_compute. reflexivity. Qed.

Lemma api_stops_when_exhausted_witness :
  exists subjects' parts,
    Permutation subjects' [calculus; essay]
    /\ Permutation calculus_schedule (concat parts)
    /\ Forall2
         (fun s es =>
            while_remaining (hours_needed s) es
            /\ Qmin 0 (hours_needed s) <= remaining_after (hours_needed s) es
            /\ Forall (fun e => (738886 <= date e <= deadline s)%Z
                                /\ (studies e = true -> subject e = name s))
                 es)
         subjects' parts.
Proof.
  apply (api_stops_when_exhausted 738886 [calculus; essay] defaults).
  vm_compute. reflexivity.
Defined.

(** *** Overdue subjects *)

(** The tiered score is not the weighted blend: an overdue subject of
    difficulty 5 that needs 10 hours scores 250, against 4.3 for the blend
    on a scale of 10 with the importance defaulting to the difficulty. *)
Example tiered_score_differs :
  calculate_priority_score 738886 (mkSubject "Essay" 738885 10 5 "") == 250
  /\ spec_score 10 10 (738885 - 738886) 5 5 == 4.3.
Proof. split; reflexivity. Qed.

Lemma urgency_score_max (d : Z) : (urgency_score d <= 100)%Z.
Proof.
  unfold urgency_score.
  repeat match goal with
  | |- context [(?a <=? ?b)%Z] => destruct (Z.leb_spec a b)
  end; lia.
Qed.

Lemma urgency_score_overdue (d : Z) : (d <= 0)%Z -> urgency_score d = 100%Z.
Proof.
  intros H. unfold urgency_score.
  destruct (Z.leb_spec d 0); [reflexivity | lia].
Qed.

Lemma NoDup_name_inj (l : list Subject) (s s' : Subject) :
  NoDup (map name l) -> In s l -> In s' l -> name s = name s' -> s = s'.
Proof.
  induction l as [|x l IH]; intros Hnd Hs Hs' Hn; [destruct Hs|].
  simpl in Hnd. apply NoDup_cons in Hnd as [Hx Hnd].
  rewrite list_elem_of_In in Hx.
  destruct Hs as [->|Hs], Hs' as [->|Hs']; auto.
  - exfalso. apply Hx. rewrite Hn. by apply in_map.
  - exfalso. apply Hx. rewrite <- Hn. by apply in_map.
Qed.

(** Every Study entry of the schedule is owed to a subject that is not
    overdue. *)
Lemma study_entries_not_overdue (today : Z) (subjects : list Subject)
    (settings : ScheduleSettings) (schedule : list entry) :
  generate_optimized_schedule today subjects settings = Ok schedule ->
  Forall (fun e => studies e = true ->
                   exists s', In s' subjects /\ name s' = subject e
                              /\ (today <= deadline s')%Z) schedule.
Proof.
  intros H.
  apply generate_optimized_schedule_parts in H as (ss & parts & Hp & Hs & Hf).
  apply Forall_forall. intros e He Hst.
  apply list_elem_of_In in He.
  apply (Permutation_in _ Hs) in He. apply in_concat in He as (es & Hes & He).
  assert (exists s', In s' ss /\ emitted_for today s' es) as (s' & Hs' & Hem).
  { clear -Hf Hes. induction Hf as [|x y l l' Hxy _ IH]; [destruct Hes|].
    destruct Hes as [->|Hes]; [exists x; split; [by left | exact Hxy]|].
    destruct (IH Hes) as (s' & ? & ?). exists s'. split; [by right | assumption]. }
  destruct Hem as (_ & _ & Hd).
  rewrite Forall_forall in Hd. apply list_elem_of_In in He.
  destruct (Hd e He) as [Hdate Hsub].
  exists s'. split; [apply (Permutation_in _ Hp Hs')|].
  split; [symmetry; by apply Hsub | lia].
Qed.

(** C10. In the scheduler of [src/Schedulyze/api.py], a subject whose
    deadline is before the scheduling day is scored with the urgency 100,
    the highest there is: its score is [100 * (1 + difficulty / 10 +
    min(hours_needed / 10, 1))], and no subject of the same difficulty and
    need scores higher. And yet the body of the subject loop emits nothing
    for it: every Study entry of the schedule is owed to a subject whose
    deadline is not before the scheduling day. *)
Theorem overdue_subject_skipped (today : Z) (subjects : list Subject)
    (settings : ScheduleSettings) (schedule : list entry) (s : Subject) :
  generate_optimized_schedule today subjects settings = Ok schedule ->
  In s subjects -> (deadline s < today)%Z ->
  urgency_score (deadline s - today) = 100%Z
  /\ (forall d, (urgency_score d <= 100)%Z)
  /\ calculate_priority_score today s
     = inject_Z 100
       * (1 + inject_Z (difficulty s) / 10 + Qmin (hours_needed s / 10) 1)
  /\ (forall s',
        difficulty s' = difficulty s -> hours_needed s' = hours_needed s ->
        0 <= 1 + inject_Z (difficulty s) / 10 + Qmin (hours_needed s / 10) 1 ->
        calculate_priority_score today s' <= calculate_priority_score today s)
  /\ schedule_subject settings today (s, calculate_priority_score today s)
     = Ok []
  /\ Forall (fun e => studies e = true ->
                      exists s', In s' subjects /\ name s' = subject e
                                 /\ (today <= deadline s')%Z) schedule.
Proof.
  intros H Hin Hlate.
  assert (Hu : urgency_score (deadline s - today) = 100%Z)
    by (apply urgency_score_overdue; lia).
  split; [exact Hu|].
  split; [apply urgency_score_max|].
  split; [unfold calculate_priority_score; by rewrite Hu|].
  split.
  { intros s' Hk Hh Hf. unfold calculate_priority_score.
    rewrite Hu, Hk, Hh.
    pose proof (urgency_score_max (deadline s' - today)) as Hm.
    rewrite Zle_Qle in Hm.
    set (f := 1 + inject_Z (difficulty s) / 10 + Qmin (hours_needed s / 10) 1)
      in *.
    set (u := inject_Z (urgency_score (deadline s' - today))) in *.
    nra. }
  split; [|by eapply study_entries_not_overdue].
  unfold schedule_subject.
  by replace (deadline s - today + 1 <=? 0)%Z with true
    by (symmetry; apply Z.leb_le; lia).
Qed.

Lemma overdue_subject_skipped_witness :
  urgency_score (deadline essay - 738886) = 100%Z
  /\ (forall d, (urgency_score d <= 100)%Z)
  /\ calculate_priority_score 738886 essay
     = inject_Z 100
       * (1 + inject_Z (difficulty essay) / 10
          + Qmin (hours_needed essay / 10) 1)
  /\ (forall s',
        difficulty s' = difficulty essay ->
        hours_needed s' = hours_needed essay ->
        0 <= 1 + inject_Z (difficulty essay) / 10
             + Qmin (hours_needed essay / 10) 1 ->
        calculate_priority_score 738886 s'
        <= calculate_priority_score 738886 essay)
  /\ schedule_subject defaults 738886
       (essay, calculate_priority_score 738886 essay) = Ok []
  /\ Forall (fun e => studies e = true ->
                      exists s', In s' [calculus; essay]
                                 /\ name s' = subject e
                                 /\ (738886 <= deadline s')%Z)
       calculus_schedule.
Proof.
  apply (overdue_subject_skipped 738886 [calculus; essay] defaults).
  - vm_compute. reflexivity.
  - right. left. reflexivity.
  - vm_compute. reflexivity.
Defined.

(** When the names are distinct, no Study entry bears the name of an
    overdue subject. *)
Lemma overdue_subject_no_entries (today : Z) (subjects : list Subject)
    (settings : ScheduleSettings) (schedule : list entry) (s : Subject) :
  generate_optimized_schedule today subjects settings = Ok schedule ->
  NoDup (map name subjects) -> In s subjects -> (deadline s < today)%Z ->
  Forall (fun e => studies e = true -> subject e <> name s) schedule.
Proof.
  intros H Hnd Hin Hlate.
  eapply Forall_impl; [by eapply study_entries_not_overdue|]. simpl.
  intros e He Hst Hname. destruct (He Hst) as (s' & Hs' & Hn & Hd).
  assert (s' = s) as ->; [|lia].
  apply (NoDup_name_inj subjects); auto. congruence.
Qed.

(** *** What the endpoint rejects *)

(** A request with a missing or ill-typed subject field is answered with
    the error, before any scheduling. *)
Lemma ill_typed_subjects_rejected (today : Z)
    (subjects_data : list raw_subject) (settings_data : raw_settings)
    (e : exn) :
  to_subjects subjects_data = Raise e ->
  generate_schedule_api today subjects_data settings_data = HTTPException 400.
Proof. intros H. unfold generate_schedule_api. by rewrite H. Qed.

(** A session length of zero is found out in the subject loop, at the
    first subject that is not overdue. *)
Lemma zero_session_length_raises (settings : ScheduleSettings) (today : Z)
    (subjects_dict : list (Subject * Q)) :
  session_length settings = 0%Z ->
  Exists (fun sd => (today <= deadline (fst sd))%Z) subjects_dict ->
  subjects_loop settings today subjects_dict = Raise ZeroDivisionError.
Proof.
  intros Hs. induction 1 as [[s q] l Hd|[s q] l _ IH]; simpl.
  - unfold schedule_subject. simpl in Hd.
    replace (deadline s - today + 1 <=? 0)%Z with false
      by (symmetry; apply Z.leb_gt; lia).
    by rewrite Hs.
  - rewrite IH. unfold schedule_subject.
    destruct (deadline s - today + 1 <=? 0)%Z; [reflexivity|].
    by rewrite Hs.
Qed.

(** C8, as stated, fails: a subject with [difficulty = 99], a subject with
    [hours_needed = -5] and a session length of 600 minutes in an
    eight-hour day are accepted, and the endpoint returns a schedule. *)
Lemma malformed_input_accepted :
  exists subjects settings,
    to_subjects odd_subjects = Ok subjects
    /\ to_settings odd_settings = Ok settings
    /\ malformed subjects settings
    /\ generate_schedule_api 738886 odd_subjects odd_settings
       = Return [mkEntry 738886 540 660 "Calculus" 2 Study 999.00 99].
Proof.
  eexists. eexists. split; [reflexivity|]. split; [reflexivity|].
  split; [|vm_compute; reflexivity].
  left. constructor. right. simpl. lia.
Qed.

End Endpoint.

(** ** Breaks between Study blocks *)

(** C3. The claim holds of neither scheduler. In [src/app.py] a Break is
    appended only while the same subject has minutes left, so the last
    Study block of one subject is followed at once by the first Study block
    of the next. In [src/Schedulyze/app.py] the test
    [time_accumulated < total_daily_minutes - session_length_minutes]
    stands for "not the last session of the day"; when it fails the clock
    is moved by the break length without a Break block, and the loop goes
    on to the next subject. *)
Theorem study_blocks_without_break :
  (exists subjects' schedule,
     Optimizer.generate_schedule 100 738886 [algebra; biology] 738886 2 60 15
       (9, 0)%Z = Some (Py.Ok (subjects', schedule))
     /\ map shown (filter (fun e => Optimizer.date e = 738886%Z) schedule)
        = [("Algebra"%string, Optimizer.Study, 540%Z, 600%Z);
           ("Biology"%string, Optimizer.Study, 600%Z, 660%Z)]
     /\ breaks_follow 15
          (filter (fun e => Optimizer.date e = 738886%Z) schedule) = false)
  /\ map shown_session
       (filter (fun e => Tracker.date e = 738886%Z)
          (Tracker.generate_optimized_schedule 738886 [maths; history]
             two_hours))
     = [("Maths"%string, Tracker.study, 540%Q, 600%Q);
        ("History"%string, Tracker.study, 615%Q, 675%Q)]
     /\ breaks_follow_sessions 15
          (filter (fun e => Tracker.date e = 738886%Z)
             (Tracker.generate_optimized_schedule 738886 [maths; history]
                two_hours))
        = false.
Proof.
  split; [exact optimizer_day_without_break | exact tracker_day_without_break].
Qed.

(** ** Order and range of the scores *)

Section ScoreOrder.

Import Py.
Open Scope Q_scope.

Lemma blend_urgency_antitone (days days' : Z) :
  (days <= days')%Z -> spec_urgency days' <= spec_urgency days.
Proof.
  intros H. unfold spec_urgency.
  destruct (Z.leb_spec days' 0), (Z.leb_spec days 0); try lia; try lra.
  - assert (inject_Z 1 <= inject_Z days') by (rewrite <- Zle_Qle; lia).
    change (inject_Z 1) with 1 in *.
    assert (0 < / inject_Z days') by (apply Qinv_lt_0_compat; lra).
    assert (/ inject_Z days' <= 1).
    { apply Qle_shift_inv_r; lra. }
    unfold Qdiv. lra.
  - assert (inject_Z 1 <= inject_Z days) by (rewrite <- Zle_Qle; lia).
    change (inject_Z 1) with 1 in *.
    assert (inject_Z days <= inject_Z days') by (rewrite <- Zle_Qle; lia).
    unfold Qdiv. rewrite !Qmult_1_l.
    apply Qle_shift_inv_r; [lra|].
    assert (0 < / inject_Z days) by (apply Qinv_lt_0_compat; lra).
    assert (/ inject_Z days * inject_Z days == 1) by (field; lra).
    nra.
Qed.

Lemma blend_score_linear (today deadline difficulty importance : Z) :
  Optimizer.calculate_priority_score today deadline difficulty importance
  == (4 # 10) * spec_urgency (deadline - today)
     + (6 # 100) * inject_Z difficulty + (6 # 100) * inject_Z importance.
Proof.
  unfold Optimizer.calculate_priority_score, spec_urgency.
  destruct (Z.leb_spec (deadline - today) 0); [field|].
  field. intros E.
  assert (inject_Z 0 < inject_Z (deadline - today))
    by (rewrite <- Zlt_Qlt; lia).
  change (inject_Z 0) with 0 in *. lra.
Qed.

(** X1. In [src/app.py] the score never rises when the deadline moves away
    and never falls when difficulty or importance grow. *)
Theorem blend_score_monotone
    (today deadline deadline' difficulty difficulty' importance importance' : Z) :
  (deadline <= deadline')%Z ->
  (difficulty' <= difficulty)%Z -> (importance' <= importance)%Z ->
  Optimizer.calculate_priority_score today deadline' difficulty' importance'
  <= Optimizer.calculate_priority_score today deadline difficulty importance.
Proof.
  intros Hd Hk Hi. rewrite !blend_score_linear.
  assert (spec_urgency (deadline' - today) <= spec_urgency (deadline - today))
    by (apply blend_urgency_antitone; lia).
  rewrite Zle_Qle in Hk, Hi. lra.
Qed.

Lemma blend_score_monotone_witness :
  Optimizer.calculate_priority_score 738886 738896 2 3
  <= Optimizer.calculate_priority_score 738886 738887 4 3.
Proof. apply blend_score_monotone; lia. Defined.

(** X2. With difficulty and importance on their 1..5 scales, a subject
    whose deadline is today or past scores at least 4 (its urgency term
    alone is [10 * 0.4]) and a subject whose deadline is ahead scores less
    than 4: every overdue subject comes before every upcoming one. *)
Theorem overdue_outranks_upcoming
    (today deadline deadline' difficulty difficulty' importance importance' : Z) :
  (deadline <= today < deadline')%Z ->
  (1 <= difficulty <= 5)%Z -> (1 <= importance <= 5)%Z ->
  (1 <= difficulty' <= 5)%Z -> (1 <= importance' <= 5)%Z ->
  Optimizer.calculate_priority_score today deadline' difficulty' importance'
  < 4
  /\ 4 <= Optimizer.calculate_priority_score today deadline difficulty
            importance
  /\ Optimizer.calculate_priority_score today deadline' difficulty' importance'
     < Optimizer.calculate_priority_score today deadline difficulty importance.
Proof.
  intros [Hd Hd'] [Hk1 Hk5] [Hi1 Hi5] [Hk1' Hk5'] [Hi1' Hi5'].
  rewrite !blend_score_linear.
  assert (Hu : spec_urgency (deadline - today) == 10).
  { unfold spec_urgency.
    destruct (Z.leb_spec (deadline - today) 0); [reflexivity | lia]. }
  assert (Hu' : spec_urgency (deadline' - today) <= 1).
  { assert (spec_urgency (deadline' - today) <= spec_urgency 1)
      by (apply blend_urgency_antitone; lia).
    assert (spec_urgency 1 == 1) by reflexivity.
    lra. }
  rewrite Zle_Qle in Hk1, Hk5, Hi1, Hi5, Hk1', Hk5', Hi1', Hi5'.
  change (inject_Z 1) with 1 in *. change (inject_Z 5) with 5 in *.
  repeat split; lra.
Qed.

Lemma overdue_outranks_upcoming_witness :
  Optimizer.calculate_priority_score 738886 738887 5 5 < 4
  /\ 4 <= Optimizer.calculate_priority_score 738886 738886 1 1
  /\ Optimizer.calculate_priority_score 738886 738887 5 5
     < Optimizer.calculate_priority_score 738886 738886 1 1.
Proof. apply overdue_outranks_upcoming; lia. Defined.

Lemma tracker_urgency_antitone (days days' : Z) :
  (days <= days')%Z ->
  (10 <= Tracker.urgency_score days'
   /\ Tracker.urgency_score days' <= Tracker.urgency_score days
   /\ Tracker.urgency_score days <= 100)%Z.
Proof.
  intros H. unfold Tracker.urgency_score.
  repeat match goal with
  | |- context [(?a <=? ?b)%Z] => destruct (Z.leb_spec a b)
  end; lia.
Qed.

(** X3. The urgency tiers of [src/Schedulyze/app.py] and
    [src/Schedulyze/api.py]: the urgency score lies between 10 and 100 and
    never rises when the days until the deadline grow. *)
Theorem urgency_score_antitone (days days' : Z) :
  (days <= days')%Z ->
  (10 <= Tracker.urgency_score days'
   /\ Tracker.urgency_score days' <= Tracker.urgency_score days
   /\ Tracker.urgency_score days <= 100)%Z
  /\ (10 <= Api.urgency_score days'
      /\ Api.urgency_score days' <= Api.urgency_score days
      /\ Api.urgency_score days <= 100)%Z.
Proof.
  intros H. split; [by apply tracker_urgency_antitone|].
  unfold Api.urgency_score.
  repeat match goal with
  | |- context [(?a <=? ?b)%Z] => destruct (Z.leb_spec a b)
  end; lia.
Qed.

Lemma urgency_score_antitone_witness :
  (10 <= Tracker.urgency_score 20
   /\ Tracker.urgency_score 20 <= Tracker.urgency_score 2
   /\ Tracker.urgency_score 2 <= 100)%Z
  /\ (10 <= Api.urgency_score 20
      /\ Api.urgency_score 20 <= Api.urgency_score 2
      /\ Api.urgency_score 2 <= 100)%Z.
Proof. apply urgency_score_antitone. lia. Defined.

(** X4. The tiered score of [src/Schedulyze/app.py]: for subjects of
    non-negative difficulty and need, the score never rises when the
    deadline moves away and never falls when difficulty or the hours needed
    grow; it is at least the urgency score. *)
Theorem tiered_score_monotone (today : Z) (s s' : Tracker.Subject) :
  (Tracker.deadline s <= Tracker.deadline s')%Z ->
  (0 <= Tracker.difficulty s' <= Tracker.difficulty s)%Z ->
  0 <= Tracker.hours_needed s' <= Tracker.hours_needed s ->
  inject_Z (Tracker.urgency_score (Tracker.deadline s' - today))
  <= Tracker.calculate_priority_score today s'
  /\ Tracker.calculate_priority_score today s'
     <= Tracker.calculate_priority_score today s.
Proof.
  intros Hd [Hk0 Hk] [Hh0 Hh]. unfold Tracker.calculate_priority_score.
  destruct (tracker_urgency_antitone (Tracker.deadline s - today)
              (Tracker.deadline s' - today)) as (Hu1 & Hu2 & Hu3);
    [lia|].
  rewrite Zle_Qle in Hu1, Hu2, Hu3, Hk0, Hk.
  change (inject_Z 10) with 10 in *. change (inject_Z 0) with 0 in *.
  set (u := inject_Z (Tracker.urgency_score (Tracker.deadline s - today))) in *.
  set (u' := inject_Z (Tracker.urgency_score (Tracker.deadline s' - today)))
    in *.
  set (k := inject_Z (Tracker.difficulty s)) in *.
  set (k' := inject_Z (Tracker.difficulty s')) in *.
  assert (Ek : forall x : Q, x / 10 == x * (1 # 10)) by (intros; field).
  rewrite !Ek.
  q_minmax; split; nra.
Qed.

Lemma tiered_score_monotone_witness :
  inject_Z (Tracker.urgency_score (Tracker.deadline history - 738886))
  <= Tracker.calculate_priority_score 738886 history
  /\ Tracker.calculate_priority_score 738886 history
     <= Tracker.calculate_priority_score 738886 maths.
Proof.
  apply tiered_score_monotone; simpl; try lia; split; discriminate.
Defined.

(** X5. With a difficulty between 1 and 10 and a non-negative need, the
    tiered score lies between 11 and 300. *)
Theorem tiered_score_range (today : Z) (s : Tracker.Subject) :
  (1 <= Tracker.difficulty s <= 10)%Z -> 0 <= Tracker.hours_needed s ->
  11 <= Tracker.calculate_priority_score today s <= 300.
Proof.
  intros [Hk1 Hk10] Hh.
  unfold Tracker.calculate_priority_score.
  destruct (tracker_urgency_antitone (Tracker.deadline s - today)
              (Tracker.deadline s - today)) as (Hu1 & _ & Hu3); [lia|].
  rewrite Zle_Qle in Hu1, Hu3, Hk1, Hk10.
  change (inject_Z 10) with 10 in *. change (inject_Z 1) with 1 in *.
  change (inject_Z 100) with 100 in *.
  set (u := inject_Z (Tracker.urgency_score (Tracker.deadline s - today))) in *.
  set (k := inject_Z (Tracker.difficulty s)) in *.
  assert (E : forall x : Q, x / 10 == x * (1 # 10)) by (intros; field).
  rewrite !E.
  q_minmax; split; nra.
Qed.

Lemma tiered_score_range_witness :
  11 <= Tracker.calculate_priority_score 738886 maths <= 300.
Proof. apply tiered_score_range; simpl; [lia | discriminate]. Defined.

(** X6. The colour of a row of the subject table goes with the urgency
    score of its subject: red for an urgency of 90 or more, orange for 70,
    yellow for 50, green below 50; every cell of the row gets it. *)
Theorem highlight_urgency_tiers (len_row : nat) (days_until_deadline : Z) :
  Display.highlight_urgency len_row days_until_deadline
  = repeat (colour_of (Tracker.urgency_score days_until_deadline)) len_row.
Proof.
  unfold Display.highlight_urgency, colour_of, Tracker.urgency_score.
  destruct (Z.leb_spec days_until_deadline 0).
  { replace (days_until_deadline <=? 1)%Z with true
      by (symmetry; apply Z.leb_le; lia).
    reflexivity. }
  destruct (Z.leb_spec days_until_deadline 1); [reflexivity|].
  destruct (Z.leb_spec days_until_deadline 3); [reflexivity|].
  destruct (Z.leb_spec days_until_deadline 7); [reflexivity|].
  set (u := Z.max 10 _).
  assert (Hu : (u <= 48)%Z) by (unfold u; lia).
  replace (90 <=? u)%Z with false by (symmetry; apply Z.leb_gt; lia).
  replace (u =? 70)%Z with false by (symmetry; apply Z.eqb_neq; lia).
  replace (u =? 50)%Z with false by (symmetry; apply Z.eqb_neq; lia).
  reflexivity.
Qed.

End ScoreOrder.

(** ** The keys of the daily allocation *)

Section AllocationKeys.

Import Py Optimizer.
Open Scope Q_scope.

Lemma dict_set_In {V} (d : dict V) (k : string) (v : V) (k' : string) :
  In k' (map fst (dict_set d k v)) <-> In k' (map fst d) \/ k' = k.
Proof.
  induction d as [|[k0 v0] d IH]; simpl.
  - intuition.
  - destruct (String.eqb_spec k0 k) as [->|Hne]; simpl.
    + intuition.
    + rewrite IH. intuition.
Qed.

Lemma dict_set_NoDup {V} (d : dict V) (k : string) (v : V) :
  List.NoDup (map fst d) -> List.NoDup (map fst (dict_set d k v)).
Proof.
  induction d as [|[k0 v0] d IH]; simpl; intros H.
  - constructor; [intros []|constructor].
  - inversion H as [|? ? Hn Hd]; subst.
    destruct (String.eqb_spec k0 k) as [->|Hne]; simpl.
    + by constructor.
    + constructor; [|by apply IH].
      rewrite dict_set_In. intros [?|?]; [by apply Hn | congruence].
Qed.

Lemma distribute_loop_keys (l : list Subject) :
  forall n i total_priority total_daily_hours remaining_hours d d',
    distribute_loop n i l total_priority total_daily_hours remaining_hours d
    = Ok d' ->
    (List.NoDup (map fst d) -> List.NoDup (map fst d'))
    /\ forall k, In k (map fst d') <-> In k (map fst d) \/ In k (map name l).
Proof.
  induction l as [|s l IH]; intros n i tp T r d d'; simpl.
  - intros [= <-]. intuition.
  - destruct (i =? n - 1)%nat; simpl.
    + intros H. apply IH in H as [Hn Hk]. split.
      * intros Hd. by apply Hn, dict_set_NoDup.
      * intros k. rewrite Hk, dict_set_In. intuition.
    + destruct (Qeq_bool tp 0); simpl; [discriminate|].
      intros H. apply IH in H as [Hn Hk]. split.
      * intros Hd. by apply Hn, dict_set_NoDup.
      * intros k. rewrite Hk, dict_set_In. intuition.
Qed.

Lemma sorted_names (today : Z) (subjects : list Subject) (k : string) :
  In k (map name (sorted_desc score (map (set_priority_score today) subjects)))
  <-> In k (map name subjects).
Proof.
  assert (Hp : Permutation
                 (sorted_desc score (map (set_priority_score today) subjects))
                 (map (set_priority_score today) subjects))
    by apply sorted_by_perm.
  split.
  - intros Hin. apply in_map_iff in Hin as (s & <- & Hin).
    apply list_elem_of_In in Hin. rewrite Hp in Hin.
    apply list_elem_of_In, in_map_iff in Hin as (s1 & <- & Hin).
    apply in_map_iff. by exists s1.
  - intros Hin. apply in_map_iff in Hin as (s & <- & Hin).
    apply in_map_iff. exists (set_priority_score today s). split; [done|].
    apply list_elem_of_In. rewrite Hp. apply list_elem_of_In.
    apply in_map_iff. by exists s.
Qed.

Lemma distribute_study_hours_loop (today : Z) (subjects : list Subject)
    (total_daily_hours : Z) :
  subjects <> [] ->
  snd (distribute_study_hours today subjects total_daily_hours)
  = let sorted_subjects :=
      sorted_desc score (map (set_priority_score today) subjects) in
    distribute_loop (length sorted_subjects) 0 sorted_subjects
      (sum_scores sorted_subjects) (inject_Z total_daily_hours)
      (inject_Z total_daily_hours) [].
Proof. destruct subjects; [congruence | reflexivity]. Qed.

Lemma allocation_keys_names (today : Z) (subjects : list Subject)
    (total_daily_hours : Z) (d : dict Q) :
  snd (distribute_study_hours today subjects total_daily_hours) = Ok d ->
  List.NoDup (map fst d)
  /\ forall k, In k (map fst d) <-> In k (map name subjects).
Proof.
  destruct subjects as [|s0 l0].
  { simpl. intros [= <-]. split; [constructor | reflexivity]. }
  rewrite distribute_study_hours_loop by discriminate.
  cbv zeta. intros H. apply distribute_loop_keys in H as [Hn Hk].
  split; [apply Hn; constructor|].
  intros k. rewrite Hk, sorted_names. simpl. intuition.
Qed.

(** X7. The allocation of [distribute_study_hours] has exactly one entry
    for every subject name of the list: its keys are the names, none twice
    (subjects of the same name share one entry). *)
Theorem allocation_keys (today : Z) (subjects : list Subject)
    (total_daily_hours : Z) (d : dict Q) :
  snd (distribute_study_hours today subjects total_daily_hours) = Ok d ->
  List.NoDup (map fst d)
  /\ (forall k, In k (map fst d) <-> In k (map name subjects))
  /\ forall s, In s subjects -> exists hours, dict_get d (name s) = Some hours.
Proof.
  intros H. destruct (allocation_keys_names _ _ _ _ H) as [Hn Hk].
  split; [done|]. split; [done|].
  intros s Hs.
  assert (Hin : In (name s) (map fst d)).
  { apply Hk, in_map_iff. by exists s. }
  clear -Hin. induction d as [|[k v] d IH]; simpl in *; [done|].
  destruct (String.eqb_spec k (name s)); [eauto|].
  destruct Hin; [congruence | auto].
Qed.

Lemma allocation_keys_witness :
  List.NoDup (map fst [("Algebra"%string, 3.0)])
  /\ (forall k, In k (map fst [("Algebra"%string, 3.0)])
                <-> In k (map name [algebra; algebra]))
  /\ forall s, In s [algebra; algebra] ->
       exists hours, dict_get [("Algebra"%string, 3.0)] (name s) = Some hours.
Proof.
  apply (allocation_keys 738886 [algebra; algebra] 6).
  vm_compute. reflexivity.
Defined.

(** X8. A single subject is allocated the whole day, whatever its score
    (no division takes place), and nothing when the daily hours are not
    positive. *)
Theorem single_subject_gets_the_day (today : Z) (s : Subject)
    (total_daily_hours : Z) :
  exists hours,
    distribute_study_hours today [s] total_daily_hours
    = ([set_priority_score today s], Ok [(name s, hours)])
    /\ hours == inject_Z (Z.max 0 total_daily_hours).
Proof.
  eexists. split; [reflexivity|].
  destruct (Qltb 0 (inject_Z total_daily_hours)) eqn:E.
  - apply Qltb_lt in E.
    change 0 with (inject_Z 0) in E. rewrite <- Zlt_Qlt in E.
    assert (H1 : inject_Z 1 <= inject_Z total_daily_hours)
      by (rewrite <- Zle_Qle; lia).
    change (inject_Z 1) with 1 in H1.
    replace (Z.max 0 total_daily_hours) with total_daily_hours by lia.
    q_minmax; lra.
  - apply Qltb_ge in E.
    change 0 with (inject_Z 0) in E. rewrite <- Zle_Qle in E.
    replace (Z.max 0 total_daily_hours) with 0%Z by lia.
    reflexivity.
Qed.

End AllocationKeys.

(** ** The window of [generate_schedule] in [src/app.py] *)

Section Window.

Import Py Optimizer.
Open Scope Z_scope.

Lemma on_date_app (d : Z) (es es' : list entry) :
  on_date d (es ++ es') = on_date d es ++ on_date d es'.
Proof. unfold on_date. by rewrite filter_app. Qed.

Lemma on_date_all (d : Z) (es : list entry) :
  Forall (fun e => date e = d) es -> on_date d es = es.
Proof.
  unfold on_date. induction 1 as [|e es He _ IH]; [reflexivity|].
  rewrite filter_cons_True by done. by rewrite IH.
Qed.

Lemma on_date_none (d : Z) (es : list entry) :
  Forall (fun e => date e <> d) es -> on_date d es = [].
Proof.
  unfold on_date. induction 1 as [|e es He _ IH]; [reflexivity|].
  by rewrite filter_cons_False.
Qed.

Lemma block_shape_names (session_length break_length : Z)
    (names names' : list string) (e : entry) :
  (forall k, In k names -> In k names') ->
  block_shape session_length break_length names e ->
  block_shape session_length break_length names' e.
Proof. unfold block_shape. destruct (type e); intuition. Qed.

Lemma study_sessions_shape (date : Z) (subject : string)
    (session_length break_length : Z) (fuel : nat) :
  forall t total es t',
    study_sessions fuel date subject session_length break_length t total
    = Some (es, t') ->
    Forall (block_shape session_length break_length [subject]) es.
Proof.
  induction fuel as [|fuel IH]; intros t total es t'; simpl; [discriminate|].
  destruct (Z.ltb_spec 0 total) as [Hpos|Hneg]; [|by intros [= <- <-]].
  assert (Hd : session_length <= 0 ->
               study_sessions fuel date subject session_length break_length
                 (t + Z.min session_length total + break_length)
                 (total - Z.min session_length total) = None).
  { intros Hs. apply study_sessions_diverges; lia. }
  destruct (Z.ltb_spec 0 (total - Z.min session_length total)) as [Hl|Hl].
  - destruct (study_sessions fuel _ _ _ _ _ _) as [[es0 t0]|] eqn:E;
      [|discriminate].
    intros [= <- <-].
    assert (0 < session_length).
    { destruct (Z.ltb_spec 0 session_length) as [|Hs]; [done|].
      specialize (Hd Hs). discriminate. }
    constructor; [|constructor; [|by eapply IH]].
    + unfold block_shape. simpl. split; [lia | by left].
    + unfold block_shape. by simpl.
  - clear Hd.
    destruct (study_sessions fuel _ _ _ _ _ _) as [[es0 t0]|] eqn:E;
      [|discriminate].
    intros [= <- <-]. constructor; [|by eapply IH].
    unfold block_shape. simpl. split; [lia | by left].
Qed.

Lemma subjects_loop_shape (date : Z) (session_length break_length : Z)
    (fuel : nat) (items : dict Q) :
  forall t es t',
    subjects_loop fuel date items session_length break_length t
    = Some (es, t') ->
    Forall (block_shape session_length break_length (map fst items)) es.
Proof.
  induction items as [|[k hours] items IH]; intros t es t'; simpl.
  - by intros [= <- <-].
  - destruct (Qltb 0 hours).
    + destruct (study_sessions _ _ _ _ _ _ _) as [[es0 t0]|] eqn:E0;
        [|discriminate].
      destruct (subjects_loop _ _ _ _ _ _) as [[es1 t1]|] eqn:E1;
        [|discriminate].
      intros [= <- <-]. apply Forall_app. split.
      * apply study_sessions_shape in E0.
        eapply Forall_impl; [exact E0|]. intros e.
        apply block_shape_names. intros ? [<-|[]]. by left.
      * apply IH in E1. eapply Forall_impl; [exact E1|]. intros e.
        apply block_shape_names. intros ? ?. by right.
    + intros H. apply IH in H. eapply Forall_impl; [exact H|]. intros e.
      apply block_shape_names. intros ? ?. by right.
Qed.

Lemma create_daily_schedule_dates (fuel : nat) (date : Z)
    (hour_distribution : dict Q) (session_length break_length : Z)
    (start_time : Z * Z) (day : list entry) :
  _create_daily_schedule fuel date hour_distribution session_length
    break_length start_time = Some (Ok day) ->
  Forall (fun e => Optimizer.date e = date) day
  /\ Forall (block_shape session_length break_length
               (map fst hour_distribution)) day
  /\ study_total day = allocated_minutes hour_distribution.
Proof.
  unfold _create_daily_schedule. destruct start_time as [h m].
  destruct (_ && _)%bool; [|discriminate].
  destruct (subjects_loop _ _ _ _ _ _) as [[es t]|] eqn:E; [|discriminate].
  intros [= <-]. split; [|split].
  - by apply subjects_loop_spec in E as (_ & _ & _ & ? & _).
  - by apply subjects_loop_shape in E.
  - by apply subjects_loop_spec in E as (_ & _ & ? & _).
Qed.

(** What the day loop returns: the days' blocks, one weekday after the
    other. *)
Lemma days_loop_days (fuel : nat) (hour_distribution : dict Q)
    (session_length break_length : Z) (start_time : Z * Z) (days : nat) :
  forall current_date schedule,
    days_loop fuel days current_date hour_distribution session_length
      break_length start_time = Some (Ok schedule) ->
    Forall (fun e => current_date <= date e < current_date + Z.of_nat days
                     /\ weekday (date e) < 5) schedule
    /\ (forall d,
          current_date <= d < current_date + Z.of_nat days ->
          weekday d < 5 ->
          _create_daily_schedule fuel d hour_distribution session_length
            break_length start_time = Some (Ok (on_date d schedule)))
    /\ study_total schedule
       = weekdays_from current_date days * allocated_minutes hour_distribution.
Proof.
  induction days as [|days IH]; intros cur schedule.
  - simpl. intros [= <-]. split; [constructor|]. split; [lia | reflexivity].
  - cbn [days_loop weekdays_from].
    destruct (Z.ltb_spec (weekday cur) 5) as [Hw|Hw].
    + destruct (_create_daily_schedule _ cur _ _ _ _) as [[day|]|] eqn:Ed;
        [|discriminate|discriminate].
      destruct (days_loop _ _ _ _ _ _ _) as [[rest|]|] eqn:Er;
        [|discriminate|discriminate].
      intros [= <-]. apply IH in Er as (Hr1 & Hr2 & Hr3).
      pose proof (create_daily_schedule_dates _ _ _ _ _ _ _ Ed)
        as (Hd1 & _ & Hd3).
      split; [|split].
      * apply Forall_app. split.
        -- eapply Forall_impl; [exact Hd1|]. simpl. intros e ->. lia.
        -- eapply Forall_impl; [exact Hr1|]. simpl. lia.
      * intros d Hd Hwd. rewrite on_date_app.
        destruct (Z.eq_dec d cur) as [->|Hne].
        -- rewrite on_date_all by done.
           rewrite on_date_none, app_nil_r; [done|].
           eapply Forall_impl; [exact Hr1|]. simpl. lia.
        -- rewrite on_date_none; [apply Hr2; [lia|done]|].
           eapply Forall_impl; [exact Hd1|]. simpl. intros e ->. lia.
      * rewrite study_total_app, Hr3, Hd3. lia.
    + destruct (days_loop _ _ _ _ _ _ _) as [[rest|]|] eqn:Er;
        [|discriminate|discriminate].
      intros [= <-]. apply IH in Er as (Hr1 & Hr2 & Hr3). simpl.
      split; [|split].
      * eapply Forall_impl; [exact Hr1|]. simpl. lia.
      * intros d Hd Hwd. apply Hr2; [|done].
        destruct (Z.eq_dec d cur) as [->|]; lia.
      * rewrite Hr3. lia.
Qed.

Lemma generate_schedule_days (fuel : nat) (today : Z)
    (subjects : list Subject) (start_date daily_hours : Z)
    (session_length break_length : Z) (start_time : Z * Z)
    (subjects' : list Subject) (schedule : list entry) :
  generate_schedule fuel today subjects start_date daily_hours
    session_length break_length start_time
  = Some (Ok (subjects', schedule)) ->
  exists hour_distribution,
    snd (distribute_study_hours today subjects daily_hours)
    = Ok hour_distribution
    /\ days_loop fuel 31 start_date hour_distribution session_length
         break_length start_time = Some (Ok schedule).
Proof.
  unfold generate_schedule.
  destruct (distribute_study_hours _ _ _) as [l [d|e]]; [|discriminate].
  replace (Z.to_nat (start_date + 30 - start_date + 1)) with 31%nat by lia.
  destruct (days_loop _ _ _ _ _ _ _) as [[sch|]|] eqn:E;
    [|discriminate|discriminate].
  intros [= <- <-]. by exists d.
Qed.

(** X9. Every block that [generate_schedule] returns is dated on a weekday
    between the start date and thirty days later. *)
Theorem schedule_on_weekdays_of_window (fuel : nat) (today : Z)
    (subjects : list Subject) (start_date daily_hours : Z)
    (session_length break_length : Z) (start_time : Z * Z)
    (subjects' : list Subject) (schedule : list entry) :
  generate_schedule fuel today subjects start_date daily_hours
    session_length break_length start_time
  = Some (Ok (subjects', schedule)) ->
  Forall (fun e => start_date <= date e <= start_date + 30
                   /\ weekday (date e) < 5) schedule.
Proof.
  intros H. apply generate_schedule_days in H as (d & _ & H).
  apply days_loop_days in H as (H & _).
  eapply Forall_impl; [exact H|]. simpl. lia.
Qed.

Lemma schedule_on_weekdays_of_window_witness :
  exists subjects' schedule,
    generate_schedule 100 738886 [algebra] 738886 1 60 15 (9, 0)
    = Some (Ok (subjects', schedule))
    /\ Forall (fun e => 738886 <= date e <= 738886 + 30
                        /\ weekday (date e) < 5) schedule.
Proof.
  destruct (generate_schedule 100 738886 [algebra] 738886 1 60 15 (9, 0))
    as [[[ss sch]|e]|] eqn:E; try (vm_compute in E; discriminate).
  exists ss, sch. split; [reflexivity|].
  exact (schedule_on_weekdays_of_window _ _ _ _ _ _ _ _ _ _ E).
Defined.

Lemma study_sessions_redate (d d' : Z) (subject : string)
    (session_length break_length : Z) (fuel : nat) :
  forall t total es t',
    study_sessions fuel d subject session_length break_length t total
    = Some (es, t') ->
    study_sessions fuel d' subject session_length break_length t total
    = Some (map (redate d') es, t').
Proof.
  induction fuel as [|fuel IH]; intros t total es t'; simpl; [discriminate|].
  destruct (0 <? total); [|by intros [= <- <-]].
  destruct (0 <? total - _).
  - destruct (study_sessions fuel d _ _ _ _ _) as [[es0 t0]|] eqn:E;
      [|discriminate].
    intros [= <- <-]. by rewrite (IH _ _ _ _ E).
  - destruct (study_sessions fuel d _ _ _ _ _) as [[es0 t0]|] eqn:E;
      [|discriminate].
    intros [= <- <-]. by rewrite (IH _ _ _ _ E).
Qed.

Lemma subjects_loop_redate (d d' : Z) (session_length break_length : Z)
    (fuel : nat) (items : dict Q) :
  forall t es t',
    subjects_loop fuel d items session_length break_length t = Some (es, t') ->
    subjects_loop fuel d' items session_length break_length t
    = Some (map (redate d') es, t').
Proof.
  induction items as [|[k hours] items IH]; intros t es t'; simpl.
  - by intros [= <- <-].
  - destruct (Qltb 0 hours); [|apply IH].
    destruct (study_sessions _ d _ _ _ _ _) as [[es0 t0]|] eqn:E0;
      [|discriminate].
    destruct (subjects_loop _ d _ _ _ _) as [[es1 t1]|] eqn:E1;
      [|discriminate].
    intros [= <- <-].
    rewrite (study_sessions_redate _ _ _ _ _ _ _ _ _ _ E0).
    rewrite (IH _ _ _ E1). by rewrite map_app.
Qed.

Lemma create_daily_schedule_redate (fuel : nat) (d d' : Z)
    (hour_distribution : dict Q) (session_length break_length : Z)
    (start_time : Z * Z) (day : list entry) :
  _create_daily_schedule fuel d hour_distribution session_length
    break_length start_time = Some (Ok day) ->
  _create_daily_schedule fuel d' hour_distribution session_length
    break_length start_time = Some (Ok (map (redate d') day)).
Proof.
  unfold _create_daily_schedule. destruct start_time as [h m].
  destruct (_ && _)%bool; [|discriminate].
  destruct (subjects_loop _ d _ _ _ _) as [[es t]|] eqn:E; [|discriminate].
  intros [= <-]. by rewrite (subjects_loop_redate _ _ _ _ _ _ _ _ _ E).
Qed.

(** X10. Every weekday of the window gets the same blocks: the blocks of
    two weekdays between the start date and thirty days later differ by
    their date only. *)
Theorem weekdays_alike (fuel : nat) (today : Z)
    (subjects : list Subject) (start_date daily_hours : Z)
    (session_length break_length : Z) (start_time : Z * Z)
    (subjects' : list Subject) (schedule : list entry) (d d' : Z) :
  generate_schedule fuel today subjects start_date daily_hours
    session_length break_length start_time
  = Some (Ok (subjects', schedule)) ->
  start_date <= d <= start_date + 30 -> weekday d < 5 ->
  start_date <= d' <= start_date + 30 -> weekday d' < 5 ->
  on_date d' schedule = map (redate d') (on_date d schedule)
  /\ map undated (on_date d' schedule) = map undated (on_date d schedule).
Proof.
  intros H Hd Hw Hd' Hw'. apply generate_schedule_days in H as (hd & _ & H).
  apply days_loop_days in H as (_ & H & _).
  pose proof (H d ltac:(lia) Hw) as E.
  pose proof (H d' ltac:(lia) Hw') as E'.
  apply (create_daily_schedule_redate _ _ d') in E.
  rewrite E in E'. injection E' as <-. split; [reflexivity|].
  rewrite map_map. reflexivity.
Qed.

Lemma weekdays_alike_witness :
  exists subjects' schedule,
    generate_schedule 100 738886 [algebra] 738886 1 60 15 (9, 0)
    = Some (Ok (subjects', schedule))
    /\ on_date 738894 schedule = map (redate 738894) (on_date 738886 schedule)
    /\ map undated (on_date 738894 schedule)
       = map undated (on_date 738886 schedule).
Proof.
  destruct (generate_schedule 100 738886 [algebra] 738886 1 60 15 (9, 0))
    as [[[ss sch]|e]|] eqn:E; try (vm_compute in E; discriminate).
  exists ss, sch. split; [reflexivity|].
  apply (weekdays_alike _ _ _ _ _ _ _ _ _ _ 738886 738894 E);
    vm_compute; try split; congruence.
Defined.

(** X11. The blocks of a schedule have one of two shapes: a Study block
    lasts at least one minute and at most the session length and bears the
    name of one of the subjects; a Break block lasts the break length and
    is called Break. *)
Theorem schedule_block_shapes (fuel : nat) (today : Z)
    (subjects : list Subject) (start_date daily_hours : Z)
    (session_length break_length : Z) (start_time : Z * Z)
    (subjects' : list Subject) (schedule : list entry) :
  generate_schedule fuel today subjects start_date daily_hours
    session_length break_length start_time
  = Some (Ok (subjects', schedule)) ->
  Forall (block_shape session_length break_length (map name subjects))
    schedule.
Proof.
  intros H. apply generate_schedule_days in H as (hd & Hhd & H).
  apply days_loop_days in H as (Hdates & Hday & _).
  apply Forall_forall. intros e He.
  pose proof (proj1 (Forall_forall _ _) Hdates e He) as [Hr Hw].
  specialize (Hday (date e) ltac:(lia) Hw).
  apply create_daily_schedule_dates in Hday as (_ & Hshape & _).
  assert (Hin : e ∈ on_date (date e) schedule).
  { unfold on_date. by apply list_elem_of_filter. }
  pose proof (proj1 (Forall_forall _ _) Hshape e Hin) as Hs.
  revert Hs. apply block_shape_names. intros k.
  by apply (allocation_keys_names _ _ _ _ Hhd).
Qed.

Lemma schedule_block_shapes_witness :
  exists subjects' schedule,
    generate_schedule 100 738886 [algebra] 738886 1 30 15 (9, 0)
    = Some (Ok (subjects', schedule))
    /\ Forall (block_shape 30 15 (map name [algebra])) schedule.
Proof.
  destruct (generate_schedule 100 738886 [algebra] 738886 1 30 15 (9, 0))
    as [[[ss sch]|e]|] eqn:E; try (vm_compute in E; discriminate).
  exists ss, sch. split; [reflexivity|].
  exact (schedule_block_shapes _ _ _ _ _ _ _ _ _ _ E).
Defined.

Lemma weekdays_from_ext (days : nat) :
  forall d d',
    (forall i, 0 <= i -> weekday (d + i) = weekday (d' + i)) ->
    weekdays_from d days = weekdays_from d' days.
Proof.
  induction days as [|days IH]; intros d d' H; simpl; [reflexivity|].
  pose proof (H 0 ltac:(lia)) as H0. rewrite !Z.add_0_r in H0. rewrite H0.
  f_equal. apply IH. intros i Hi.
  replace (d + 1 + i) with (d + (i + 1)) by lia.
  replace (d' + 1 + i) with (d' + (i + 1)) by lia.
  apply H. lia.
Qed.

Lemma weekdays_of_window (d : Z) : 21 <= weekdays_from d 31 <= 23.
Proof.
  rewrite (weekdays_from_ext 31 d (d mod 7)).
  - pose proof (Z.mod_pos_bound d 7 ltac:(lia)) as Hb.
    assert (Hc : d mod 7 = 0 \/ d mod 7 = 1 \/ d mod 7 = 2 \/ d mod 7 = 3
                 \/ d mod 7 = 4 \/ d mod 7 = 5 \/ d mod 7 = 6) by lia.
    destruct Hc as [->|[->|[->|[->|[->|[->| ->]]]]]]; vm_compute;
      split; discriminate.
  - intros i _. unfold weekday.
    replace (d + i + 6) with (d + (i + 6)) by lia.
    replace (d mod 7 + i + 6) with (d mod 7 + (i + 6)) by lia.
    by rewrite Z.add_mod_idemp_l.
Qed.

(** X12. The Study minutes of the whole schedule are the minutes of the
    daily allocation, [int(hours * 60)] summed over the subjects, once for
    every weekday of the window; the window has between 21 and 23
    weekdays. *)
Theorem study_minutes_of_window (fuel : nat) (today : Z)
    (subjects : list Subject) (start_date daily_hours : Z)
    (session_length break_length : Z) (start_time : Z * Z)
    (subjects' : list Subject) (schedule : list entry) :
  generate_schedule fuel today subjects start_date daily_hours
    session_length break_length start_time
  = Some (Ok (subjects', schedule)) ->
  exists hour_distribution,
    snd (distribute_study_hours today subjects daily_hours)
    = Ok hour_distribution
    /\ study_total schedule
       = weekdays_from start_date 31 * allocated_minutes hour_distribution
    /\ 21 <= weekdays_from start_date 31 <= 23.
Proof.
  intros H. apply generate_schedule_days in H as (hd & Hhd & H).
  apply days_loop_days in H as (_ & _ & H).
  exists hd. split; [done|]. split; [done|]. apply weekdays_of_window.
Qed.

Lemma study_minutes_of_window_witness :
  exists subjects' schedule,
    generate_schedule 100 738886 [algebra] 738886 1 30 15 (9, 0)
    = Some (Ok (subjects', schedule))
    /\ exists hour_distribution,
         snd (distribute_study_hours 738886 [algebra] 1)
         = Ok hour_distribution
         /\ study_total schedule
            = weekdays_from 738886 31 * allocated_minutes hour_distribution
         /\ 21 <= weekdays_from 738886 31 <= 23.
Proof.
  destruct (generate_schedule 100 738886 [algebra] 738886 1 30 15 (9, 0))
    as [[[ss sch]|e]|] eqn:E; try (vm_compute in E; discriminate).
  exists ss, sch. split; [reflexivity|].
  exact (study_minutes_of_window _ _ _ _ _ _ _ _ _ _ E).
Defined.

Lemma study_minutes_app (k : string) (es es' : list entry) :
  study_minutes k (es ++ es') = study_minutes k es + study_minutes k es'.
Proof. unfold study_minutes. by rewrite filter_app, total_minutes_app. Qed.

Lemma study_minutes_one_subject (k subject : string) (es : list entry) :
  Forall (fun e => is_study e = true -> Optimizer.subject e = subject) es ->
  study_minutes k es = if String.eqb subject k then study_total es else 0.
Proof.
  induction 1 as [|e es He _ IH].
  { by destruct (String.eqb subject k). }
  rewrite study_total_cons.
  change (e :: es) with ([e] ++ es). rewrite study_minutes_app, IH.
  assert (E : study_minutes k [e]
              = if is_study e && String.eqb (Optimizer.subject e) k
                then duration e else 0).
  { unfold study_minutes.
    destruct (is_study e && String.eqb (Optimizer.subject e) k) eqn:Eb.
    - rewrite filter_cons_True by done. simpl. lia.
    - rewrite filter_cons_False; [reflexivity|]. by rewrite Eb. }
  rewrite E. destruct (is_study e) eqn:Es; simpl.
  - rewrite He by done. destruct (String.eqb subject k); lia.
  - destruct (String.eqb subject k); lia.
Qed.

Lemma dict_get_None {V} (d : dict V) (k : string) :
  ~ In k (map fst d) -> dict_get d k = None.
Proof.
  induction d as [|[k0 v0] d IH]; simpl; [done|].
  intros H. destruct (String.eqb_spec k0 k); [tauto|]. apply IH. tauto.
Qed.

Lemma subjects_loop_minutes (date : Z) (session_length break_length : Z)
    (fuel : nat) (items : dict Q) :
  List.NoDup (map fst items) ->
  forall t es t',
    subjects_loop fuel date items session_length break_length t
    = Some (es, t') ->
    forall k,
      study_minutes k es
      = match dict_get items k with
        | Some hours => if Qltb 0 hours then int (hours * 60) else 0
        | None => 0
        end.
Proof.
  induction items as [|[k0 hours] items IH]; intros Hn t es t'; simpl.
  - by intros [= <- <-].
  - inversion Hn as [|? ? Hk0 Hn']; subst.
    destruct (Qltb 0 hours) eqn:Eh.
    + destruct (study_sessions _ _ _ _ _ _ _) as [[es0 t0]|] eqn:E0;
        [|discriminate].
      destruct (subjects_loop _ _ _ _ _ _) as [[es1 t1]|] eqn:E1;
        [|discriminate].
      intros [= <- <-] k. rewrite study_minutes_app.
      rewrite (IH Hn' _ _ _ E1 k).
      rewrite (study_minutes_one_subject k k0).
      * apply study_sessions_spec in E0 as (_ & _ & -> & _).
        pose proof (proj1 (Qltb_lt _ _) Eh) as Eh'.
        assert (0 <= int (hours * 60)) by (apply int_nonneg; lra).
        destruct (String.eqb_spec k0 k) as [->|].
        -- rewrite dict_get_None, Eh by done. lia.
        -- lia.
      * apply study_sessions_shape in E0.
        eapply Forall_impl; [exact E0|]. intros e. unfold block_shape, is_study.
        destruct (type e); [|discriminate]. by intros [_ [<-|[]]] _.
    + intros H k. rewrite (IH Hn' _ _ _ H k).
      destruct (String.eqb_spec k0 k) as [->|]; [|reflexivity].
      by rewrite dict_get_None, Eh.
Qed.

(** X13. On every weekday of the window every subject gets the Study
    minutes of its allocation, [int(hours * 60)], and none when the
    allocation is not positive. *)
Theorem subject_minutes_per_weekday (fuel : nat) (today : Z)
    (subjects : list Subject) (start_date daily_hours : Z)
    (session_length break_length : Z) (start_time : Z * Z)
    (subjects' : list Subject) (schedule : list entry) (d : Z) (s : Subject) :
  generate_schedule fuel today subjects start_date daily_hours
    session_length break_length start_time
  = Some (Ok (subjects', schedule)) ->
  start_date <= d <= start_date + 30 -> weekday d < 5 ->
  In s subjects ->
  exists hour_distribution hours,
    snd (distribute_study_hours today subjects daily_hours)
    = Ok hour_distribution
    /\ dict_get hour_distribution (name s) = Some hours
    /\ study_minutes (name s) (on_date d schedule)
       = if Qltb 0 hours then int (hours * 60) else 0.
Proof.
  intros H Hd Hw Hs. apply generate_schedule_days in H as (hd & Hhd & H).
  apply days_loop_days in H as (_ & H & _).
  specialize (H d ltac:(lia) Hw).
  destruct (allocation_keys_names _ _ _ _ Hhd) as [Hn Hk].
  assert (Hin : In (name s) (map fst hd)).
  { apply Hk, in_map_iff. by exists s. }
  assert (Hget : exists hours, dict_get hd (name s) = Some hours).
  { clear -Hin. induction hd as [|[k v] hd IH]; simpl in *; [done|].
    destruct (String.eqb_spec k (name s)); [eauto|].
    destruct Hin; [congruence | auto]. }
  destruct Hget as [hours Hget]. exists hd, hours.
  split; [done|]. split; [done|].
  unfold _create_daily_schedule in H. destruct start_time as [hh mm].
  destruct (_ && _)%bool; [|discriminate].
  destruct (subjects_loop _ _ _ _ _ _) as [[es t]|] eqn:E; [|discriminate].
  injection H as <-.
  rewrite (subjects_loop_minutes _ _ _ _ _ Hn _ _ _ E (name s)).
  by rewrite Hget.
Qed.

Lemma subject_minutes_per_weekday_witness :
  exists subjects' schedule,
    generate_schedule 100 738886 [algebra; biology] 738886 2 60 15 (9, 0)
    = Some (Ok (subjects', schedule))
    /\ exists hour_distribution hours,
         snd (distribute_study_hours 738886 [algebra; biology] 2)
         = Ok hour_distribution
         /\ dict_get hour_distribution (name biology) = Some hours
         /\ study_minutes (name biology) (on_date 738887 schedule)
            = if Qltb 0 hours then int (hours * 60) else 0.
Proof.
  destruct (generate_schedule 100 738886 [algebra; biology] 738886 2 60 15
              (9, 0))
    as [[[ss sch]|e]|] eqn:E; try (vm_compute in E; discriminate).
  exists ss, sch. split; [reflexivity|].
  apply (subject_minutes_per_weekday _ _ _ _ _ _ _ _ _ _ 738887 biology E).
  - lia.
  - vm_compute. reflexivity.
  - right. by left.
Defined.

Lemma days_loop_stuck (fuel : nat) (hour_distribution : dict Q)
    (session_length break_length : Z) (start_time : Z * Z)
    (r : option (result (list entry))) (days : nat) :
  (forall d,
     _create_daily_schedule fuel d hour_distribution session_length
       break_length start_time = r) ->
  r = None \/ (exists e, r = Some (Raise e)) ->
  forall current_date,
    0 < weekdays_from current_date days ->
    days_loop fuel days current_date hour_distribution session_length
      break_length start_time = r.
Proof.
  intros Hc Hr. induction days as [|days IH]; intros cur; simpl; [lia|].
  destruct (Z.ltb_spec (weekday cur) 5) as [Hw|Hw].
  - intros _. rewrite Hc. by destruct Hr as [->|[e ->]].
  - intros H. rewrite IH by lia. by destruct Hr as [->|[e ->]].
Qed.

Lemma int_minute (x : Q) : (1 <= x)%Q -> 0 < int x.
Proof.
  intros H. unfold int.
  replace (Qleb 0 x) with true by (symmetry; apply Qleb_le; lra).
  assert (Qfloor 1 <= Qfloor x) by by apply Qfloor_resp_le.
  change (Qfloor 1) with 1 in *. lia.
Qed.

Lemma subjects_loop_stuck (fuel : nat) (date : Z)
    (session_length break_length : Z) (items : dict Q) :
  session_length <= 0 ->
  Exists (fun kv => (1 <= snd kv * 60)%Q) items ->
  forall t,
    subjects_loop fuel date items session_length break_length t = None.
Proof.
  intros Hs. induction 1 as [[k hours] items Hh|[k hours] items _ IH];
    intros t; simpl.
  - simpl in Hh.
    replace (Qltb 0 hours) with true by (symmetry; apply Qltb_lt; lra).
    rewrite study_sessions_diverges; [reflexivity | done |].
    by apply int_minute.
  - destruct (Qltb 0 hours); [|apply IH].
    destruct (study_sessions _ _ _ _ _ _ _) as [[es0 t0]|]; [|reflexivity].
    by rewrite IH.
Qed.

Lemma valid_start_time_check (start_time : Z * Z) :
  valid_start_time start_time <->
  ((0 <=? fst start_time) && (fst start_time <=? 23)
   && (0 <=? snd start_time) && (snd start_time <=? 59))%bool = true.
Proof.
  unfold valid_start_time.
  rewrite !andb_true_iff, !Z.leb_le. tauto.
Qed.

(** X14. With a session length of zero or less [generate_schedule]
    returns no schedule: as soon as one subject is allocated a minute or
    more, [total_minutes] never decreases in the loop
    [while total_minutes > 0] of the first weekday, so that the loop is
    never left by its condition: the call does not end, or it ends with an
    exception. (The clock of the embedding has no bounds, so that here it
    is the fuel that runs out; where the clock of Python leaves the years
    1..9999 first, the call ends with [OverflowError].) *)
Theorem no_schedule_for_nonpositive_session_length (fuel : nat) (today : Z)
    (subjects : list Subject) (start_date daily_hours : Z)
    (session_length break_length : Z) (start_time : Z * Z)
    (hour_distribution : dict Q) :
  session_length <= 0 -> valid_start_time start_time ->
  snd (distribute_study_hours today subjects daily_hours)
  = Ok hour_distribution ->
  Exists (fun kv => (1 <= snd kv * 60)%Q) hour_distribution ->
  generate_schedule fuel today subjects start_date daily_hours
    session_length break_length start_time = None
  \/ exists e,
       generate_schedule fuel today subjects start_date daily_hours
         session_length break_length start_time = Some (Raise e).
Proof.
  intros Hs Hv Hhd Hex. left. unfold generate_schedule.
  destruct (distribute_study_hours _ _ _) as [l a]. simpl in Hhd. subst a.
  rewrite (days_loop_stuck fuel hour_distribution session_length break_length
             start_time None); [reflexivity | | by left |].
  - intros d. unfold _create_daily_schedule. destruct start_time as [h m].
    apply valid_start_time_check in Hv. simpl in Hv. rewrite Hv.
    by rewrite subjects_loop_stuck.
  - replace (Z.to_nat _) with 31%nat by lia.
    pose proof (weekdays_of_window start_date). lia.
Qed.

Lemma no_schedule_for_nonpositive_session_length_witness :
  generate_schedule 1000 738886 [algebra] 738886 1 0 15 (9, 0) = None
  \/ exists e,
       generate_schedule 1000 738886 [algebra] 738886 1 0 15 (9, 0)
       = Some (Raise e).
Proof.
  apply (no_schedule_for_nonpositive_session_length 1000 738886 [algebra] 738886 1 0 15 (9, 0)
           [("Algebra"%string, 1%Q)]).
  - lia.
  - unfold valid_start_time. simpl. lia.
  - reflexivity.
  - constructor. simpl. discriminate.
Defined.







End Window.

(** ** The weekend switch of [src/app_pandas.py] *)

Section WeekendSwitch.

Import Py Optimizer.
Open Scope Z_scope.

Lemma pandas_days_loop_weekdays (fuel : nat) (hour_distribution : dict Q)
    (session_length break_length : Z) (start_time : Z * Z) (days : nat) :
  forall current_date,
    Pandas.days_loop fuel days current_date hour_distribution session_length
      break_length start_time false
    = days_loop fuel days current_date hour_distribution session_length
        break_length start_time.
Proof.
  induction days as [|days IH]; intros cur; simpl; [reflexivity|].
  by rewrite IH.
Qed.

Lemma pandas_days_loop_all (fuel : nat) (hour_distribution : dict Q)
    (session_length break_length : Z) (start_time : Z * Z) (days : nat) :
  forall current_date schedule,
    Pandas.days_loop fuel days current_date hour_distribution session_length
      break_length start_time true = Some (Ok schedule) ->
    Forall (fun e => current_date <= date e < current_date + Z.of_nat days)
      schedule
    /\ (forall d,
          current_date <= d < current_date + Z.of_nat days ->
          _create_daily_schedule fuel d hour_distribution session_length
            break_length start_time = Some (Ok (on_date d schedule)))
    /\ study_total schedule
       = Z.of_nat days * allocated_minutes hour_distribution.
Proof.
  induction days as [|days IH]; intros cur schedule.
  - simpl. intros [= <-]. split; [constructor|]. split; [lia | reflexivity].
  - cbn [Pandas.days_loop orb].
    destruct (_create_daily_schedule _ cur _ _ _ _) as [[day|]|] eqn:Ed;
      [|discriminate|discriminate].
    destruct (Pandas.days_loop _ _ _ _ _ _ _ _) as [[rest|]|] eqn:Er;
      [|discriminate|discriminate].
    intros [= <-]. apply IH in Er as (Hr1 & Hr2 & Hr3).
    pose proof (create_daily_schedule_dates _ _ _ _ _ _ _ Ed)
      as (Hd1 & _ & Hd3).
    split; [|split].
    + apply Forall_app. split.
      * eapply Forall_impl; [exact Hd1|]. simpl. intros e ->. lia.
      * eapply Forall_impl; [exact Hr1|]. simpl. lia.
    + intros d Hd. rewrite on_date_app.
      destruct (Z.eq_dec d cur) as [->|Hne].
      * rewrite on_date_all by done.
        rewrite on_date_none, app_nil_r; [done|].
        eapply Forall_impl; [exact Hr1|]. simpl. lia.
      * rewrite on_date_none; [apply Hr2; lia|].
        eapply Forall_impl; [exact Hd1|]. simpl. intros e ->. lia.
    + rewrite study_total_app, Hr3, Hd3. lia.
Qed.

(** X17. Without weekends, [generate_schedule] of [src/app_pandas.py] is
    [generate_schedule] of [src/app.py]: same result, same exception, same
    divergence, on every input. *)
Theorem pandas_without_weekends (fuel : nat) (today : Z)
    (subjects : list Subject) (start_date daily_hours : Z)
    (session_length break_length : Z) (start_time : Z * Z) :
  Pandas.generate_schedule fuel today subjects start_date daily_hours
    session_length break_length start_time false
  = generate_schedule fuel today subjects start_date daily_hours
      session_length break_length start_time.
Proof.
  unfold Pandas.generate_schedule, generate_schedule.
  destruct (distribute_study_hours _ _ _) as [l [d|e]]; [|reflexivity].
  by rewrite pandas_days_loop_weekdays.
Qed.

(** X18. With weekends, every one of the 31 dates of the window gets the
    blocks of [_create_daily_schedule], Saturdays and Sundays too: the
    Study minutes of the schedule are 31 times those of the daily
    allocation. *)
Theorem pandas_with_weekends (fuel : nat) (today : Z)
    (subjects : list Subject) (start_date daily_hours : Z)
    (session_length break_length : Z) (start_time : Z * Z)
    (subjects' : list Subject) (schedule : list entry) :
  Pandas.generate_schedule fuel today subjects start_date daily_hours
    session_length break_length start_time true
  = Some (Ok (subjects', schedule)) ->
  exists hour_distribution,
    snd (distribute_study_hours today subjects daily_hours)
    = Ok hour_distribution
    /\ Forall (fun e => start_date <= date e <= start_date + 30) schedule
    /\ (forall d,
          start_date <= d <= start_date + 30 ->
          _create_daily_schedule fuel d hour_distribution session_length
            break_length start_time = Some (Ok (on_date d schedule)))
    /\ study_total schedule = 31 * allocated_minutes hour_distribution.
Proof.
  unfold Pandas.generate_schedule.
  destruct (distribute_study_hours _ _ _) as [l [hd|e]]; [|discriminate].
  replace (Z.to_nat (start_date + 30 - start_date + 1)) with 31%nat by lia.
  destruct (Pandas.days_loop _ _ _ _ _ _ _ _) as [[sch|]|] eqn:E;
    [|discriminate|discriminate].
  intros [= <- <-]. exists hd. split; [reflexivity|].
  apply pandas_days_loop_all in E as (H1 & H2 & H3).
  split; [|split].
  - eapply Forall_impl; [exact H1|]. simpl. lia.
  - intros d Hd. apply H2. lia.
  - rewrite H3. lia.
Qed.

Lemma pandas_with_weekends_witness :
  exists subjects' schedule,
    Pandas.generate_schedule 100 738886 [algebra] 738886 1 30 15 (9, 0) true
    = Some (Ok (subjects', schedule))
    /\ exists hour_distribution,
         snd (distribute_study_hours 738886 [algebra] 1)
         = Ok hour_distribution
         /\ Forall (fun e => 738886 <= date e <= 738886 + 30) schedule
         /\ (forall d,
               738886 <= d <= 738886 + 30 ->
               _create_daily_schedule 100 d hour_distribution 30 15 (9, 0)
               = Some (Ok (on_date d schedule)))
         /\ study_total schedule = 31 * allocated_minutes hour_distribution.
Proof.
  destruct (Pandas.generate_schedule 100 738886 [algebra] 738886 1 30 15
              (9, 0) true)
    as [[[ss sch]|e]|] eqn:E; try (vm_compute in E; discriminate).
  exists ss, sch. split; [reflexivity|].
  exact (pandas_with_weekends _ _ _ _ _ _ _ _ _ _ E).
Defined.

End WeekendSwitch.

(** ** The calendar export of [src/app.py] *)

Section CalendarExport.

Import Py Optimizer CsvExport.

Variable strftime_mdY : Z -> string.

Lemma csv_lines_loop_spec (schedule : list entry) :
  forall lines,
    csv_lines_loop strftime_mdY lines schedule
    = lines
      ++ map (csv_line strftime_mdY)
           (filter (fun e => is_study e = true) schedule).
Proof.
  induction schedule as [|e schedule IH]; intros lines; simpl.
  - by rewrite app_nil_r.
  - unfold is_study at 1. destruct (type e) eqn:E.
    + rewrite filter_cons_True by (unfold is_study; by rewrite E).
      rewrite IH, <- app_assoc. reflexivity.
    + rewrite filter_cons_False by (unfold is_study; by rewrite E).
      apply IH.
Qed.

(** X19. The export is the header line followed by one line for every
    Study block of the schedule, in the order of the schedule, joined by
    newlines; Break blocks are not exported, and an empty schedule exports
    the header alone. *)
Theorem export_lists_study_blocks (schedule : list entry) :
  create_google_calendar_export strftime_mdY schedule
  = String.concat newline
      ("Subject,Start Date,Start Time,End Date,End Time,Description"%string
       :: map (csv_line strftime_mdY)
            (filter (fun e => is_study e = true) schedule))
  /\ create_google_calendar_export strftime_mdY schedule
     = create_google_calendar_export strftime_mdY
         (filter (fun e => is_study e = true) schedule)
  /\ length (csv_lines strftime_mdY schedule)
     = S (length (filter (fun e => is_study e = true) schedule)).
Proof.
  unfold create_google_calendar_export, csv_lines.
  rewrite !csv_lines_loop_spec. split; [reflexivity|]. split.
  - by rewrite list_filter_filter_l.
  - simpl. by rewrite length_map.
Qed.

End CalendarExport.

(** ** Sessions of [src/Schedulyze/app.py] *)

Section Sessions.

Import Py Tracker.
Open Scope Q_scope.

Lemma session_shape_names (settings : Settings) (names names' : list string)
    (e : entry) :
  (forall k, In k names -> In k names') ->
  session_shape settings names e -> session_shape settings names' e.
Proof. unfold session_shape. destruct (type e); intuition. Qed.

Lemma tracker_subjects_loop_shape (today : Z) (settings : Settings)
    (study_date : Z) (l : list Subject) :
  forall m start acc es m',
    subjects_loop today settings study_date l m start acc = (es, m') ->
    Forall (fun e => session_shape settings (map name l) e
                     /\ date e = study_date) es.
Proof.
  induction l as [|s l IH]; intros m start acc es m' H; simpl in H.
  - injection H as <- <-. constructor.
  - assert (Hw : forall es,
               Forall (fun e => session_shape settings (map name l) e
                                /\ date e = study_date) es ->
               Forall (fun e => session_shape settings (map name (s :: l)) e
                                /\ date e = study_date) es).
    { intros es0 H0. eapply Forall_impl; [exact H0|]. intros e [He ?].
      split; [|done]. revert He. apply session_shape_names.
      intros k Hk. by right. }
    destruct (Qleb (get m (name s)) 0); [by eapply Hw, IH|].
    destruct (Qleb (daily_hours settings * 60) acc).
    { injection H as <- <-. constructor. }
    set (d := Qmin (Qmin (inject_Z (session_length settings))
                      (get m (name s) * 60))
                (daily_hours settings * 60 - acc)) in *.
    destruct (Qltb d 15) eqn:Ed; [by eapply Hw, IH|].
    apply Qltb_ge in Ed.
    assert (Hd : d <= inject_Z (session_length settings)).
    { unfold d. q_minmax; lra. }
    destruct (Qltb (acc + d) _).
    + destruct (subjects_loop _ _ _ l _ _ _) as [es1 m2] eqn:Erec.
      injection H as <- <-.
      constructor; [|constructor; [|by eapply Hw, IH]].
      * split; [|reflexivity]. unfold session_shape. simpl.
        split; [done | by left].
      * split; [|reflexivity]. unfold session_shape. by simpl.
    + destruct (subjects_loop _ _ _ l _ _ _) as [es1 m2] eqn:Erec.
      injection H as <- <-.
      constructor; [|by eapply Hw, IH].
      split; [|reflexivity]. unfold session_shape. simpl.
      split; [done | by left].
Qed.

Lemma tracker_days_loop_shape (today : Z) (settings : Settings)
    (l : list Subject) (days : nat) :
  forall day_offset m es m',
    days_loop today settings l days day_offset m = (es, m') ->
    Forall (fun e =>
              session_shape settings (map name l) e
              /\ (start_date settings + day_offset <= date e
                  < start_date settings + day_offset + Z.of_nat days)%Z
              /\ (include_weekends settings = false ->
                  (weekday (date e) < 5)%Z)) es.
Proof.
  induction days as [|days IH]; intros off m es m' H; simpl in H.
  - injection H as <- <-. constructor.
  - destruct (negb (include_weekends settings) && _) eqn:Ew.
    + apply IH in H. eapply Forall_impl; [exact H|].
      simpl. intros e (? & ? & ?). split; [done|]. split; [lia | done].
    + destruct (subjects_loop _ _ _ _ _ _ _) as [es0 m0] eqn:E0.
      destruct (days_loop _ _ _ _ _ _) as [es1 m1] eqn:E1.
      injection H as <- <-. apply Forall_app. split.
      * apply tracker_subjects_loop_shape in E0.
        eapply Forall_impl; [exact E0|]. simpl. intros e [? ->].
        split; [done|]. split; [lia|]. intros Hi. rewrite Hi in Ew.
        simpl in Ew. by apply Z.leb_gt in Ew.
      * apply IH in E1. eapply Forall_impl; [exact E1|].
        simpl. intros e (? & ? & ?). split; [done|]. split; [lia | done].
Qed.

(** X20. In the schedule of [src/Schedulyze/app.py] every study session
    lasts at least 15 minutes and at most the session length and bears the
    name of one of the subjects; every break lasts the break length and is
    called Break; and every entry is dated within the 14 days from the
    start date, on a weekday when weekends are left out. *)
Theorem tracker_entries_well_formed (today : Z) (subjects : list Subject)
    (settings : Settings) :
  Forall (fun e => session_shape settings (map name subjects) e
                   /\ in_fortnight settings e)
    (generate_optimized_schedule today subjects settings).
Proof.
  unfold generate_optimized_schedule, run.
  set (l := sorted_desc (calculate_priority_score today) subjects).
  assert (Hp : Permutation l subjects) by apply sorted_by_perm.
  destruct (days_loop today settings l 14 0 (init_remaining l))
    as [es m'] eqn:E.
  apply tracker_days_loop_shape in E. simpl.
  eapply Forall_impl; [exact E|]. simpl. intros e (Hs & Hd & Hw).
  split.
  - revert Hs. apply session_shape_names. intros k Hk.
    apply list_elem_of_In. apply list_elem_of_In in Hk.
    by rewrite <- Hp.
  - split; [lia | done].
Qed.





Lemma sessions_on_app (d : Z) (k : string) (es es' : list entry) :
  sessions_on d k (es ++ es')
  = (sessions_on d k es + sessions_on d k es')%nat.
Proof. unfold sessions_on. by rewrite filter_app, length_app. Qed.

Lemma sessions_on_cons (d : Z) (k : string) (e : entry) (es : list entry) :
  sessions_on d k (e :: es)
  = ((if is_session e && String.eqb (subject e) k && (date e =? d)%Z
      then 1 else 0) + sessions_on d k es)%nat.
Proof.
  unfold sessions_on.
  destruct (is_session e && String.eqb (subject e) k && (date e =? d)%Z)
    eqn:E.
  - by rewrite filter_cons_True.
  - rewrite filter_cons_False; [reflexivity|]. by rewrite E.
Qed.

Lemma sessions_on_none (d : Z) (k : string) (es : list entry) :
  Forall (fun e => is_session e = true -> subject e = k -> date e <> d) es ->
  sessions_on d k es = 0%nat.
Proof.
  unfold sessions_on. induction 1 as [|e es He _ IH]; [reflexivity|].
  rewrite filter_cons_False; [exact IH|].
  intros Hc. apply andb_true_iff in Hc as [Hc Hd].
  apply andb_true_iff in Hc as [Hs Hk].
  apply String.eqb_eq in Hk. apply Z.eqb_eq in Hd. by apply He.
Qed.

Lemma sessions_on_absent (settings : Settings) (names : list string)
    (d : Z) (k : string) (es : list entry) :
  Forall (session_shape settings names) es -> ~ In k names ->
  sessions_on d k es = 0%nat.
Proof.
  intros H Hk. apply sessions_on_none.
  eapply Forall_impl; [exact H|]. intros e. unfold session_shape, is_session.
  destruct (type e); [|discriminate]. intros [_ Hin] _ <-. done.
Qed.

Lemma session_minutes_absent (settings : Settings) (names : list string)
    (k : string) (es : list entry) :
  Forall (session_shape settings names) es -> ~ In k names ->
  session_minutes k es == 0.
Proof.
  intros H Hk. induction H as [|e es He _ IH]; simpl; [reflexivity|].
  destruct (is_session e) eqn:Es; simpl; [|exact IH].
  destruct (String.eqb_spec (subject e) k) as [<-|]; [|exact IH].
  exfalso. revert He. unfold session_shape. unfold is_session in Es.
  destruct (type e); [|discriminate]. intros [_ Hin]. done.
Qed.

Lemma Forall_fst {A} (P R : A -> Prop) (l : list A) :
  Forall (fun x => P x /\ R x) l -> Forall P l.
Proof. intros H. eapply Forall_impl; [exact H|]. simpl. tauto. Qed.

(** One day: at most one session for each name, of at most the session
    length. *)
Lemma tracker_subjects_loop_once (today : Z) (settings : Settings)
    (study_date : Z) (l : list Subject) :
  NoDup (map name l) ->
  forall m start acc es m',
    subjects_loop today settings study_date l m start acc = (es, m') ->
    forall d k,
      (sessions_on d k es <= 1)%nat
      /\ session_minutes k es
         <= inject_Z (Z.max 0 (session_length settings)).
Proof.
  assert (Hmax : 0 <= inject_Z (Z.max 0 (session_length settings))).
  { change 0 with (inject_Z 0). rewrite <- Zle_Qle. lia. }
  induction l as [|s l IH]; intros Hnd m start acc es m' H d k; simpl in H.
  - injection H as <- <-. split; [by apply Nat.le_0_l | exact Hmax].
  - apply NoDup_cons in Hnd as [Hs Hnd].
    rewrite list_elem_of_In in Hs.
    destruct (Qleb (get m (name s)) 0); [by eapply IH|].
    destruct (Qleb (daily_hours settings * 60) acc).
    { injection H as <- <-. split; [by apply Nat.le_0_l | exact Hmax]. }
    set (dur := Qmin (Qmin (inject_Z (session_length settings))
                        (get m (name s) * 60))
                  (daily_hours settings * 60 - acc)) in *.
    destruct (Qltb dur 15) eqn:Ed; [by eapply IH|].
    assert (Hd : dur <= inject_Z (Z.max 0 (session_length settings))).
    { assert (inject_Z (session_length settings)
              <= inject_Z (Z.max 0 (session_length settings)))
        by (rewrite <- Zle_Qle; lia).
      unfold dur. q_minmax; lra. }
    assert (Hrec : forall start' acc' m1 es1 m2,
               subjects_loop today settings study_date l m1 start' acc'
               = (es1, m2) ->
               (sessions_on d k es1 <= 1)%nat
               /\ session_minutes k es1
                  <= inject_Z (Z.max 0 (session_length settings))
               /\ (name s = k ->
                   sessions_on d k es1 = 0%nat
                   /\ session_minutes k es1 == 0)).
    { intros start' acc' m1 es1 m2 Erec.
      destruct (IH Hnd _ _ _ _ _ Erec d k) as [H1 H2].
      split; [done|]. split; [done|]. intros <-.
      apply tracker_subjects_loop_shape, Forall_fst in Erec.
      split.
      - by eapply sessions_on_absent.
      - by eapply session_minutes_absent. }
    destruct (Qltb (acc + dur) _).
    + destruct (subjects_loop _ _ _ l _ _ _) as [es1 m2] eqn:Erec.
      injection H as <- <-.
      destruct (Hrec _ _ _ _ _ Erec) as (H1 & H2 & H3).
      rewrite !sessions_on_cons. cbn -[sessions_on Z.max].
      fold (session_minutes k es1).
      destruct (String.eqb_spec (name s) k) as [E|E].
      * destruct (H3 E) as [E1 E2]. rewrite E1. split; [|lra].
        destruct (study_date =? d)%Z; simpl; lia.
      * split; [simpl; lia | done].
    + destruct (subjects_loop _ _ _ l _ _ _) as [es1 m2] eqn:Erec.
      injection H as <- <-.
      destruct (Hrec _ _ _ _ _ Erec) as (H1 & H2 & H3).
      rewrite !sessions_on_cons. cbn -[sessions_on Z.max].
      fold (session_minutes k es1).
      destruct (String.eqb_spec (name s) k) as [E|E].
      * destruct (H3 E) as [E1 E2]. rewrite E1. split; [|lra].
        destruct (study_date =? d)%Z; simpl; lia.
      * split; [simpl; lia | done].
Qed.

Lemma tracker_days_loop_once (today : Z) (settings : Settings)
    (l : list Subject) (days : nat) :
  NoDup (map name l) ->
  forall day_offset m es m',
    days_loop today settings l days day_offset m = (es, m') ->
    forall d k,
      (sessions_on d k es <= 1)%nat
      /\ session_minutes k es
         <= inject_Z (Z.of_nat days)
            * inject_Z (Z.max 0 (session_length settings)).
Proof.
  intros Hnd.
  assert (Hmax : 0 <= inject_Z (Z.max 0 (session_length settings))).
  { change 0 with (inject_Z 0). rewrite <- Zle_Qle. lia. }
  induction days as [|days IH]; intros off m es m' H d k; simpl in H.
  - injection H as <- <-. split; [by apply Nat.le_0_l|].
    change (inject_Z (Z.of_nat 0)) with 0. change (session_minutes k []) with 0.
    lra.
  - assert (Hn : inject_Z (Z.of_nat (S days)) == inject_Z (Z.of_nat days) + 1).
    { rewrite Nat2Z.inj_succ. unfold Z.succ. by rewrite inject_Z_plus. }
    assert (0 <= inject_Z (Z.of_nat days)).
    { change 0 with (inject_Z 0). rewrite <- Zle_Qle. lia. }
    destruct (negb (include_weekends settings) && _).
    + destruct (IH _ _ _ _ H d k) as [H1 H2]. split; [done|].
      rewrite Hn. nra.
    + destruct (subjects_loop _ _ _ _ _ _ _) as [es0 m0] eqn:E0.
      destruct (days_loop _ _ _ _ _ _) as [es1 m1] eqn:E1.
      injection H as <- <-.
      destruct (IH _ _ _ _ E1 d k) as [H1 H2].
      destruct (tracker_subjects_loop_once _ _ _ _ Hnd _ _ _ _ _ E0 d k)
        as [H3 H4].
      rewrite sessions_on_app, session_minutes_app. split; [|rewrite Hn; nra].
      destruct (Z.eq_dec d (start_date settings + off)%Z) as [->|Hne].
      * rewrite (sessions_on_none _ _ es1); [lia|].
        apply tracker_days_loop_shape in E1.
        eapply Forall_impl; [exact E1|]. simpl. intros e (_ & ? & _) _ _. lia.
      * rewrite (sessions_on_none _ _ es0); [lia|].
        apply tracker_subjects_loop_shape in E0.
        eapply Forall_impl; [exact E0|]. simpl. intros e [_ ->] _ _. lia.
Qed.

(** X22. When the subjects' names are distinct, a subject has at most one
    study session on a date, so that over the 14 days it gets at most 14
    times the session length, whatever it needs. *)
Theorem one_session_per_subject_per_day (today : Z) (subjects : list Subject)
    (settings : Settings) (d : Z) (k : string) :
  NoDup (map name subjects) ->
  (sessions_on d k (generate_optimized_schedule today subjects settings)
   <= 1)%nat
  /\ session_minutes k (generate_optimized_schedule today subjects settings)
     <= 14 * inject_Z (Z.max 0 (session_length settings)).
Proof.
  intros Hnd. unfold generate_optimized_schedule, run.
  set (l := sorted_desc (calculate_priority_score today) subjects).
  assert (Hp : Permutation l subjects) by apply sorted_by_perm.
  destruct (days_loop today settings l 14 0 (init_remaining l))
    as [es m'] eqn:E.
  apply (tracker_days_loop_once today settings l 14) with (d := d) (k := k)
    in E; [exact E|].
  by rewrite Hp.
Qed.

Lemma one_session_per_subject_per_day_witness :
  (sessions_on 738886 "Maths"
     (generate_optimized_schedule 738886 [maths; history] two_hours)
   <= 1)%nat
  /\ session_minutes "Maths"
       (generate_optimized_schedule 738886 [maths; history] two_hours)
     <= 14 * inject_Z (Z.max 0 (session_length two_hours)).
Proof.
  apply one_session_per_subject_per_day.
  apply NoDup_cons. split.
  - intros H. apply list_elem_of_In in H. destruct H as [H|[]].
    vm_compute in H. discriminate H.
  - apply NoDup_cons. split; [|constructor].
    intros H. apply list_elem_of_In in H. destruct H.
Defined.

Lemma tracker_subjects_loop_below (today : Z) (settings : Settings)
    (study_date : Z) (l : list Subject) (k : string) :
  forall m start acc es m',
    get m k * 60 < 15 ->
    subjects_loop today settings study_date l m start acc = (es, m') ->
    never_scheduled k es /\ get m' k = get m k.
Proof.
  unfold never_scheduled.
  induction l as [|s l IH]; intros m start acc es m' Hk H; simpl in H.
  - injection H as <- <-. split; [constructor | reflexivity].
  - destruct (Qleb (get m (name s)) 0); [by eapply IH|].
    destruct (Qleb (daily_hours settings * 60) acc).
    { injection H as <- <-. split; [constructor | reflexivity]. }
    set (d := Qmin (Qmin (inject_Z (session_length settings))
                      (get m (name s) * 60))
                (daily_hours settings * 60 - acc)) in *.
    destruct (Qltb d 15) eqn:Ed; [by eapply IH|].
    apply Qltb_ge in Ed.
    assert (Hne : name s <> k).
    { intros E. unfold d in Ed. rewrite E in Ed. clear -Ed Hk.
      q_minmax; lra. }
    set (m1 := <[name s := get m (name s) - d / 60]> m) in *.
    assert (Hk1 : get m1 k = get m k)
      by (unfold m1; by rewrite get_insert_ne).
    destruct (Qltb (acc + d) _).
    + destruct (subjects_loop _ _ _ l m1 _ _) as [es1 m2] eqn:Erec.
      injection H as <- <-.
      destruct (IH _ _ _ _ _ ltac:(by rewrite Hk1) Erec) as [H1 H2].
      split; [|congruence].
      constructor; [by intros _|]. constructor; [discriminate | done].
    + destruct (subjects_loop _ _ _ l m1 _ _) as [es1 m2] eqn:Erec.
      injection H as <- <-.
      destruct (IH _ _ _ _ _ ltac:(by rewrite Hk1) Erec) as [H1 H2].
      split; [|congruence].
      constructor; [by intros _ | done].
Qed.

Lemma tracker_days_loop_below (today : Z) (settings : Settings)
    (l : list Subject) (k : string) (days : nat) :
  forall day_offset m es m',
    get m k * 60 < 15 ->
    days_loop today settings l days day_offset m = (es, m') ->
    never_scheduled k es /\ get m' k = get m k.
Proof.
  unfold never_scheduled.
  induction days as [|days IH]; intros off m es m' Hk H; simpl in H.
  - injection H as <- <-. split; [constructor | reflexivity].
  - destruct (negb (include_weekends settings) && _); [by eapply IH|].
    destruct (subjects_loop _ _ _ _ _ _ _) as [es0 m0] eqn:E0.
    destruct (days_loop _ _ _ _ _ _) as [es1 m1] eqn:E1.
    injection H as <- <-.
    destruct (tracker_subjects_loop_below _ _ _ _ _ _ _ _ _ _ Hk E0)
      as [H0 Hk0].
    destruct (IH _ _ _ _ ltac:(by rewrite Hk0) E1) as [H1 Hk1].
    split; [|congruence]. apply Forall_app. by split.
Qed.

(** X23. When the subjects' names are distinct, a subject that needs
    less than 15 minutes is never scheduled, and its hours stay in
    [remaining_hours] to the end. *)
Theorem short_need_never_scheduled (today : Z) (subjects : list Subject)
    (settings : Settings) (s : Subject) :
  NoDup (map name subjects) -> In s subjects ->
  hours_needed s * 60 < 15 ->
  never_scheduled (name s) (generate_optimized_schedule today subjects settings)
  /\ get (snd (run today subjects settings)) (name s) = hours_needed s.
Proof.
  intros Hnd Hin Hh. unfold generate_optimized_schedule, run.
  set (l := sorted_desc (calculate_priority_score today) subjects).
  assert (Permutation l subjects) as Hp by apply sorted_by_perm.
  assert (get (init_remaining l) (name s) = hours_needed s) as Hinit.
  { apply init_remaining_lookup.
    - by rewrite Hp.
    - apply (Permutation_in _ (Permutation_sym Hp) Hin). }
  destruct (days_loop today settings l 14 0 (init_remaining l))
    as [es m'] eqn:E.
  apply (tracker_days_loop_below _ _ _ (name s)) in E;
    [|by rewrite Hinit].
  destruct E as [H1 H2]. simpl. split; [done | congruence].
Qed.

Lemma short_need_never_scheduled_witness :
  never_scheduled "Quiz"
    (generate_optimized_schedule 738886
       [maths; mkSubject "Quiz" 738887 0.2 5] two_hours)
  /\ get (snd (run 738886 [maths; mkSubject "Quiz" 738887 0.2 5] two_hours))
       "Quiz" = 0.2.
Proof.
  apply (short_need_never_scheduled 738886
           [maths; mkSubject "Quiz" 738887 0.2 5] two_hours
           (mkSubject "Quiz" 738887 0.2 5)).
  - apply NoDup_cons. split.
    + intros H. apply list_elem_of_In in H. destruct H as [H|[]].
      vm_compute in H. discriminate H.
    + apply NoDup_cons. split; [|constructor].
      intros H. apply list_elem_of_In in H. destruct H.
  - right. by left.
  - reflexivity.
Defined.

End Sessions.

(** ** The schedule of [src/Schedulyze/api.py] *)

Section EndpointSchedule.

Import Py Api.
Open Scope Q_scope.

Lemma entry_le_total (x y : entry) :
  entry_le x y = false -> entry_le y x = true.
Proof. unfold entry_le. lia. Qed.

Lemma entry_le_trans (x y z : entry) :
  entry_le x y = true -> entry_le y z = true -> entry_le x z = true.
Proof. unfold entry_le. lia. Qed.

Lemma entry_le_by_date_time (x y : entry) :
  entry_le x y = true <-> by_date_time x y.
Proof. unfold entry_le, by_date_time. lia. Qed.

Lemma insert_by_sorted {A} (before : A -> A -> bool) (x : A) (l : list A) :
  (forall a b, before a b = false -> before b a = true) ->
  (forall a b c, before a b = true -> before b c = true -> before a c = true) ->
  StronglySorted (fun a b => before a b = true) l ->
  StronglySorted (fun a b => before a b = true) (insert_by before x l).
Proof.
  intros Htot Htr. induction 1 as [|y l Hs IH Hy]; simpl.
  - constructor; [constructor | constructor].
  - destruct (before x y) eqn:E.
    + constructor; [by constructor|].
      constructor; [exact E|].
      eapply Forall_impl; [exact Hy|]. simpl. intros z. by apply Htr.
    + constructor; [exact IH|].
      rewrite (insert_by_perm before x l).
      constructor; [by apply Htot | exact Hy].
Qed.

Lemma sorted_by_sorted {A} (before : A -> A -> bool) (l : list A) :
  (forall a b, before a b = false -> before b a = true) ->
  (forall a b c, before a b = true -> before b c = true -> before a c = true) ->
  StronglySorted (fun a b => before a b = true) (sorted_by before l).
Proof.
  intros Htot Htr. induction l as [|x l IH]; simpl; [constructor|].
  by apply insert_by_sorted.
Qed.

Lemma endpoint_schedule (today : Z) (subjects_data : list raw_subject)
    (settings_data : raw_settings) (schedule : list entry) :
  generate_schedule_api today subjects_data settings_data = Return schedule ->
  exists subjects settings,
    to_subjects subjects_data = Ok subjects
    /\ to_settings settings_data = Ok settings
    /\ generate_optimized_schedule today subjects settings = Ok schedule.
Proof.
  unfold generate_schedule_api.
  destruct (to_subjects subjects_data) as [subjects|]; [|discriminate].
  destruct (to_settings settings_data) as [settings|]; [|discriminate].
  simpl.
  destruct (generate_optimized_schedule _ _ _) as [sch|] eqn:E;
    [|discriminate].
  intros [= <-]. by exists subjects, settings.
Qed.

(** X24. The schedule that the endpoint returns is ordered by date and,
    within a date, by start time. *)
Theorem endpoint_schedule_sorted (today : Z) (subjects_data : list raw_subject)
    (settings_data : raw_settings) (schedule : list entry) :
  generate_schedule_api today subjects_data settings_data = Return schedule ->
  StronglySorted by_date_time schedule.
Proof.
  intros H. apply endpoint_schedule in H as (subjects & settings & _ & _ & H).
  unfold generate_optimized_schedule in H.
  destruct (subjects_loop _ _ _) as [sch|]; [|discriminate].
  simpl in H. injection H as <-.
  pose proof (sorted_by_sorted entry_le sch entry_le_total entry_le_trans)
    as Hs.
  induction Hs as [|x l _ IH Hx]; constructor; [exact IH|].
  eapply Forall_impl; [exact Hx|]. intros y. apply entry_le_by_date_time.
Qed.

Lemma endpoint_schedule_sorted_witness :
  StronglySorted by_date_time calculus_schedule.
Proof.
  apply (endpoint_schedule_sorted 738886 calculus_request default_request).
  vm_compute. reflexivity.
Defined.

Lemma api_entry_shape_names (today : Z) (settings : ScheduleSettings)
    (names names' : list string) (e : entry) :
  (forall k, In k names -> In k names') ->
  api_entry_shape today settings names e ->
  api_entry_shape today settings names' e.
Proof.
  unfold api_entry_shape. destruct (session_type e); intuition.
Qed.

Lemma api_sessions_loop_shape (settings : ScheduleSettings) (study_date : Z)
    (subject_name : string) (score : Q) (difficulty : Z)
    (session_duration_hours : Q) (sessions_today : Z) (n : nat) :
  forall session h t es h',
    sessions_loop n session sessions_today settings study_date subject_name
      score difficulty session_duration_hours h t = (es, h') ->
    Forall (fun e =>
              date e = study_date
              /\ match session_type e with
                 | Study =>
                     0 < duration_hours e <= session_duration_hours
                     /\ subject e = subject_name
                 | Break =>
                     duration_hours e = inject_Z (break_length settings) / 60
                     /\ subject e = "Break"%string
                 end) es.
Proof.
  induction n as [|n IH]; intros session h t es h' H; simpl in H.
  - injection H as <- <-. constructor.
  - destruct (Qleb (Qmin session_duration_hours h) 0) eqn:Ed.
    { injection H as <- <-. constructor. }
    apply Qleb_gt in Ed.
    destruct (sessions_loop n _ _ _ _ _ _ _ _ _ _) as [es1 h1] eqn:Erec.
    injection H as <- <-. apply IH in Erec.
    constructor.
    + simpl. split; [reflexivity|]. split; [|reflexivity].
      split; [done|]. q_minmax; lra.
    + apply Forall_app. split; [|done].
      destruct (_ && _); constructor; [|constructor].
      by simpl.
Qed.

Lemma api_days_loop_shape (settings : ScheduleSettings) (current_date : Z)
    (subject_name : string) (score : Q) (difficulty : Z)
    (session_duration_hours : Q) (days_available : Z) (n : nat) :
  forall day_offset h es,
    (0 <= day_offset)%Z ->
    days_loop n day_offset days_available settings current_date subject_name
      score difficulty session_duration_hours h = Ok es ->
    Forall (fun e =>
              (current_date <= date e)%Z
              /\ (include_weekends settings = false ->
                  (weekday (date e) < 5)%Z)
              /\ match session_type e with
                 | Study =>
                     0 < duration_hours e <= session_duration_hours
                     /\ subject e = subject_name
                 | Break =>
                     duration_hours e = inject_Z (break_length settings) / 60
                     /\ subject e = "Break"%string
                 end) es.
Proof.
  induction n as [|n IH]; intros off h es Hoff H; simpl in H.
  - injection H as <-. constructor.
  - destruct (negb (include_weekends settings) && _) eqn:Ew.
    { apply IH in H; [done | lia]. }
    assert (Hday : forall n0 session0 today0 h1 t0 es0 h0,
               sessions_loop n0 session0 today0 settings (current_date + off)
                 subject_name score difficulty session_duration_hours h1 t0
               = (es0, h0) ->
               Forall (fun e =>
                         (current_date <= date e)%Z
                         /\ (include_weekends settings = false ->
                             (weekday (date e) < 5)%Z)
                         /\ match session_type e with
                            | Study =>
                                0 < duration_hours e <= session_duration_hours
                                /\ subject e = subject_name
                            | Break =>
                                duration_hours e
                                = inject_Z (break_length settings) / 60
                                /\ subject e = "Break"%string
                            end) es0).
    { intros n0 session0 today0 h1 t0 es0 h0 E0.
      apply api_sessions_loop_shape in E0.
      eapply Forall_impl; [exact E0|]. simpl. intros e [-> He].
      split; [lia|]. split; [|done]. intros Hi. rewrite Hi in Ew.
      simpl in Ew. by apply Z.leb_gt in Ew. }
    destruct (Qltb 0 _).
    + destruct (strptime_HM (start_time settings)) as [[hh mm]|]; simpl in H;
        [|discriminate].
      destruct (sessions_loop _ _ _ _ _ _ _ _ _ _ _) as [es0 h0] eqn:E0.
      simpl in H. apply Hday in E0.
      destruct (Qleb h0 0); [by injection H as <-|].
      destruct (days_loop n _ _ _ _ _ _ _ _ _) as [es1|] eqn:E1;
        [|discriminate].
      simpl in H. injection H as <-. apply Forall_app. split; [done|].
      apply IH in E1; [done | lia].
    + simpl in H. destruct (Qleb h 0); [injection H as <-; constructor|].
      destruct (days_loop n _ _ _ _ _ _ _ _ _) as [es1|] eqn:E1;
        [|discriminate].
      simpl in H. injection H as <-. apply IH in E1; [done | lia].
Qed.

Lemma api_subjects_loop_shape (settings : ScheduleSettings) (today : Z)
    (subjects_dict : list (Subject * Q)) :
  forall schedule,
    subjects_loop settings today subjects_dict = Ok schedule ->
    Forall (api_entry_shape today settings
              (map (fun sd => name (fst sd)) subjects_dict)) schedule.
Proof.
  induction subjects_dict as [|[s q] l IH]; intros schedule H.
  - injection H as <-. constructor.
  - cbn [subjects_loop] in H.
    destruct (schedule_subject settings today (s, q)) as [es|] eqn:Es;
      [|discriminate].
    destruct (subjects_loop settings today l) as [es'|]; [|discriminate].
    simpl in H. injection H as <-. apply Forall_app. split.
    + unfold schedule_subject in Es.
      destruct (deadline s - today + 1 <=? 0)%Z;
        [injection Es as <-; constructor|].
      destruct (Qeq_bool _ 0); [discriminate|].
      apply api_days_loop_shape in Es; [|lia].
      eapply Forall_impl; [exact Es|]. simpl. intros e (? & ? & He).
      split; [done|]. split; [done|].
      destruct (session_type e); [|done].
      destruct He as [? ->]. split; [done | by left].
    + eapply Forall_impl; [exact (IH _ eq_refl)|]. intros e.
      apply api_entry_shape_names. intros k Hk. by right.
Qed.

(** X25. Every entry of the schedule of [src/Schedulyze/api.py] is dated
    today or later, on a weekday when weekends are left out; a Study entry
    lasts more than nothing and at most the session length and bears the
    name of one of the subjects; a Break entry lasts the break length and
    is called Break. *)
Theorem api_entries_well_formed (today : Z) (subjects : list Subject)
    (settings : ScheduleSettings) (schedule : list entry) :
  generate_optimized_schedule today subjects settings = Ok schedule ->
  Forall (api_entry_shape today settings (map name subjects)) schedule.
Proof.
  unfold generate_optimized_schedule. intros H.
  destruct (subjects_loop _ _ _) as [sch|] eqn:E; [|discriminate].
  simpl in H. injection H as <-.
  apply api_subjects_loop_shape in E.
  rewrite (sorted_by_perm entry_le sch).
  eapply Forall_impl; [exact E|]. intros e.
  apply api_entry_shape_names. intros k Hk.
  apply in_map_iff in Hk as ([s q] & <- & Hin).
  apply list_elem_of_In in Hin.
  unfold sorted_desc in Hin. rewrite sorted_by_perm in Hin.
  apply list_elem_of_In, in_map_iff in Hin as (s' & [= <- <-] & Hin).
  apply in_map_iff. by exists s'.
Qed.

Lemma api_entries_well_formed_witness :
  Forall (api_entry_shape 738886 defaults (map name [calculus; essay]))
    calculus_schedule.
Proof.
  apply api_entries_well_formed. vm_compute. reflexivity.
Defined.

Lemma starts_day_mono (t : Z) (es es' : list entry) (e : entry) :
  (forall x, In x es -> In x es') -> starts_day t es e -> starts_day t es' e.
Proof. intros H (e0 & Hin & He0). exists e0. split; [by apply H | done]. Qed.

Lemma api_sessions_loop_start (settings : ScheduleSettings) (study_date : Z)
    (subject_name : string) (score : Q) (difficulty : Z)
    (session_duration_hours : Q) (sessions_today : Z) (n : nat)
    (session : Z) (h t : Q) (es : list entry) (h' : Q) :
  sessions_loop n session sessions_today settings study_date subject_name
    score difficulty session_duration_hours h t = (es, h') ->
  Forall (fun e => studies e = true ->
                   starts_day (strftime_HM (Qfloor t)) es e) es.
Proof.
  intros H.
  pose proof (sessions_loop_spec _ _ _ _ _ _ _ _ _ _ _ _ _ H)
    as (_ & _ & _ & Hall).
  destruct n as [|n]; simpl in H; [injection H as <- <-; constructor|].
  destruct (Qleb _ 0); [injection H as <- <-; constructor|].
  destruct (sessions_loop n _ _ _ _ _ _ _ _ _ _) as [es1 h1].
  injection H as <- <-.
  set (e0 := {| date := study_date; subject := subject_name |}) in *.
  eapply Forall_impl; [exact Hall|]. simpl. intros e [Hd Hs] He.
  exists e0. split; [by left|]. split; [reflexivity|].
  split; [by rewrite Hs | by rewrite Hd].
Qed.

Lemma api_days_loop_start (settings : ScheduleSettings) (current_date : Z)
    (subject_name : string) (score : Q) (difficulty : Z)
    (session_duration_hours : Q) (days_available : Z) (hm : Z * Z) (n : nat) :
  strptime_HM (start_time settings) = Ok hm ->
  forall day_offset h es,
    days_loop n day_offset days_available settings current_date subject_name
      score difficulty session_duration_hours h = Ok es ->
    Forall (fun e => studies e = true ->
                     starts_day (strftime_HM (fst hm * 60 + snd hm)) es e) es.
Proof.
  intros Hp. destruct hm as [hh mm].
  induction n as [|n IH]; intros off h es H; simpl in H.
  - injection H as <-. constructor.
  - destruct (negb (include_weekends settings) && _); [by eapply IH|].
    rewrite Hp in H. simpl in H.
    destruct (Qltb 0 _).
    + destruct (sessions_loop _ _ _ _ _ _ _ _ _ _ _) as [es0 h0] eqn:E0.
      simpl in H. apply api_sessions_loop_start in E0.
      rewrite Qfloor_Z in E0.
      destruct (Qleb h0 0); [by injection H as <-|].
      destruct (days_loop n _ _ _ _ _ _ _ _ _) as [es1|] eqn:E1;
        [|discriminate].
      simpl in H. injection H as <-. apply IH in E1.
      apply Forall_app. split.
      * eapply Forall_impl; [exact E0|]. simpl. intros e He Hs.
        eapply starts_day_mono; [|by apply He].
        intros x Hx. apply in_or_app. by left.
      * eapply Forall_impl; [exact E1|]. simpl. intros e He Hs.
        eapply starts_day_mono; [|by apply He].
        intros x Hx. apply in_or_app. by right.
    + simpl in H. destruct (Qleb h 0); [injection H as <-; constructor|].
      destruct (days_loop n _ _ _ _ _ _ _ _ _) as [es1|] eqn:E1;
        [|discriminate].
      simpl in H. injection H as <-. by eapply IH.
Qed.

Lemma api_subjects_loop_start (settings : ScheduleSettings) (today : Z)
    (hm : Z * Z) (subjects_dict : list (Subject * Q)) :
  strptime_HM (start_time settings) = Ok hm ->
  forall schedule,
    subjects_loop settings today subjects_dict = Ok schedule ->
    Forall (fun e => studies e = true ->
                     starts_day (strftime_HM (fst hm * 60 + snd hm))
                       schedule e) schedule.
Proof.
  intros Hp.
  induction subjects_dict as [|[s q] l IH]; intros schedule H.
  - injection H as <-. constructor.
  - cbn [subjects_loop] in H.
    destruct (schedule_subject settings today (s, q)) as [es|] eqn:Es;
      [|discriminate].
    destruct (subjects_loop settings today l) as [es'|]; [|discriminate].
    simpl in H. injection H as <-. apply Forall_app. split.
    + unfold schedule_subject in Es.
      destruct (deadline s - today + 1 <=? 0)%Z;
        [injection Es as <-; constructor|].
      destruct (Qeq_bool _ 0); [discriminate|].
      apply (api_days_loop_start _ _ _ _ _ _ _ hm _ Hp) in Es.
      eapply Forall_impl; [exact Es|]. simpl. intros e He Hs.
      eapply starts_day_mono; [|by apply He].
      intros x Hx. apply in_or_app. by left.
    + eapply Forall_impl; [exact (IH _ eq_refl)|]. simpl. intros e He Hs.
      eapply starts_day_mono; [|by apply He].
      intros x Hx. apply in_or_app. by right.
Qed.

(** X26. Every subject starts each of its days at the settings' start
    time: whenever a subject has a Study entry on a date, it has a Study
    entry on that date that starts at [start_time]. The clock is set anew
    for every subject, so the sessions of two subjects scheduled on the
    same date overlap. *)
Theorem subject_days_start_at_start_time (today : Z) (subjects : list Subject)
    (settings : ScheduleSettings) (schedule : list entry) (hm : Z * Z) :
  generate_optimized_schedule today subjects settings = Ok schedule ->
  strptime_HM (start_time settings) = Ok hm ->
  Forall (fun e => studies e = true ->
                   starts_day (strftime_HM (fst hm * 60 + snd hm)) schedule e)
    schedule.
Proof.
  unfold generate_optimized_schedule. intros H Hp.
  destruct (subjects_loop _ _ _) as [sch|] eqn:E; [|discriminate].
  simpl in H. injection H as <-.
  apply (api_subjects_loop_start _ _ hm _ Hp) in E.
  pose proof (sorted_by_perm entry_le sch) as Hperm.
  rewrite Hperm.
  eapply Forall_impl; [exact E|]. simpl. intros e He Hs.
  eapply starts_day_mono; [|by apply He].
  intros x Hx. apply list_elem_of_In. rewrite Hperm.
  by apply list_elem_of_In.
Qed.

Lemma subject_days_start_at_start_time_witness :
  Forall (fun e => studies e = true ->
                   starts_day (strftime_HM (fst (9, 0)%Z * 60 + snd (9, 0)%Z))
                     calculus_schedule e)
    calculus_schedule.
Proof.
  apply (subject_days_start_at_start_time 738886 [calculus; essay] defaults).
  - vm_compute. reflexivity.
  - reflexivity.
Defined.

Lemma api_subjects_loop_overdue (settings : ScheduleSettings) (today : Z)
    (subjects_dict : list (Subject * Q)) :
  Forall (fun sd => (deadline (fst sd) < today)%Z) subjects_dict ->
  subjects_loop settings today subjects_dict = Ok [].
Proof.
  induction 1 as [|[s q] l Hs _ IH]; [reflexivity|].
  cbn [subjects_loop]. rewrite IH. unfold schedule_subject. simpl in Hs.
  replace (deadline s - today + 1 <=? 0)%Z with true
    by (symmetry; apply Z.leb_le; lia).
  reflexivity.
Qed.

(** X27. A session length of zero is answered with status 400 as soon as
    one subject is not overdue (the division by [session_length / 60]
    raises); when every subject is overdue, or there is none, the answer is
    an empty schedule and the session length is never looked at. *)
Theorem zero_session_length_response (today : Z)
    (subjects_data : list raw_subject) (settings_data : raw_settings)
    (subjects : list Subject) (settings : ScheduleSettings) :
  to_subjects subjects_data = Ok subjects ->
  to_settings settings_data = Ok settings ->
  session_length settings = 0%Z ->
  generate_schedule_api today subjects_data settings_data
  = if existsb (fun s => (today <=? deadline s)%Z) subjects
    then HTTPException 400 else Return [].
Proof.
  intros Hsub Hset Hs. unfold generate_schedule_api.
  rewrite Hsub, Hset. simpl. unfold generate_optimized_schedule.
  set (dict := sorted_desc snd _).
  assert (Hin : forall sd, In sd dict <->
                           exists s, In s subjects
                                     /\ sd = (s, calculate_priority_score today s)).
  { intros sd. unfold dict, sorted_desc.
    rewrite <- !list_elem_of_In, sorted_by_perm, list_elem_of_In, in_map_iff.
    split; intros (s & ? & ?); exists s; by rewrite <- ?list_elem_of_In in *. }
  destruct (existsb _ subjects) eqn:Ex.
  - apply existsb_exists in Ex as (s & Hs1 & Hs2). apply Z.leb_le in Hs2.
    rewrite (zero_session_length_raises settings today dict Hs);
      [reflexivity|].
    apply Exists_exists. exists (s, calculate_priority_score today s).
    split; [|done]. apply list_elem_of_In, Hin. by exists s.
  - rewrite api_subjects_loop_overdue; [reflexivity|].
    apply Forall_forall. intros sd Hsd.
    apply list_elem_of_In, Hin in Hsd as (s & Hs1 & ->). simpl.
    destruct (Z.ltb_spec (deadline s) today) as [|Hge]; [done|].
    assert (existsb (fun s => (today <=? deadline s)%Z) subjects = true);
      [|congruence].
    apply existsb_exists. exists s. split; [done|]. by apply Z.leb_le.
Qed.

Lemma zero_session_length_response_witness :
  generate_schedule_api 738886 calculus_request
    (mkRawSettings (Given 0%Z) Missing Missing Missing Missing Missing)
  = if existsb (fun s => (738886 <=? deadline s)%Z) [calculus; essay]
    then HTTPException 400 else Return [].
Proof.
  apply (zero_session_length_response 738886 calculus_request _
           [calculus; essay] (mkSettings 0 15 8 "09:00" "17:00" true));
    reflexivity.
Defined.

Lemma to_subject_refused (r : raw_subject) :
  refused_subject r -> to_subject r = Raise ValidationError.
Proof.
  unfold refused_subject, to_subject. destruct r as [n d h k desc]. simpl.
  intros H.
  destruct n as [| |n]; [reflexivity|reflexivity|].
  destruct d as [| |d]; [reflexivity|reflexivity|].
  destruct h as [| |h]; [reflexivity|reflexivity|].
  destruct k as [| |k]; [reflexivity|reflexivity|].
  destruct H as [H|[H|[H|[H| ->]]]];
    [by destruct (H _ eq_refl)..|reflexivity].
Qed.

Lemma to_subjects_refused (l : list raw_subject) :
  Exists refused_subject l -> exists e, to_subjects l = Raise e.
Proof.
  induction 1 as [r l Hr|r l _ [e IH]]; simpl.
  - rewrite (to_subject_refused r Hr). by eexists.
  - rewrite IH. destruct (to_subject r); by eexists.
Qed.

Lemma to_settings_refused (r : raw_settings) :
  refused_settings r -> to_settings r = Raise ValidationError.
Proof.
  unfold refused_settings, to_settings.
  destruct r as [sl bl dh st et iw]. simpl.
  intros [->|[->|[->|[->|[->| ->]]]]].
  - reflexivity.
  - by destruct sl.
  - by destruct sl, bl.
  - by destruct sl, bl, dh.
  - by destruct sl, bl, dh, st.
  - by destruct sl, bl, dh, st, et.
Qed.

(** X28. A request is answered with status 400, before any scheduling,
    when one of its subjects lacks a required field ([name], [deadline],
    [hours_needed], [difficulty]) or has a field of the wrong type, or when
    one of its settings is of the wrong type. *)
Theorem refused_request_rejected (today : Z)
    (subjects_data : list raw_subject) (settings_data : raw_settings) :
  Exists refused_subject subjects_data \/ refused_settings settings_data ->
  generate_schedule_api today subjects_data settings_data = HTTPException 400.
Proof.
  unfold generate_schedule_api. intros [H|H].
  - apply to_subjects_refused in H as [e ->]. reflexivity.
  - rewrite (to_settings_refused _ H).
    by destruct (to_subjects subjects_data).
Qed.

Lemma refused_request_rejected_witness :
  generate_schedule_api 738886
    [mkRawSubject (Given "Calculus"%string) Missing (Given 4) (Given 5%Z)
       Missing]
    default_request
  = HTTPException 400.
Proof.
  apply refused_request_rejected. left. constructor.
  right. left. discriminate.
Defined.

Lemma optional_read {A} (f : field A) (default : A) :
  f = IllTyped \/ exists a, optional f default = Ok a /\ read_field f default a.
Proof.
  destruct f as [| |a]; [right|by left|right].
  - exists default. split; [reflexivity|]. by right.
  - exists a. split; [reflexivity|]. by left.
Qed.

Lemma to_subject_read (r : raw_subject) :
  refused_subject r
  \/ exists s, to_subject r = Ok s /\ read_subject r s.
Proof.
  unfold refused_subject, to_subject, read_subject.
  destruct r as [n d h k desc]. simpl.
  destruct n as [| |n]; [left; left; discriminate..|].
  destruct d as [| |d]; [left; right; left; discriminate..|].
  destruct h as [| |h]; [left; right; right; left; discriminate..|].
  destruct k as [| |k]; [left; right; right; right; left; discriminate..|].
  destruct (optional_read desc "") as [->|(a & Ha & Hr)].
  - left. by repeat right.
  - right. exists (mkSubject n d h k a). simpl. by rewrite Ha.
Qed.

Lemma to_subjects_read (l : list raw_subject) :
  Exists refused_subject l
  \/ exists ss, to_subjects l = Ok ss /\ Forall2 read_subject l ss.
Proof.
  induction l as [|r l IH]; simpl.
  - right. exists []. split; [reflexivity | constructor].
  - destruct (to_subject_read r) as [Hr|(s & Hs & Hrs)];
      [left; by constructor|].
    destruct IH as [Hl|(ss & Hss & Hrss)]; [left; by constructor 2|].
    right. exists (s :: ss). rewrite Hs, Hss. split; [reflexivity|].
    by constructor.
Qed.

Lemma to_settings_read (r : raw_settings) :
  refused_settings r
  \/ exists t, to_settings r = Ok t /\ read_settings r t.
Proof.
  unfold refused_settings, to_settings, read_settings.
  destruct r as [sl bl dh st et iw]. simpl.
  destruct (optional_read sl 90%Z) as [->|(a1 & E1 & R1)];
    [left; by left|].
  destruct (optional_read bl 15%Z) as [->|(a2 & E2 & R2)];
    [left; right; by left|].
  destruct (optional_read dh 8%Z) as [->|(a3 & E3 & R3)];
    [left; right; right; by left|].
  destruct (optional_read st "09:00") as [->|(a4 & E4 & R4)];
    [left; right; right; right; by left|].
  destruct (optional_read et "17:00") as [->|(a5 & E5 & R5)];
    [left; right; right; right; right; by left|].
  destruct (optional_read iw true) as [->|(a6 & E6 & R6)];
    [left; by repeat right|].
  right. exists (mkSettings a1 a2 a3 a4 a5 a6).
  rewrite E1, E2, E3, E4, E5, E6. simpl. by repeat split.
Qed.

(** C8 (amended). The endpoint checks that the fields of the request are
    there and of the declared types (the models [Subject] and
    [ScheduleSettings]), and checks no range. Either a subject lacks a
    required field or has a field of the wrong type, or a setting is of
    the wrong type, and the request is answered with status 400; or the
    models hold the values of the request as they are given, whatever they
    are, with the defaults for what is absent, and the scheduler runs on
    them: the answer is its schedule, or status 400 when the scheduler
    raises in the course of the computation. *)
Theorem request_checked_for_types_only (today : Z)
    (subjects_data : list raw_subject) (settings_data : raw_settings) :
  ((Exists refused_subject subjects_data \/ refused_settings settings_data)
   /\ generate_schedule_api today subjects_data settings_data
      = HTTPException 400)
  \/ (exists subjects settings,
        Forall2 read_subject subjects_data subjects
        /\ read_settings settings_data settings
        /\ generate_schedule_api today subjects_data settings_data
           = match generate_optimized_schedule today subjects settings with
             | Ok schedule => Return schedule
             | Raise _ => HTTPException 400
             end).
Proof.
  destruct (to_subjects_read subjects_data) as [Hr|(ss & Hss & Hrss)].
  { left. split; [by left|].
    unfold generate_schedule_api.
    by apply to_subjects_refused in Hr as [e ->]. }
  destruct (to_settings_read settings_data) as [Hr|(t & Ht & Hrt)].
  { left. split; [by right|].
    unfold generate_schedule_api. rewrite Hss, (to_settings_refused _ Hr).
    reflexivity. }
  right. exists ss, t. split; [exact Hrss|]. split; [exact Hrt|].
  unfold generate_schedule_api. by rewrite Hss, Ht.
Qed.

End EndpointSchedule.

(** ** The clock of [src/Schedulyze/schedulyze_demo.py] *)

Section DemoClock.

Import Py Demo.
Open Scope Q_scope.

Lemma demo_subjects_loop_stalled (today : Z) (settings : Settings)
    (study_date : Z) (l : list Subject) :
  forall m start acc es m',
    subjects_loop today settings study_date l m start acc = (es, m') ->
    stalled es
    /\ Forall (fun e => date e = study_date) es
    /\ match es with
       | e :: _ => type e = study /\ start_time e = show_time start
       | [] => True
       end.
Proof.
  induction l as [|s l IH]; intros m start acc es m' H; simpl in H.
  - by injection H as <- <-.
  - destruct (Qleb (Tracker.get m (Tracker.name s)) 0); [by eapply IH|].
    destruct (Qleb (Tracker.daily_hours settings * 60) acc).
    { by injection H as <- <-. }
    destruct (Qltb _ 15); [by eapply IH|].
    destruct (Qltb _ _).
    + destruct (subjects_loop _ _ _ l _ _ _) as [es1 m2] eqn:Erec.
      injection H as <- <-. apply IH in Erec as (H1 & H2 & H3).
      split; [|split].
      * simpl. split; [discriminate|]. split; [|done].
        destruct es1; [done | discriminate].
      * by repeat constructor.
      * by simpl.
    + destruct (subjects_loop _ _ _ l _ _ _) as [es1 m2] eqn:Erec.
      injection H as <- <-. apply IH in Erec as (H1 & H2 & H3).
      split; [|split].
      * simpl. split; [|done].
        destruct es1 as [|e1 es1]; [done|]. by destruct H3 as [_ ->].
      * by constructor.
      * by simpl.
Qed.

Lemma stalled_app_dates (d : Z) (es es' : list entry) :
  Forall (fun e => date e = d) es ->
  Forall (fun e => (d < date e)%Z) es' ->
  stalled es -> stalled es' -> stalled (es ++ es').
Proof.
  intros Hd Hd'. induction Hd as [|e es He _ IH]; [done|].
  intros [H1 H2] H'. simpl. split; [|by apply IH].
  destruct es as [|e1 es]; simpl; [|exact H1].
  destruct Hd' as [|e' es' He' _]; [done|].
  intros _ _ E. lia.
Qed.

Lemma demo_days_loop_stalled (today : Z) (settings : Settings)
    (l : list Subject) (days : nat) :
  forall day_offset m es m',
    days_loop today settings l days day_offset m = (es, m') ->
    stalled es
    /\ Forall (fun e =>
                 (Tracker.start_date settings + day_offset <= date e)%Z) es.
Proof.
  induction days as [|days IH]; intros off m es m' H; simpl in H.
  - by injection H as <- <-.
  - destruct (negb (Tracker.include_weekends settings) && _).
    + apply IH in H as [H1 H2]. split; [done|].
      eapply Forall_impl; [exact H2|]. simpl. lia.
    + destruct (subjects_loop _ _ _ _ _ _ _) as [es0 m0] eqn:E0.
      destruct (days_loop _ _ _ _ _ _) as [es1 m1] eqn:E1.
      injection H as <- <-.
      apply demo_subjects_loop_stalled in E0 as (H0 & Hd0 & _).
      apply IH in E1 as [H1 Hd1]. split.
      * apply (stalled_app_dates (Tracker.start_date settings + off));
          [done| |done|done].
        eapply Forall_impl; [exact Hd1|]. simpl. lia.
      * apply Forall_app. split.
        -- eapply Forall_impl; [exact Hd0|]. simpl. lia.
        -- eapply Forall_impl; [exact Hd1|]. simpl. lia.
Qed.

(** X29. In [src/Schedulyze/schedulyze_demo.py] the start time of the next
    session moves only when a break is appended: two study sessions of one
    date that follow each other without a break start at the same time. *)
Theorem demo_sessions_stall (today : Z) (subjects : list Subject)
    (settings : Settings) :
  stalled (generate_optimized_schedule today subjects settings).
Proof.
  unfold generate_optimized_schedule.
  destruct (days_loop _ _ _ _ _ _) as [es m] eqn:E.
  by apply demo_days_loop_stalled in E as [H _].
Qed.

(** Two subjects, two daily hours, 60-minute sessions: both sessions of
    the first day run from 09:00 to 10:00. *)
Example demo_sessions_overlap :
  map shown_demo
    (filter (fun e => date e = 738886%Z)
       (generate_optimized_schedule 738886 [maths; history] two_hours))
  = [("Maths"%string, study, 540%Z, 600%Z);
     ("History"%string, study, 540%Z, 600%Z)].
Proof. vm_compute. reflexivity. Qed.

End DemoClock.

(** ** The layout of a day *)

Section DayLayout.

Import Py Tracker.
Open Scope Q_scope.









End DayLayout.
